(** * Cantata dynamizer (python-cantatadyn): a shallow embedding and its properties

    The development follows the layout of the Python package:
    - [Py]: the behaviour of the Python string methods the package calls;
    - [Codec]: [cantata_codec.py];
    - [History]: [playqueuehistory.py];
    - [MinMax], [RulesParam], [Rules]: the classes of [rules.py];
    - [Connect]: [MpdConnection.read_reply] of [mpd_connect.py];
    - [Sys]: the file system the daemon works on;
    - [Daemon]: the [MPD] class of [cantatadyn.py] and [Rules.readRules],
      as state transformers that may raise;
    - [MpdQueue]: the play queue of MPD under [delete 0];
    - [Pool]: the candidate pool of [cantatadyn.py] ([get_songs] and the
      duration filter).
    The output on [stdout] and the log records are left out.

    A Python [str] is represented by the [string] of its UTF-8 bytes.  All the
    patterns the package searches for are ASCII, and UTF-8 is
    self-synchronising, so searching, splitting and replacing on the bytes
    agrees with the same operation on code points. *)

From Stdlib Require Import ZArith Ascii String DecimalString List Lia Bool.
From stdpp Require Import base option gmap strings list.

Open Scope string_scope.

(* ===================================================================== *)
(** ** Python string methods *)
(* ===================================================================== *)

Module Py.

(** The double quote and the control characters, which have no literal
    spelling here. *)
Definition dq : ascii := "034"%char.
Definition lf : ascii := "010"%char.
Definition cr : ascii := "013"%char.
Definition dqs : string := String dq "".
Definition nl : string := String lf "".

(** Does [s] start with [p]? *)
Fixpoint prefix (p s : string) : bool :=
  match p with
  | "" => true
  | String a p' =>
      match s with
      | "" => false
      | String b s' => Ascii.eqb a b && prefix p' s'
      end
  end.

(** [s.startswith(p)] *)
Definition startswith (s p : string) : bool := prefix p s.

(** [s.endswith(p)] *)
Definition endswith (s p : string) : bool :=
  prefix (String.rev p) (String.rev s).

(** [c in s] for a one-character [c]. *)
Fixpoint contains_char (c : ascii) (s : string) : bool :=
  match s with
  | "" => false
  | String d s' => if Ascii.eqb c d then true else contains_char c s'
  end.

(** [p in s] *)
Fixpoint contains (p s : string) : bool :=
  prefix p s
  || match s with
     | "" => false
     | String _ s' => contains p s'
     end.

(** [len(s)]: the number of code points, that is of bytes which are not
    UTF-8 continuation bytes (10xxxxxx). *)
Definition is_continuation (c : ascii) : bool :=
  let n := nat_of_ascii c in (128 <=? n)%nat && (n <? 192)%nat.

Fixpoint len (s : string) : nat :=
  match s with
  | "" => 0%nat
  | String c s' => if is_continuation c then len s' else S (len s')
  end.

(** [s.replace(old, new)]: the occurrences of [old] are found from left to
    right and do not overlap.  [skip] counts the bytes of a match that are
    still to be dropped.  With an empty [old] Python puts [new] around every
    character. *)
Fixpoint replace_go (old new : string) (skip : nat) (s : string) : string :=
  match s with
  | "" => ""
  | String c s' =>
      match skip with
      | S k => replace_go old new k s'
      | O =>
          if prefix old s
          then new +:+ replace_go old new (String.length old - 1) s'
          else String c (replace_go old new 0 s')
      end
  end.

Fixpoint interleave (new s : string) : string :=
  match s with
  | "" => new
  | String c s' => new +:+ String c (interleave new s')
  end.

Definition replace (old new s : string) : string :=
  match old with
  | "" => interleave new s
  | _ => replace_go old new 0 s
  end.

(** [s.split(sep)] and [s.split(sep, maxsplit)] for a non-empty [sep] (an
    empty separator raises [ValueError]; every call of the package passes a
    literal).  [maxsplit = None] stands for "no limit".  The result is never
    empty; its head is the piece under construction. *)
Definition cons_head (c : ascii) (l : list string) : list string :=
  match l with
  | [] => [String c ""]
  | h :: t => String c h :: t
  end.

Fixpoint split_go (sep : string) (maxsplit : option nat) (skip : nat)
    (s : string) : list string :=
  match s with
  | "" => [""]
  | String c s' =>
      match skip with
      | S k => split_go sep maxsplit k s'
      | O =>
          match maxsplit with
          | Some O => [s]
          | _ =>
              if prefix sep s
              then "" :: split_go sep (pred <$> maxsplit)
                                  (String.length sep - 1) s'
              else cons_head c (split_go sep maxsplit 0 s')
          end
      end
  end.

Definition split (sep : string) (s : string) : list string :=
  split_go sep None 0 s.

Definition split_max (sep : string) (maxsplit : nat) (s : string)
  : list string :=
  split_go sep (Some maxsplit) 0 s.

(** [s.splitlines()].  The line boundaries of [str.splitlines] are LF, CR,
    CR LF, VT, FF, FS, GS, RS, NEL (U+0085), LS (U+2028) and PS (U+2029);
    [line_break_len s] is the length in bytes of the boundary [s] starts
    with, or [0]. *)
Definition byte (n : nat) : ascii := ascii_of_nat n.

Definition line_break_len (s : string) : nat :=
  match s with
  | "" => 0
  | String c s' =>
      let n := nat_of_ascii c in
      if (n =? 13)%nat then
        match s' with
        | String d _ => if Ascii.eqb d lf then 2 else 1
        | "" => 1
        end
      else if (n =? 10)%nat || (n =? 11)%nat || (n =? 12)%nat
              || (n =? 28)%nat || (n =? 29)%nat || (n =? 30)%nat then 1
      else if prefix (String (byte 194) (String (byte 133) "")) s
      then 2
      else if prefix
                (String (byte 226) (String (byte 128) (String (byte 168) ""))) s
              || prefix
                (String (byte 226) (String (byte 128) (String (byte 169) ""))) s
      then 3
      else 0
  end%nat.

Fixpoint splitlines_go (skip : nat) (s : string) : list string :=
  match s with
  | "" => []
  | String c s' =>
      match skip with
      | S k => splitlines_go k s'
      | O =>
          match line_break_len s with
          | O => cons_head c (splitlines_go 0 s')
          | S k => "" :: splitlines_go k s'
          end
      end
  end.

Definition splitlines (s : string) : list string := splitlines_go 0 s.

(** White space as [str.rstrip] sees it: the characters with the Unicode
    White_Space property and FS, GS, RS, US.  [ws_len s] is the length in
    bytes of the white-space character [s] starts with, or [0]. *)
Definition ws_len (s : string) : nat :=
  match s with
  | "" => 0
  | String c s' =>
      let n := nat_of_ascii c in
      if ((9 <=? n) && (n <=? 13)) || ((28 <=? n) && (n <=? 32)) then 1
      else
        match s' with
        | "" => 0
        | String d s'' =>
            let m := nat_of_ascii d in
            if (n =? 194) then
              if (m =? 133) || (m =? 160) then 2 else 0
            else
              match s'' with
              | "" => 0
              | String e _ =>
                  let k := nat_of_ascii e in
                  if (n =? 225) && (m =? 154) && (k =? 128) then 3
                  else if (n =? 226) && (m =? 128)
                          && (((128 <=? k) && (k <=? 138))
                              || (k =? 168) || (k =? 169) || (k =? 175))
                  then 3
                  else if (n =? 226) && (m =? 129) && (k =? 159) then 3
                  else if (n =? 227) && (m =? 128) && (k =? 128) then 3
                  else 0
              end
        end
  end%nat.

Fixpoint lstrip_go (skip : nat) (s : string) : string :=
  match s with
  | "" => ""
  | String c s' =>
      match skip with
      | S k => lstrip_go k s'
      | O =>
          match ws_len s with
          | O => s
          | S k => lstrip_go k s'
          end
      end
  end.

(** [s.lstrip()] *)
Definition lstrip (s : string) : string := lstrip_go 0 s.

(** Is [s] made of white space only? *)
Definition all_ws (s : string) : bool :=
  match lstrip s with "" => true | _ => false end.

(** [s.rstrip()]: the shortest prefix of [s] that white space follows to
    the end. *)
Fixpoint rstrip (s : string) : string :=
  match s with
  | "" => ""
  | String c s' => if all_ws s then "" else String c (rstrip s')
  end.

(** [int(s)] for a string, as CPython 3.11 computes it, in its two steps.

    First the string is brought to ASCII: a character below 127 stays as
    it is, a white-space character outside ASCII becomes a space, a
    decimal digit of another script becomes the ASCII digit of its value,
    and at any other character the text ends with a question mark.
    [code_point s] is the code point of the UTF-8 sequence [s] starts with
    and the number of bytes after its first one; [decimal_zeros] lists the
    digits zero of Unicode 14, each followed by its digits one to nine. *)
Definition continuation (c : ascii) : option Z :=
  let n := Z.of_nat (nat_of_ascii c) in
  if (128 <=? n)%Z && (n <=? 191)%Z then Some (n - 128)%Z else None.

Definition code_point (s : string) : option (Z * nat) :=
  match s with
  | String a (String b r) =>
      let n := Z.of_nat (nat_of_ascii a) in
      x ← continuation b;
      if (194 <=? n)%Z && (n <=? 223)%Z
      then Some ((n - 192) * 64 + x, 1%nat)%Z
      else
        match r with
        | String c r' =>
            y ← continuation c;
            if (224 <=? n)%Z && (n <=? 239)%Z
            then
              let cp := (((n - 224) * 64 + x) * 64 + y)%Z in
              if (2048 <=? cp)%Z then Some (cp, 2%nat) else None
            else
              match r' with
              | String d _ =>
                  z ← continuation d;
                  let cp := ((((n - 240) * 64 + x) * 64 + y) * 64 + z)%Z in
                  if (240 <=? n)%Z && (65536 <=? cp)%Z && (cp <=? 1114111)%Z
                  then Some (cp, 3%nat) else None
              | "" => None
              end
        | "" => None
        end
  | _ => None
  end.

Definition decimal_zeros : list Z :=
  [1632; 1776; 1984; 2406; 2534; 2662; 2790; 2918; 3046; 3174; 3302; 3430;
   3558; 3664; 3792; 3872; 4160; 4240; 6112; 6160; 6470; 6608; 6784; 6800;
   6992; 7088; 7232; 7248; 42528; 43216; 43264; 43472; 43504; 43600; 44016;
   65296; 66720; 68912; 69734; 69872; 69942; 70096; 70384; 70736; 70864;
   71248; 71360; 71472; 71904; 72016; 72784; 73040; 73120; 92768; 92864;
   93008; 120782; 120792; 120802; 120812; 120822; 123200; 123632; 125264;
   130032]%Z.

(** [Py_UNICODE_TODECIMAL] *)
Definition decimal (cp : Z) : option Z :=
  (fun zero => cp - zero)%Z
    <$> List.find (fun zero => (zero <=? cp)%Z && (cp <? zero + 10)%Z)
          decimal_zeros.

Definition ascii_digit (d : Z) : ascii := ascii_of_nat (48 + Z.to_nat d).

(** [_PyUnicode_TransformDecimalAndSpaceToASCII] *)
Fixpoint to_ascii_go (skip : nat) (s : string) : string :=
  match s with
  | "" => ""
  | String c s' =>
      match skip with
      | S k => to_ascii_go k s'
      | O =>
          if (nat_of_ascii c <? 127)%nat then String c (to_ascii_go 0 s')
          else
            match ws_len s with
            | S k => String " " (to_ascii_go k s')
            | O =>
                match code_point s with
                | Some (cp, k) =>
                    match decimal cp with
                    | Some d => String (ascii_digit d) (to_ascii_go k s')
                    | None => "?"
                    end
                | None => "?"
                end
            end
      end
  end.

Definition to_ascii (s : string) : string := to_ascii_go 0 s.

(** Then [PyLong_FromString] reads the ASCII text: white space of C
    ([Py_ISSPACE]: tab to carriage return, and the space, so not FS, GS,
    RS, US), an optional sign, decimal digits with single underscores
    allowed between them, white space, and the end of the text.  A number
    of more than 4300 digits is refused.  [None] stands for
    [ValueError]. *)
Definition is_space (c : ascii) : bool :=
  let n := nat_of_ascii c in
  (((9 <=? n) && (n <=? 13)) || (n =? 32))%nat.

Fixpoint skip_spaces (s : string) : string :=
  match s with
  | String c s' => if is_space c then skip_spaces s' else s
  | "" => ""
  end.

Fixpoint only_spaces (s : string) : bool :=
  match s with
  | String c s' => is_space c && only_spaces s'
  | "" => true
  end.

Fixpoint drop_spaces (s : string) : string :=
  match s with
  | "" => ""
  | String c s' => if only_spaces s then "" else String c (drop_spaces s')
  end.

Definition is_digit (c : ascii) : bool :=
  let n := nat_of_ascii c in (48 <=? n)%nat && (n <=? 57)%nat.

Definition digit_val (c : ascii) : Z := Z.of_nat (nat_of_ascii c) - 48.

Fixpoint digits_go (acc : Z) (after_underscore : bool) (s : string)
  : option Z :=
  match s with
  | "" => if after_underscore then None else Some acc
  | String c s' =>
      if is_digit c then digits_go (acc * 10 + digit_val c) false s'
      else if Ascii.eqb c "_"
           then if after_underscore then None else digits_go acc true s'
           else None
  end.

Definition MAX_STR_DIGITS : nat := 4300.

Fixpoint count_digits (s : string) : nat :=
  match s with
  | "" => 0
  | String c s' => (if is_digit c then 1 else 0) + count_digits s'
  end%nat.

Definition digits (s : string) : option Z :=
  match s with
  | String c _ =>
      if is_digit c && (count_digits s <=? MAX_STR_DIGITS)%nat
      then digits_go 0 false s
      else None
  | "" => None
  end.

Definition int (s : string) : option Z :=
  match drop_spaces (skip_spaces (to_ascii s)) with
  | "" => None
  | String c r as t =>
      if Ascii.eqb c "-" then Z.opp <$> digits r
      else if Ascii.eqb c "+" then digits r
      else digits t
  end.

(** [str(n)] for an integer, as an f-string formats it. *)
Definition str_of_int (n : Z) : string := NilZero.string_of_int (Z.to_int n).

(** [''.join(l)] *)
Definition join (l : list string) : string :=
  fold_right String.append "" l.

End Py.

(* ===================================================================== *)
(** ** cantata_codec.py *)
(* ===================================================================== *)

Module Codec.

(** [CantataCodec.chr_repl_order] *)
Definition chr_repl_order : list (string * string) :=
  [ (Py.dqs, "{q}");
    ("{", "{ob}");
    ("}", "{cb}");
    (Py.nl, "{n}");
    (":", "{c}") ].

(** [CantataCodec.encode]: the pairs are applied first to last, each to the
    result of the one before; the result is the text and its length. *)
Definition encode (input : string) : string * nat :=
  let out := fold_left (fun inp ab => Py.replace (fst ab) (snd ab) inp)
                       chr_repl_order input in
  (out, Py.len out).

(** [CantataCodec.decode]: the pairs reversed, and each pair the other way
    round. *)
Definition decode (input : string) : string * nat :=
  let out := fold_left (fun inp ba => Py.replace (snd ba) (fst ba) inp)
                       (rev chr_repl_order) input in
  (out, Py.len out).

(** [codecs.encode(s, 'cantata')] and [codecs.decode(s, 'cantata')] return
    the first component. *)
Definition codecs_encode (s : string) : string := fst (encode s).
Definition codecs_decode (s : string) : string := fst (decode s).

End Codec.

(* ===================================================================== *)
(** ** Exceptions *)
(* ===================================================================== *)

(** The exceptions that the modelled code can raise, and the outcome of a
    call that may raise. *)
Inductive exn : Type :=
  | IndexError
  | TypeError
  | ValueError
  | KeyError
  | OSError
  | FileNotFoundError
  | UnicodeDecodeError.

Inductive result (A : Type) : Type :=
  | Ok (a : A)
  | Raise (e : exn).

Arguments Ok {A} a.
Arguments Raise {A} e.

(* ===================================================================== *)
(** ** playqueuehistory.py *)
(* ===================================================================== *)

Module History.

(** [round(x)] of Python 3 on the quotient [n / d] ([0 < d]): the nearest
    integer, a tie going to the even neighbour. *)
Definition round_half_even (n d : Z) : Z :=
  let q := (n / d)%Z in
  let r := (n mod d)%Z in
  if (2 * r <? d)%Z then q
  else if (d <? 2 * r)%Z then (q + 1)%Z
  else if Z.even q then q else (q + 1)%Z.

Record PlayQueueHistory : Type := {
  history : list string;
  limit : Z
}.

(** [PlayQueueHistory.__init__] *)
Definition init : PlayQueueHistory := {| history := []; limit := 0 |}.

(** The local [pq_limit] of [can_add]; [None] when the method returns
    before computing it ([num_songs == 1]).  [num_songs / 2.0] and
    [num_songs * 0.75] are exact in double precision for every length a
    list can have below [2^51], and above it the product exceeds 200 with
    or without rounding error, so integer arithmetic gives the same value. *)
Definition pq_limit (num_songs : Z) : option Z :=
  if (num_songs =? 1)%Z then None
  else if (num_songs <? 5)%Z then Some (round_half_even num_songs 2)
  else Some (Z.min (round_half_even (3 * num_songs) 4) 200).

(** [file not in self.history] *)
Definition not_in (file : string) (l : list string) : bool :=
  negb (existsb (String.eqb file) l).

(** [PlayQueueHistory.can_add]: the answer and the object afterwards. *)
Definition can_add (h : PlayQueueHistory) (file : string) (num_songs : Z)
  : bool * PlayQueueHistory :=
  match pq_limit num_songs with
  | None => (true, h)
  | Some l =>
      if negb (l =? limit h)%Z
      then (true, {| history := []; limit := l |})
      else (not_in file (history h), h)
  end.

(** [PlayQueueHistory.store_song] *)
Definition store_song (h : PlayQueueHistory) (file : string)
  : PlayQueueHistory :=
  let lim := if (limit h <=? 0)%Z then 5%Z else limit h in
  let hist :=
    if (lim <=? Z.of_nat (List.length (history h)))%Z
    then tl (history h) else history h in
  {| history := hist ++ [file]; limit := lim |}.

End History.

(* ===================================================================== *)
(** ** rules.py: MinMax and RulesParam *)
(* ===================================================================== *)

Module MinMax.

(** An argument of [MinMax.__init__]: [None], a number or a string. *)
Inductive Param : Type :=
  | PNone
  | PInt (z : Z)
  | PStr (s : string).

Record t : Type := { min : Z; max : Z }.

(** [if isinstance(x, str): x = int(x)] *)
Definition conv (p : Param) : result (option Z) :=
  match p with
  | PNone => Ok None
  | PInt z => Ok (Some z)
  | PStr s =>
      match Py.int s with
      | Some z => Ok (Some z)
      | None => Raise ValueError
      end
  end.

(** [MinMax.__init__].  The ends are exchanged only when [max > 0], which
    excludes an argument that was [None]. *)
Definition make (_min _max : Param) : result t :=
  match conv _min with
  | Raise e => Raise e
  | Ok a =>
      match conv _max with
      | Raise e => Raise e
      | Ok b =>
          let mn := default 0%Z a in
          let mx := default 0%Z b in
          if (mx <? mn)%Z && (0 <? mx)%Z
          then Ok {| min := default 0%Z b; max := default 0%Z a |}
          else Ok {| min := mn; max := mx |}
      end
  end.

(** [MinMax()] *)
Definition empty : t := {| min := 0; max := 0 |}.

(** [value in self] *)
Definition contains (r : t) (value : Z) : bool :=
  (min r <=? value)%Z && (value <=? max r)%Z.

(** [self == other], [self != other] *)
Definition eq (r other : t) : bool :=
  (min r =? min other)%Z && (max r =? max other)%Z.

Definition ne (r other : t) : bool :=
  negb (min r =? min other)%Z || negb (max r =? max other)%Z.

(** [self <= other] for a number [other] *)
Definition le (r : t) (other : Z) : bool :=
  (min r <=? other)%Z && (max r <=? other)%Z.

(** [self.copy()], that is [MinMax(self.min, self.max)]: the constructor
    runs again on the two numbers. *)
Definition copy (r : t) : t :=
  if (max r <? min r)%Z && (0 <? max r)%Z
  then {| min := max r; max := min r |}
  else {| min := min r; max := max r |}.

End MinMax.

Module RulesParam.

Record t : Type := {
  include : gset string;
  exclude : gset string;
  rating : MinMax.t;
  duration : MinMax.t
}.

(** [RulesParam()] *)
Definition empty : t :=
  {| include := ∅; exclude := ∅;
     rating := MinMax.empty; duration := MinMax.empty |}.

(** [a ^ b] on sets, and its truth value. *)
Definition symdiff (a b : gset string) : gset string := (a ∖ b) ∪ (b ∖ a).

Definition truthy (a : gset string) : bool := negb (bool_decide (a = ∅)).

(** [self != other], as a truth value: the [or] chain gives the first
    operand that is true. *)
Definition ne (p other : t) : bool :=
  truthy (symdiff (include p) (include other))
  || truthy (symdiff (exclude p) (exclude other))
  || MinMax.ne (rating p) (rating other)
  || MinMax.ne (duration p) (duration other).

(** [self.copy()] *)
Definition copy (p : t) : t :=
  {| include := include p; exclude := exclude p;
     rating := MinMax.copy (rating p); duration := MinMax.copy (duration p) |}.

End RulesParam.

(* ===================================================================== *)
(** ** mpd_connect.py: MpdConnection.read_reply *)
(* ===================================================================== *)

Module Connect.

(** [str(b, encoding='utf-8')] succeeds exactly on well-formed UTF-8 (no
    overlong forms, no surrogates, nothing above U+10FFFF).  [need] is the
    number of continuation bytes still expected and [lo], [hi] bound the
    next one. *)
Fixpoint utf8_go (need lo hi : nat) (s : string) : bool :=
  match s with
  | "" => (need =? 0)%nat
  | String c s' =>
      let n := nat_of_ascii c in
      match need with
      | O =>
          if (n <? 128) then utf8_go 0 128 191 s'
          else if (194 <=? n) && (n <=? 223) then utf8_go 1 128 191 s'
          else if (n =? 224) then utf8_go 2 160 191 s'
          else if (n =? 237) then utf8_go 2 128 159 s'
          else if (225 <=? n) && (n <=? 239) then utf8_go 2 128 191 s'
          else if (n =? 240) then utf8_go 3 144 191 s'
          else if (241 <=? n) && (n <=? 243) then utf8_go 3 128 191 s'
          else if (n =? 244) then utf8_go 3 128 143 s'
          else false
      | S k =>
          if (lo <=? n) && (n <=? hi) then utf8_go k 128 191 s' else false
      end
  end%nat.

Definition utf8_valid (s : string) : bool := utf8_go 0 128 191 s.

Definition str_utf8 (b : string) : result string :=
  if utf8_valid b then Ok b else Raise UnicodeDecodeError.

(** What a call of [read_reply] comes to: a returned string, [None] (the
    loop is never entered), an exception, or a [recv] that waits for data
    which has not arrived. *)
Inductive reply : Type :=
  | Text (s : string)
  | ReturnsNone
  | Raises (e : exn)
  | Waits.

(** The successive results of [self.sock.recv(1024)]: bytes (the empty
    string at end of stream) or an [IOError]. *)
Definition recv_events : Type := list (result string).

(** The two tests of the loop body. *)
Definition ok_terminated (socketData : string) : bool :=
  Py.startswith socketData "OK" || Py.endswith socketData ("OK" +:+ Py.nl).

Definition ack_started (socketData : string) : bool :=
  Py.startswith socketData "ACK".

Fixpoint read_reply_go (socketData : string) (events : recv_events) : reply :=
  match events with
  | [] => Waits
  | Raise e :: _ => Raises e
  | Ok data :: rest =>
      match data with
      | "" => Text ""
      | _ =>
          let socketData := socketData +:+ data in
          if ok_terminated socketData then
            match str_utf8 socketData with
            | Ok s => Text s
            | Raise e => Raises e
            end
          else if ack_started socketData then Text ""
          else read_reply_go socketData rest
      end
  end.

(** [MpdConnection.read_reply]; [connected] is [self.sock is not None]. *)
Definition read_reply (connected : bool) (events : recv_events) : reply :=
  if connected then read_reply_go "" events else ReturnsNone.

End Connect.

(* ===================================================================== *)
(** ** The process state and its effects *)
(* ===================================================================== *)

Module Sys.

(** The file system as the daemon sees it: regular files and symbolic
    links by path, modification times, and the paths that cannot be
    written (where [open(p, 'w')], [unlink] and [symlink] raise [OSError]).
    Directories are implicit, paths are compared as strings, and the target
    of a link is used as it is written. *)
Record FS : Type := {
  files : gmap string string;
  links : gmap string string;
  mtimes : gmap string Z;
  readonly : gset string
}.

Definition set_files (f : gmap string string) (fs : FS) : FS :=
  {| files := f; links := links fs; mtimes := mtimes fs;
     readonly := readonly fs |}.

Definition set_links (l : gmap string string) (fs : FS) : FS :=
  {| files := files fs; links := l; mtimes := mtimes fs;
     readonly := readonly fs |}.

Definition set_mtimes (m : gmap string Z) (fs : FS) : FS :=
  {| files := files fs; links := links fs; mtimes := m;
     readonly := readonly fs |}.

(** Following links, at most 40 of them as the kernel does. *)
Fixpoint resolve (fuel : nat) (fs : FS) (p : string) : option string :=
  match links fs !! p with
  | None => Some p
  | Some target =>
      match fuel with
      | O => None
      | S k => resolve k fs target
      end
  end.

(** [os.path.islink], [os.path.isfile], [os.path.exists], [os.readlink],
    [os.stat(p).st_mtime] *)
Definition islink (fs : FS) (p : string) : bool :=
  bool_decide (is_Some (links fs !! p)).

Definition isfile (fs : FS) (p : string) : bool :=
  match resolve 40 fs p with
  | Some q => bool_decide (is_Some (files fs !! q))
  | None => false
  end.

Definition exists_ (fs : FS) (p : string) : bool := isfile fs p.

Definition readlink (fs : FS) (p : string) : result string :=
  match links fs !! p with
  | Some target => Ok target
  | None => Raise OSError
  end.

Definition st_mtime (fs : FS) (p : string) : result Z :=
  match resolve 40 fs p with
  | Some q =>
      match files fs !! q with
      | Some _ => Ok (default 0%Z (mtimes fs !! q))
      | None => Raise FileNotFoundError
      end
  | None => Raise OSError
  end.

(** Reading a text file: the bytes are decoded as UTF-8 and, in text
    mode, CR LF and CR become LF. *)
Definition universal_newlines (s : string) : string :=
  Py.replace (String Py.cr "") Py.nl
    (Py.replace (String Py.cr Py.nl) Py.nl s).

Definition read_text (fs : FS) (p : string) : result string :=
  match resolve 40 fs p with
  | None => Raise OSError
  | Some q =>
      match files fs !! q with
      | None => Raise FileNotFoundError
      | Some bytes =>
          match Connect.str_utf8 bytes with
          | Ok s => Ok (universal_newlines s)
          | Raise e => Raise e
          end
      end
  end.

(** [with open(p, 'w', encoding='utf-8') as f: f.write(content)] at time
    [now]. *)
Definition write_text (fs : FS) (now : Z) (p content : string) : result FS :=
  match resolve 40 fs p with
  | None => Raise OSError
  | Some q =>
      if bool_decide (q ∈ readonly fs) then Raise OSError
      else Ok (set_mtimes (<[q := now]> (mtimes fs))
                 (set_files (<[q := content]> (files fs)) fs))
  end.

(** [os.unlink(p)] removes the link or the file named [p] itself. *)
Definition unlink (fs : FS) (p : string) : result FS :=
  if bool_decide (p ∈ readonly fs) then Raise OSError
  else
    match links fs !! p with
    | Some _ => Ok (set_links (delete p (links fs)) fs)
    | None =>
        match files fs !! p with
        | Some _ => Ok (set_files (delete p (files fs)) fs)
        | None => Raise FileNotFoundError
        end
    end.

(** [os.symlink(target, p)] *)
Definition symlink (fs : FS) (target p : string) : result FS :=
  if bool_decide (p ∈ readonly fs) then Raise OSError
  else if bool_decide (is_Some (links fs !! p))
          || bool_decide (is_Some (files fs !! p)) then Raise OSError
  else Ok (set_links (<[p := target]> (links fs)) fs).

(** [os.path.basename(p)]: what follows the last slash. *)
Definition basename (p : string) : string :=
  List.last (Py.split "/" p) "".

(** [os.path.splitext(name)[0]] for a name without slash: the extension
    starts at the last dot, unless only dots precede it. *)
Fixpoint only_dots (s : string) : bool :=
  match s with
  | "" => true
  | String c s' => Ascii.eqb c "." && only_dots s'
  end.

Fixpoint after_first_dot (s : string) : option string :=
  match s with
  | "" => None
  | String c s' => if Ascii.eqb c "." then Some s' else after_first_dot s'
  end.

Definition splitext_root (name : string) : string :=
  match after_first_dot (String.rev name) with
  | Some rest => if only_dots rest then name else String.rev rest
  | None => name
  end.

(** [os.walk(top)] restricted to what [list_rules] reads: the pairs of a
    directory [root] at or below [top] (written without a final slash) and
    the name of a file in it.  The order in which a real directory is
    listed is not specified; here it is the order of the maps. *)
Fixpoint join_sep (sep : string) (l : list string) : string :=
  match l with
  | [] => ""
  | [x] => x
  | x :: rest => x +:+ sep +:+ join_sep sep rest
  end.

Definition dirname (p : string) : string :=
  join_sep "/" (removelast (Py.split "/" p)).

Definition walk (fs : FS) (top : string) : list (string * string) :=
  List.map (fun p => (dirname p, basename p))
    (List.filter (fun p => Py.startswith p (top +:+ "/"))
       (List.map fst (map_to_list (files fs))
        ++ List.map fst (map_to_list (links fs)))).

End Sys.

(* ===================================================================== *)
(** ** rules.py: the Rules object *)
(* ===================================================================== *)

Module Rules.

(** The attributes of a [Rules] object.  [param0] and [param1] are
    [self.__param[0]] and [self.__param[1]]: the constructor puts one and
    the same [RulesParam] in both places, [readRules] replaces the first by
    a fresh object before anything is stored in it, and [checkRulesChanged]
    stores a copy in the second, so the two never share state when they are
    written.  [modified] is the truth value of [self.__modified]. *)
Record t : Type := {
  dir : string;
  active_file : string;
  initial_read : bool;
  modified : bool;
  param0 : RulesParam.t;
  param1 : RulesParam.t;
  includeUnrated : bool;
  rules_timestamp : Z;
  active_links_to : option string;
  playQueueDesiredLength : Z
}.

(** [Rules.PLAY_QUEUE_DESIRED_LENGTH], [..._DEFAULT] *)
Definition PLAY_QUEUE_DESIRED_LENGTH : MinMax.t :=
  {| MinMax.min := 10; MinMax.max := 500 |}.
Definition PLAY_QUEUE_DESIRED_LENGTH_DEFAULT : Z := 10.

(** [Rules.__init__] *)
Definition init (rules_dir active : string) : t :=
  {| dir := rules_dir; active_file := active;
     initial_read := true; modified := false;
     param0 := RulesParam.empty; param1 := RulesParam.empty;
     includeUnrated := false; rules_timestamp := 0;
     active_links_to := None; playQueueDesiredLength := 10 |}.

Definition set_modified (b : bool) (r : t) : t :=
  {| dir := dir r; active_file := active_file r;
     initial_read := initial_read r; modified := b;
     param0 := param0 r; param1 := param1 r;
     includeUnrated := includeUnrated r;
     rules_timestamp := rules_timestamp r;
     active_links_to := active_links_to r;
     playQueueDesiredLength := playQueueDesiredLength r |}.

Definition set_param0 (p : RulesParam.t) (r : t) : t :=
  {| dir := dir r; active_file := active_file r;
     initial_read := initial_read r; modified := modified r;
     param0 := p; param1 := param1 r;
     includeUnrated := includeUnrated r;
     rules_timestamp := rules_timestamp r;
     active_links_to := active_links_to r;
     playQueueDesiredLength := playQueueDesiredLength r |}.

Definition set_param1 (p : RulesParam.t) (r : t) : t :=
  {| dir := dir r; active_file := active_file r;
     initial_read := initial_read r; modified := modified r;
     param0 := param0 r; param1 := p;
     includeUnrated := includeUnrated r;
     rules_timestamp := rules_timestamp r;
     active_links_to := active_links_to r;
     playQueueDesiredLength := playQueueDesiredLength r |}.

Definition set_includeUnrated (b : bool) (r : t) : t :=
  {| dir := dir r; active_file := active_file r;
     initial_read := initial_read r; modified := modified r;
     param0 := param0 r; param1 := param1 r;
     includeUnrated := b;
     rules_timestamp := rules_timestamp r;
     active_links_to := active_links_to r;
     playQueueDesiredLength := playQueueDesiredLength r |}.

Definition set_stamp (ts : Z) (target : string) (r : t) : t :=
  {| dir := dir r; active_file := active_file r;
     initial_read := initial_read r; modified := modified r;
     param0 := param0 r; param1 := param1 r;
     includeUnrated := includeUnrated r;
     rules_timestamp := ts;
     active_links_to := Some target;
     playQueueDesiredLength := playQueueDesiredLength r |}.

Definition set_playQueueDesiredLength (n : Z) (r : t) : t :=
  {| dir := dir r; active_file := active_file r;
     initial_read := initial_read r; modified := modified r;
     param0 := param0 r; param1 := param1 r;
     includeUnrated := includeUnrated r;
     rules_timestamp := rules_timestamp r;
     active_links_to := active_links_to r;
     playQueueDesiredLength := n |}.

(** The properties [include], [exclude], [rating], [duration] read and
    write [self.__param[0]]. *)
Definition include (r : t) : gset string := RulesParam.include (param0 r).
Definition exclude (r : t) : gset string := RulesParam.exclude (param0 r).
Definition rating (r : t) : MinMax.t := RulesParam.rating (param0 r).
Definition duration (r : t) : MinMax.t := RulesParam.duration (param0 r).

Definition set_include (s : gset string) (r : t) : t :=
  set_param0 {| RulesParam.include := s;
                RulesParam.exclude := exclude r;
                RulesParam.rating := rating r;
                RulesParam.duration := duration r |} r.

Definition set_exclude (s : gset string) (r : t) : t :=
  set_param0 {| RulesParam.include := include r;
                RulesParam.exclude := s;
                RulesParam.rating := rating r;
                RulesParam.duration := duration r |} r.

Definition set_rating (m : MinMax.t) (r : t) : t :=
  set_param0 {| RulesParam.include := include r;
                RulesParam.exclude := exclude r;
                RulesParam.rating := m;
                RulesParam.duration := duration r |} r.

Definition set_duration (m : MinMax.t) (r : t) : t :=
  set_param0 {| RulesParam.include := include r;
                RulesParam.exclude := exclude r;
                RulesParam.rating := rating r;
                RulesParam.duration := m |} r.

(** [Rules.checkRulesChanged] (the [print] apart). *)
Definition checkRulesChanged (r : t) : t :=
  let r1 :=
    if negb (modified r)
    then set_modified (RulesParam.ne (param0 r) (param1 r)) r
    else r in
  if modified r1 then set_param1 (RulesParam.copy (param0 r1)) r1 else r1.

End Rules.

(* ===================================================================== *)
(** ** cantatadyn.py: the MPD class *)
(* ===================================================================== *)

Module Daemon.

(** Functions of the Python library and of the outside world that are not
    modelled: [str.casefold], [urllib.parse.unquote], [os.path.abspath]
    (which depends on the working directory) and the answer of the
    similar-artist service ([SimilairArtists.query]). *)
Record Lib : Type := {
  casefold : string -> string;
  unquote : string -> string;
  abspath : string -> string;
  similar : string -> list string
}.

(** [MPDStatus] *)
Record MPDStatus : Type := {
  dynamic : bool;
  text : string;
  time : Z
}.

(** The state of the process: the file system, the commands passed to
    [send_command] so far (oldest first), the desktop-bus calls of client
    mode, the paths opened for writing, the clock, and the attributes of
    the [MPD] object. *)
Record World : Type := {
  fs : Sys.FS;
  sent : list string;
  dbus : list (string * string);
  opened : list string;
  clock : Z;
  rules : Rules.t;
  status : MPDStatus;
  songs : list string;
  play_queue_history : History.PlayQueueHistory;
  server_mode : bool;
  test_mode : bool;
  active_file : string
}.

Definition set_fs (x : Sys.FS) (w : World) : World :=
  {| fs := x; sent := sent w; dbus := dbus w; opened := opened w;
     clock := clock w; rules := rules w; status := status w;
     songs := songs w; play_queue_history := play_queue_history w;
     server_mode := server_mode w; test_mode := test_mode w;
     active_file := active_file w |}.

Definition set_sent (x : list string) (w : World) : World :=
  {| fs := fs w; sent := x; dbus := dbus w; opened := opened w;
     clock := clock w; rules := rules w; status := status w;
     songs := songs w; play_queue_history := play_queue_history w;
     server_mode := server_mode w; test_mode := test_mode w;
     active_file := active_file w |}.

Definition set_dbus (x : list (string * string)) (w : World) : World :=
  {| fs := fs w; sent := sent w; dbus := x; opened := opened w;
     clock := clock w; rules := rules w; status := status w;
     songs := songs w; play_queue_history := play_queue_history w;
     server_mode := server_mode w; test_mode := test_mode w;
     active_file := active_file w |}.

Definition set_opened (x : list string) (w : World) : World :=
  {| fs := fs w; sent := sent w; dbus := dbus w; opened := x;
     clock := clock w; rules := rules w; status := status w;
     songs := songs w; play_queue_history := play_queue_history w;
     server_mode := server_mode w; test_mode := test_mode w;
     active_file := active_file w |}.

Definition set_rules (x : Rules.t) (w : World) : World :=
  {| fs := fs w; sent := sent w; dbus := dbus w; opened := opened w;
     clock := clock w; rules := x; status := status w;
     songs := songs w; play_queue_history := play_queue_history w;
     server_mode := server_mode w; test_mode := test_mode w;
     active_file := active_file w |}.

Definition set_status (x : MPDStatus) (w : World) : World :=
  {| fs := fs w; sent := sent w; dbus := dbus w; opened := opened w;
     clock := clock w; rules := rules w; status := x;
     songs := songs w; play_queue_history := play_queue_history w;
     server_mode := server_mode w; test_mode := test_mode w;
     active_file := active_file w |}.

Definition set_songs (x : list string) (w : World) : World :=
  {| fs := fs w; sent := sent w; dbus := dbus w; opened := opened w;
     clock := clock w; rules := rules w; status := status w;
     songs := x; play_queue_history := play_queue_history w;
     server_mode := server_mode w; test_mode := test_mode w;
     active_file := active_file w |}.

(** *** The monad of the methods: state, and exceptions that keep it *)

Definition M (A : Type) : Type := World -> result A * World.

Definition ret {A : Type} (a : A) : M A := fun w => (Ok a, w).

Definition raise {A : Type} (e : exn) : M A := fun w => (Raise e, w).

Definition bind {A B : Type} (m : M A) (k : A -> M B) : M B :=
  fun w =>
    match m w with
    | (Ok a, w') => k a w'
    | (Raise e, w') => (Raise e, w')
    end.

Definition get : M World := fun w => (Ok w, w).

Definition modify (f : World -> World) : M unit := fun w => (Ok tt, f w).

Definition lift {A : Type} (r : result A) : M A := fun w => (r, w).

(** [try: body  except <caught>: handler] *)
Definition try_except {A : Type} (body : M A) (caught : exn -> bool)
    (handler : M A) : M A :=
  fun w =>
    match body w with
    | (Ok a, w') => (Ok a, w')
    | (Raise e, w') => if caught e then handler w' else (Raise e, w')
    end.

(** [FileNotFoundError] is a subclass of [OSError]. *)
Definition is_OSError (e : exn) : bool :=
  match e with
  | OSError | FileNotFoundError => true
  | _ => false
  end.

Notation "'let*' x ':=' m 'in' k" := (bind m (fun x => k))
  (at level 10, x name, m at level 100, k at level 200).
Notation "m '>>>' k" := (bind m (fun _ => k))
  (at level 90, right associativity).

(** A [for] loop over a list, and [for i in range(n)] with an accumulator. *)
Fixpoint for_each {A : Type} (l : list A) (body : A -> M unit) : M unit :=
  match l with
  | [] => ret tt
  | x :: rest => body x >>> for_each rest body
  end.

Fixpoint for_range {S : Type} (n : nat) (body : S -> M S) (s : S) : M S :=
  match n with
  | O => ret s
  | S k => let* s' := body s in for_range k body s'
  end.

Section Methods.

(** What MPD answers: [mpd_reply earlier cmd] is the text [send_command]
    returns for [cmd] after the commands [earlier]; it is empty when MPD
    answered [ACK] or the connection failed three times. *)
Variable mpd_reply : list string -> string -> string.
Variable lib : Lib.

Definition writeChannel : string := "cantata-dynamic-out".

(** [MpdConnection.send_command] *)
Definition send_command (cmd : string) : M string :=
  fun w => (Ok (mpd_reply (sent w) cmd), set_sent (sent w ++ [cmd]) w).

(** [MpdConnection.clear], [MpdConnection.delete] *)
Definition conn_clear : M string := send_command "clear".

Definition conn_delete (idx : Z) : M string :=
  send_command ("delete " +:+ Py.str_of_int idx).

(** [MPD.query] with a key: the values of the lines [<key>: <value>]. *)
Definition key_value (line : string) : option (string * string) :=
  match Py.split_max ": " 1 line with
  | [k; v] => Some (k, v)
  | _ => None
  end.

Definition query_pairs (command : string) : M (list (string * string)) :=
  let* data := send_command command in
  ret (omap key_value (Py.splitlines data)).

Definition query (command key : string) : M (list string) :=
  let* pairs := query_pairs command in
  ret (List.map snd (List.filter (fun kv => String.eqb key (fst kv)) pairs)).

(** [MPD.get_active] *)
Definition get_active (w : World) : string :=
  if Sys.islink (fs w) (active_file w) && Sys.isfile (fs w) (active_file w)
  then
    match Sys.readlink (fs w) (active_file w) with
    | Ok target => Sys.splitext_root (Sys.basename target)
    | Raise _ => ""
    end
  else "".

(** [MPD.send_message].  In client mode the message goes to the desktop
    bus; the call is recorded. *)
Definition sendmessage_cmd (channel method argument : string) : string :=
  "sendmessage " +:+ channel +:+ " " +:+ Py.dqs
  +:+ method +:+ ":" +:+ argument +:+ Py.dqs.

Definition send_message (method argument : string)
    (client_id : option string) : M unit :=
  let* w := get in
  if server_mode w then
    if bool_decide (client_id = Some "http") then ret tt
    else
      match client_id with
      | Some (String _ _ as c) =>
          send_command
            (sendmessage_cmd (writeChannel +:+ "-" +:+ c) method argument)
          >>> ret tt
      | _ =>
          send_command (sendmessage_cmd writeChannel method argument)
          >>> ret tt
      end
  else modify (fun w => set_dbus (dbus w ++ [(method, argument)]) w).

(** [MPDStatus.timestamp], [MPDStatus.update] *)
Definition status_timestamp : M unit :=
  modify (fun w =>
    set_status {| dynamic := dynamic (status w); text := text (status w);
                  time := clock w |} w).

Definition status_update (d : bool) (txt : string) : M unit :=
  modify (fun w =>
    set_status {| dynamic := d; text := txt; time := time (status w) |} w).

(** [MPD.status_response], [MPD.send_status] *)
Definition status_response (req : string) (client_id : option string)
  : M unit :=
  let* w := get in
  let active := Codec.codecs_encode (get_active w) in
  send_message req
    (text (status w) +:+ ":" +:+ Py.str_of_int (time (status w))
     +:+ ":" +:+ active)
    client_id.

Definition send_status (client_id : option string) : M unit :=
  status_response "status" client_id.

(** [MPD.read_rules_file] *)
Definition read_rules_file (filename : string) : M (list string) :=
  let filename := unquote lib filename in
  let* w := get in
  let* content := lift (Sys.read_text (fs w) filename) in
  ret (List.map
         (fun line => if Py.endswith line Py.nl then line else line +:+ Py.nl)
         (Py.splitlines content)).

(** [MPD.list_rules]; the result is the list when [req] is ["http"],
    [None] otherwise. *)
Fixpoint list_rules_walk (entries : list (string * string))
    (show_contents : bool) : M (list string) :=
  match entries with
  | [] => ret []
  | (root, file) :: rest =>
      if Py.endswith file ".rules" then
        let* body :=
          (if show_contents
           then read_rules_file (root +:+ "/" +:+ file)
           else ret []) in
        let* more := list_rules_walk rest show_contents in
        ret ((("FILENAME:" +:+ file +:+ Py.nl) :: body) ++ more)%list
      else list_rules_walk rest show_contents
  end.

Definition list_rules (req : string) (client_id : option string)
    (show_contents : bool) : M (option (list string)) :=
  let* w := get in
  let* result :=
    list_rules_walk (Sys.walk (fs w) (Rules.dir (rules w))) show_contents in
  if String.eqb req "http" then ret (Some result)
  else
    send_message req (Codec.codecs_encode (Py.join result)) client_id
    >>> ret None.

(** The file name of a rule set: [codecs.decode(orig_name,
    'cantata').replace('/', '')] and [f"{self.rules.dir}/{name}.rules"]. *)
Definition rules_name (orig_name : string) : string :=
  Py.replace "/" "" (Codec.codecs_decode orig_name).

Definition rules_path (w : World) (name : string) : string :=
  Rules.dir (rules w) +:+ "/" +:+ name +:+ ".rules".

(** [MPD.get_rules] *)
Definition get_rules (req : string) (client_id : option string)
    (orig_name : string) : M unit :=
  let name := rules_name orig_name in
  let* w := get in
  let* result := read_rules_file (rules_path w name) in
  send_message req (Codec.codecs_encode (Py.join result)) client_id.

(** [with open(filepath, 'w', encoding='utf-8') as f: f.write(content)] *)
Definition open_write (filepath content : string) : M unit :=
  fun w =>
    let w := set_opened (opened w ++ [filepath]) w in
    match Sys.write_text (fs w) (clock w) filepath content with
    | Ok fs' => (Ok tt, set_fs fs' w)
    | Raise e => (Raise e, w)
    end.

(** [MPD.save_rules] *)
Definition save_rules (req : string) (client_id : option string)
    (orig_name content : string) : M unit :=
  let name := rules_name orig_name in
  if String.eqb name "" then send_message req "1" client_id
  else if Py.endswith name ".rules" || Py.contains_char "/" name
  then send_message req ("2:" +:+ orig_name) client_id
  else
    let content := Codec.codecs_decode content in
    let* w := get in
    let filepath := rules_path w name in
    try_except
      (open_write filepath content >>>
       status_timestamp >>>
       send_message req ("0:" +:+ orig_name) client_id >>>
       send_status client_id)
      is_OSError
      (send_message req ("3:" +:+ orig_name) client_id).

(** [MPD.control] *)
Definition control (req : string) (client_id : option string)
    (command clear_on_stop : string) : M unit :=
  if String.eqb command "start" then
    status_update true "STARTING" >>>
    conn_clear >>>
    send_message req ("0:" +:+ command) client_id
  else if String.eqb command "stop" then
    status_update false "IDLE" >>>
    (if String.eqb clear_on_stop "true" || String.eqb clear_on_stop "1"
        || String.eqb clear_on_stop "clear"
     then conn_clear >>> ret tt else ret tt) >>>
    send_message req ("0:" +:+ command) client_id >>>
    send_status client_id
  else send_message req ("5:" +:+ command) client_id.

(** [os.unlink], [os.symlink] on the state. *)
Definition os_unlink (p : string) : M unit :=
  fun w =>
    match Sys.unlink (fs w) p with
    | Ok fs' => (Ok tt, set_fs fs' w)
    | Raise e => (Raise e, w)
    end.

Definition os_symlink (target p : string) : M unit :=
  fun w =>
    match Sys.symlink (fs w) target p with
    | Ok fs' => (Ok tt, set_fs fs' w)
    | Raise e => (Raise e, w)
    end.

(** [MPD.delete_rules] *)
Definition delete_rules (req : string) (client_id : option string)
    (orig_name : string) : M unit :=
  let name := rules_name orig_name in
  let* w := get in
  let active_filename := get_active w in
  let filepath := rules_path w name in
  let* removed :=
    try_except (os_unlink filepath >>> ret true) is_OSError
      (send_message req ("4:" +:+ orig_name) client_id >>> ret false) in
  if removed : bool then
    status_timestamp >>>
    (if String.eqb name active_filename
     then control req client_id "stop" "true" else ret tt) >>>
    send_message req ("0:" +:+ orig_name) client_id >>>
    send_status client_id
  else ret tt.

(** [MPD.setActive_rules] (the log records apart). *)
Definition setActive_rules (req : string) (client_id : option string)
    (origName start : string) : M unit :=
  let name := Codec.codecs_decode origName in
  if String.eqb name "" then send_message req "1" client_id
  else
    let* w := get in
    let active_filename := get_active w in
    let starts := String.eqb start "start" || String.eqb start "1" in
    if String.eqb name active_filename then
      (if starts && String.eqb (text (status w)) "IDLE"
       then status_update true "STARTING" >>> conn_clear >>>
            send_status None
       else ret tt) >>>
      send_message req ("0:" +:+ origName) client_id
    else
      let rulesName := rules_path w name in
      if Sys.isfile (fs w) rulesName then
        let* go_on :=
          (if Sys.islink (fs w) (active_file w) then
             try_except (os_unlink (active_file w) >>> ret true) is_OSError
               (send_message req "6" client_id >>> ret false)
           else if Sys.isfile (fs w) (active_file w) then
             send_message req ("7:" +:+ origName) client_id >>> ret false
           else ret true) in
        if go_on : bool then
          let* linked :=
            try_except (os_symlink rulesName (active_file w) >>> ret true)
              is_OSError
              (send_message req ("8:" +:+ origName) client_id >>> ret false)
          in
          if linked : bool then
            (if starts
             then status_update true "STARTING" >>> conn_clear >>> ret tt
             else ret tt) >>>
            send_message req ("0:" +:+ origName) client_id >>>
            send_status client_id
          else ret tt
        else ret tt
      else send_message req ("9:" +:+ origName) client_id.

(** [MPD.handle_client_message].  A handler is called with the parts
    unpacked as its arguments, which raises [TypeError] when their number
    does not fit its parameters; [parts[1]] raises [IndexError] when there
    is one part only. *)
Definition truthy (s : string) : bool := negb (String.eqb s "").

Definition dispatch (parts : list string) : M unit :=
  match parts with
  | [] => raise IndexError
  | [p0] => raise IndexError
  | p0 :: p1 :: args =>
      if Py.endswith p0 "status" then status_response p0 (Some p1)
      else if Py.endswith p0 "list" then
        match args with
        | [] => list_rules p0 (Some p1) true >>> ret tt
        | [show] => list_rules p0 (Some p1) (truthy show) >>> ret tt
        | _ => raise TypeError
        end
      else if Py.startswith p0 "get" then
        match args with
        | [orig_name] => get_rules p0 (Some p1) orig_name
        | _ => raise TypeError
        end
      else if Py.startswith p0 "save" then
        match args with
        | [orig_name] => save_rules p0 (Some p1) orig_name ""
        | [orig_name; content] => save_rules p0 (Some p1) orig_name content
        | _ => raise TypeError
        end
      else if Py.startswith p0 "delete" then
        match args with
        | [orig_name] => delete_rules p0 (Some p1) orig_name
        | _ => raise TypeError
        end
      else if Py.startswith p0 "setActive" then
        match args with
        | [origName] => setActive_rules p0 (Some p1) origName ""
        | [origName; start] => setActive_rules p0 (Some p1) origName start
        | _ => raise TypeError
        end
      else if Py.startswith p0 "control" then
        match args with
        | [command] => control p0 (Some p1) command ""
        | [command; clear_on_stop] =>
            control p0 (Some p1) command clear_on_stop
        | _ => raise TypeError
        end
      else send_message p0 "11" (Some p1)
  end.

Definition handle_line (line : string) : M unit :=
  if Py.startswith line "message: " then
    let line := Py.replace "message: " "" line in
    let parts := Py.split ":" line in
    if (2 <=? List.length parts)%nat then dispatch parts
    else
      (* self.send_message(parts[0], "10", parts[1]) *)
      match parts with
      | p0 :: p1 :: _ => send_message p0 "10" (Some p1)
      | _ => raise IndexError
      end
  else ret tt.

Definition handle_client_message (data : string) : M unit :=
  for_each (Py.splitlines data) handle_line.

(** *** The rating filter *)

(** [MPD._song_rating_in_range] *)
Definition _song_rating_in_range (sticker_entry : string) : M bool :=
  let* w := get in
  match Py.split "=" sticker_entry with
  | [_; value] =>
      match Py.int value with
      | None => raise ValueError
      | Some rating =>
          ret (MinMax.contains (Rules.rating (rules w)) rating
               || ((rating =? 0)%Z && Rules.includeUnrated (rules w)))
      end
  | _ => ret false
  end.

(** [del l[pos]]: [None] is not an index, a negative index counts from the
    end, an index outside the list raises [IndexError]. *)
Definition del_at (l : list string) (pos : option Z) : result (list string) :=
  match pos with
  | None => Raise TypeError
  | Some i =>
      let n := Z.of_nat (List.length l) in
      let j := if (i <? 0)%Z then (i + n)%Z else i in
      if (0 <=? j)%Z && (j <? n)%Z then Ok (delete (Z.to_nat j) l)
      else Raise IndexError
  end.

(** The loop over the sticker entries: the first entry in range ends it. *)
Fixpoint any_in_range (entries : list string) : M bool :=
  match entries with
  | [] => ret false
  | entry :: rest =>
      let* b := _song_rating_in_range entry in
      if b : bool then ret true else any_in_range rest
  end.

Definition sticker_get_cmd (filename : string) : string :=
  "sticker get song " +:+ Py.dqs +:+ filename +:+ Py.dqs +:+ " rating".

(** [MPD.check_song_rating_in_range] (the [print] of test mode apart). *)
Definition check_song_rating_in_range (filename : string) (pos : option Z)
  : M bool :=
  let* w := get in
  if MinMax.le (Rules.rating (rules w)) 0 then ret true
  else if (List.length (songs w) =? 0)%nat then ret false
  else if bool_decide (Rules.include (rules w) = ∅) then ret true
  else
    let* entries := query (sticker_get_cmd filename) "sticker" in
    let* found := any_in_range entries in
    if found : bool then ret true
    else
      let* w := get in
      let* l := lift (del_at (songs w) pos) in
      modify (set_songs l) >>> ret false.

(** *** The trim step of [populate_play_queue_forever] *)

(** From [wantCurrentPos = ...] to the clamping of [play_queue_length]:
    the result is the local [play_queue_length] afterwards. *)
Definition trim (play_queue_track_pos play_queue_length : Z) : M Z :=
  let* w := get in
  let wantCurrentPos := (Rules.playQueueDesiredLength (rules w) / 2)%Z in
  let* len :=
    for_range (Z.to_nat (play_queue_track_pos - (wantCurrentPos - 1)))
      (fun len => conn_delete 0 >>> ret (len - 1)%Z)
      play_queue_length in
  ret (if (len <? 0)%Z then 0%Z else len).

(** *** Rules.saveRule and Rules.readRules *)

(** The local variables of the parsing loop. *)
Record ParseState : Type := {
  ruleMatch : string;
  currentRule : string;
  dates : list Z;
  similarArtists : gset string;
  isInclude : bool;
  genres : list string;
  maxAge : Z
}.

Definition quoted (s : string) : string := Py.dqs +:+ s +:+ Py.dqs.

(** The strings one call of [saveRule] adds. *)
Definition rule_texts (rule : string) (dates : list Z)
    (artistList genreList : list string) (ruleMatch : string)
    (isInclude : bool) (maxAge : Z) : list string :=
  let artistList := match artistList with [] => [""] | _ => artistList end in
  let genreList := match genreList with [] => [""] | _ => genreList end in
  flat_map (fun genre =>
    flat_map (fun artist =>
      if (0 <? List.length dates)%nat then
        List.map (fun date =>
          ruleMatch +:+ " " +:+ rule +:+ " Date "
          +:+ quoted (Py.str_of_int date)
          +:+ (if truthy artist then " Artist " +:+ quoted artist else "")
          +:+ (if truthy genre then " Genre " +:+ quoted genre else "")
          +:+ (if isInclude && (0 <? maxAge)%Z
               then " modified-since " +:+ Py.str_of_int maxAge else ""))
          dates
      else if truthy artist || truthy genre || truthy rule
              || (isInclude && (0 <? maxAge)%Z) then
        [ ruleMatch +:+ " " +:+ rule
          +:+ (if truthy artist then " Artist " +:+ quoted artist else "")
          +:+ (if truthy genre then " Genre " +:+ quoted genre else "")
          +:+ (if (0 <? maxAge)%Z
               then " modified-since " +:+ Py.str_of_int maxAge else "") ]
      else [])
      artistList)
    genreList.

(** [Rules.saveRule]: the strings go into [self.include] or
    [self.exclude]. *)
Definition saveRule (rule : string) (dates : list Z)
    (artistList genreList : list string) (ruleMatch : string)
    (isInclude : bool) (maxAge : Z) (r : Rules.t) : Rules.t :=
  let added : gset string :=
    list_to_set
      (rule_texts rule dates artistList genreList ruleMatch isInclude maxAge)
  in
  if isInclude then Rules.set_include (Rules.include r ∪ added) r
  else Rules.set_exclude (Rules.exclude r ∪ added) r.

Definition modify_rules (f : Rules.t -> Rules.t) : M unit :=
  modify (fun w => set_rules (f (rules w)) w).

(** [len(currentRule) > 1 or similarArtists or dates or genres] *)
Definition in_flight (st : ParseState) : bool :=
  (1 <? Py.len (currentRule st))%nat
  || negb (bool_decide (similarArtists st = ∅))
  || negb (bool_decide (dates st = []))
  || negb (bool_decide (genres st = [])).

Definition flush (st : ParseState) : M unit :=
  modify_rules
    (saveRule (currentRule st) (dates st) (elements (similarArtists st))
       (genres st) (ruleMatch st) (isInclude st) (maxAge st)).

(** [list(range(a, b + 1))] *)
Definition range_incl (a b : Z) : list Z :=
  List.map (fun i => (a + Z.of_nat i)%Z) (seq 0 (Z.to_nat (b + 1 - a))).

(** [val > 0] for a string [val]: the comparison of a [str] and an [int]
    is not defined and raises [TypeError]. *)
Definition str_gt_int (val : string) (n : Z) : result bool := Raise TypeError.

Definition tag_keys : list string :=
  ["Artist"; "Album"; "AlbumArtist"; "Composer"; "Comment"; "Title";
   "Genre"; "File"].

Definition int_or_raise (s : string) : M Z :=
  match Py.int s with
  | Some z => ret z
  | None => raise ValueError
  end.

(** The body of [for line in lines] in [readRules]. *)
Definition parse_line (st : ParseState) (line : string) : M ParseState :=
  let line := Py.rstrip line in
  if Py.startswith line "#" then ret st
  else
    let kv := match Py.split_max ":" 1 line with
              | [k; v] => (k, v)
              | _ => (line, "")
              end in
    let key := fst kv in
    let val := snd kv in
    if Py.startswith key "Rule" then
      (if in_flight st then flush st else ret tt) >>>
      ret {| ruleMatch := "find"; currentRule := ""; dates := [];
             similarArtists := ∅; isInclude := true; genres := [];
             maxAge := maxAge st |}
    else if Py.startswith key "Rating" then
      match Py.split "-" val with
      | [a; b] =>
          let* m := lift (MinMax.make (MinMax.PStr a) (MinMax.PStr b)) in
          let m := if (MinMax.min m =? 0)%Z && (MinMax.max m =? 10)%Z
                   then {| MinMax.min := MinMax.min m; MinMax.max := 0 |}
                   else m in
          modify_rules (Rules.set_rating m) >>> ret st
      | _ => ret st
      end
    else if Py.startswith key "IncludeUnrated" then
      (if truthy val
       then modify_rules (Rules.set_includeUnrated (String.eqb val "true"))
       else ret tt) >>> ret st
    else if Py.startswith key "Duration" then
      match Py.split "-" val with
      | [a; b] =>
          let* m := lift (MinMax.make (MinMax.PStr a) (MinMax.PStr b)) in
          modify_rules (Rules.set_duration m) >>> ret st
      | _ => ret st
      end
    else if Py.startswith key "NumTracks" then
      let* n := int_or_raise val in
      (if MinMax.contains Rules.PLAY_QUEUE_DESIRED_LENGTH n
       then modify_rules
              (Rules.set_playQueueDesiredLength
                 (if (0 <? n mod 2)%Z then (n + 1)%Z else n))
       else ret tt) >>> ret st
    else if Py.startswith key "MaxAge" then
      let* positive := lift (str_gt_int val 0) in
      if positive : bool
      then (* int(time.time()) - (val * 24 * 60 * 60), a number minus a
              string *)
           raise TypeError
      else ret st
    else if String.eqb key "Date" then
      match Py.split "-" val with
      | [a; b] =>
          let* fromDate := int_or_raise a in
          let* toDate := int_or_raise b in
          let lo := if (toDate <? fromDate)%Z then toDate else fromDate in
          let hi := if (toDate <? fromDate)%Z then fromDate else toDate in
          ret {| ruleMatch := ruleMatch st; currentRule := currentRule st;
                 dates := range_incl lo hi;
                 similarArtists := similarArtists st;
                 isInclude := isInclude st; genres := genres st;
                 maxAge := maxAge st |}
      | _ =>
          let* d := int_or_raise val in
          ret {| ruleMatch := ruleMatch st; currentRule := currentRule st;
                 dates := [d];
                 similarArtists := similarArtists st;
                 isInclude := isInclude st; genres := genres st;
                 maxAge := maxAge st |}
      end
    else if String.eqb key "Genre" && Py.contains_char "*" val then
      let val := Py.replace "*" "" val in
      let* mpd_genres := query "list genre" "Genre" in
      let matching :=
        List.filter
          (fun genre =>
             truthy genre
             && Py.startswith (casefold lib genre) (casefold lib val))
          mpd_genres in
      let genres' := (genres st ++ matching)%list in
      let genres' := match genres' with [] => ["XXXXXXXX"] | _ => genres' end
      in
      ret {| ruleMatch := ruleMatch st; currentRule := currentRule st;
             dates := dates st; similarArtists := similarArtists st;
             isInclude := isInclude st; genres := genres';
             maxAge := maxAge st |}
    else if existsb (String.eqb key) tag_keys then
      ret {| ruleMatch := ruleMatch st;
             currentRule := currentRule st +:+ " " +:+ key +:+ " "
                            +:+ quoted val;
             dates := dates st; similarArtists := similarArtists st;
             isInclude := isInclude st; genres := genres st;
             maxAge := maxAge st |}
    else if String.eqb key "SimilarArtists" then
      let artistSearchResults := similar lib val in
      let* found :=
        (if (1 <? List.length artistSearchResults)%nat then
           let* mpdResponse := query "list artist" "Artist" in
           ret (List.filter
                  (fun artist =>
                     existsb
                       (fun mpdArtist =>
                          truthy mpdArtist
                          && negb (String.eqb mpdArtist val)
                          && String.eqb (casefold lib artist)
                                        (casefold lib mpdArtist))
                       mpdResponse)
                  artistSearchResults)
         else ret []) in
      ret {| ruleMatch := ruleMatch st; currentRule := currentRule st;
             dates := dates st;
             similarArtists :=
               similarArtists st ∪ list_to_set found ∪ {[ val ]};
             isInclude := isInclude st; genres := genres st;
             maxAge := maxAge st |}
    else if String.eqb key "Exact" && String.eqb val "false" then
      ret {| ruleMatch := "search"; currentRule := currentRule st;
             dates := dates st; similarArtists := similarArtists st;
             isInclude := isInclude st; genres := genres st;
             maxAge := maxAge st |}
    else if String.eqb key "Exclude" && String.eqb val "true" then
      ret {| ruleMatch := ruleMatch st; currentRule := currentRule st;
             dates := dates st; similarArtists := similarArtists st;
             isInclude := false; genres := genres st;
             maxAge := maxAge st |}
    else ret st.

Fixpoint parse_lines (st : ParseState) (lines : list string)
  : M ParseState :=
  match lines with
  | [] => ret st
  | line :: rest => let* st' := parse_line st line in parse_lines st' rest
  end.

Definition parse_start : ParseState :=
  {| ruleMatch := "find"; currentRule := ""; dates := [];
     similarArtists := ∅; isInclude := true; genres := []; maxAge := 0 |}.

(** The body of [if os.path.exists(self.active_file)] inside the retry
    loop of [readRules] (the [print]s of test mode apart). *)
Definition read_and_parse : M (option bool) :=
  let* w := get in
  let* text := lift (Sys.read_text (fs w) (Rules.active_file (rules w))) in
  let lines := Py.splitlines text in
  modify_rules (fun r =>
    Rules.set_playQueueDesiredLength Rules.PLAY_QUEUE_DESIRED_LENGTH_DEFAULT
      (Rules.set_includeUnrated false
         (Rules.set_param0 RulesParam.empty r))) >>>
  let* st := parse_lines parse_start lines in
  let* w := get in
  (if in_flight st then flush st
   else if (0 <? maxAge st)%Z
           && bool_decide (Rules.include (rules w) = ∅)
   then modify_rules (saveRule "" [] [] [] "find" true (maxAge st))
   else ret tt) >>>
  modify_rules Rules.checkRulesChanged >>>
  ret (Some true).

(** [Rules.readRules]; the result is [None], [True] or [False].  The file
    system does not change during the call, so each of the ten rounds of
    the retry loop sees what the first one sees.  ([self.active_file] is
    the path given by the configuration; the fallback for [None] is not
    modelled.) *)
Definition readRules : M (option bool) :=
  let* w := get in
  let active := Rules.active_file (rules w) in
  if negb (Sys.exists_ (fs w) active) then
    modify_rules (Rules.set_modified false) >>> ret None
  else
    let currentActiveLink := abspath lib active in
    let* fileTime := lift (Sys.st_mtime (fs w) currentActiveLink) in
    if negb (Rules.initial_read (rules w))
       && (fileTime =? Rules.rules_timestamp (rules w))%Z
       && bool_decide
            (Rules.active_links_to (rules w) = Some currentActiveLink)
    then modify_rules (Rules.set_modified false) >>> ret None
    else
      modify_rules (Rules.set_stamp fileTime currentActiveLink) >>>
      if Sys.exists_ (fs w) active then read_and_parse
      else modify_rules Rules.checkRulesChanged >>> ret (Some false).

End Methods.

End Daemon.

(* ===================================================================== *)
(** ** The play queue of MPD under [delete 0] *)
(* ===================================================================== *)

Module MpdQueue.

(** The queue of MPD as far as trimming is concerned: its entries and the
    position of the current song, if there is one.  [delete 0] removes the
    first entry and the entries behind it move up by one; removing the
    current song makes the next entry, now first, the current one. *)
Record t : Type := {
  entries : list string;
  song : option nat
}.

Definition delete0 (q : t) : t :=
  match entries q with
  | [] => q
  | _ :: rest =>
      {| entries := rest;
         song := match song q with
                 | None => None
                 | Some (S k) => Some k
                 | Some O => match rest with [] => None | _ => Some O end
                 end |}
  end.

Definition exec (q : t) (cmd : string) : t :=
  if String.eqb cmd "delete 0" then delete0 q else q.

Definition run (q : t) (cmds : list string) : t := fold_left exec cmds q.

End MpdQueue.

(* ===================================================================== *)
(** ** Sample states and the properties as the specification words them *)
(* ===================================================================== *)

Module Sample.

Import Daemon.

(** A library environment for strings without upper-case letters, percent
    escapes or relative paths, and no similar artists. *)
Definition lib0 : Lib :=
  {| casefold := fun s => s; unquote := fun s => s;
     abspath := fun s => s; similar := fun _ => [] |}.

(** MPD answering [OK] to everything. *)
Definition mpd_ok (_ : list string) (_ : string) : string := "OK" +:+ Py.nl.

(** MPD answering every command with a rating sticker of 2. *)
Definition mpd_rating2 (_ : list string) (_ : string) : string :=
  "sticker: rating=2" +:+ Py.nl +:+ "OK" +:+ Py.nl.

(** A server-mode daemon whose rule directory [/r] holds one rule file
    with the given text, the active link pointing at it. *)
Definition world (rule_text : string) : World :=
  {| fs := {| Sys.files := {[ "/r/a.rules" := rule_text ]};
              Sys.links := {[ "/r/active" := "/r/a.rules" ]};
              Sys.mtimes := ∅; Sys.readonly := ∅ |};
     sent := []; dbus := []; opened := []; clock := 100;
     rules := Rules.init "/r" "/r/active";
     status := {| dynamic := false; text := "IDLE"; time := 0 |};
     songs := ["a.mp3"; "b.mp3"];
     play_queue_history := History.init;
     server_mode := true; test_mode := false;
     active_file := "/r/active" |}.

(** The rule file [Rule / Artist:X]. *)
Definition artist_rule : string := "Rule" +:+ Py.nl +:+ "Artist:X".

(** The same daemon once it has read [Rating:3-5 / Rule / Artist:X]: one
    include rule and an active rating range. *)
Definition rated_world : World :=
  set_rules
    (Rules.set_include {[ "find  Artist " +:+ quoted "X" ]}
       (Rules.set_rating {| MinMax.min := 3; MinMax.max := 5 |}
          (Rules.init "/r" "/r/active")))
    (world ("Rating:3-5" +:+ Py.nl +:+ artist_rule)).

End Sample.

Module Stated.

(** The characters the codec treats specially. *)
Inductive special : Type := Quote | Open | Close | Newline | Colon | Other.

Definition classify (c : ascii) : special :=
  if Ascii.eqb c Py.dq then Quote
  else if Ascii.eqb c "{" then Open
  else if Ascii.eqb c "}" then Close
  else if Ascii.eqb c Py.lf then Newline
  else if Ascii.eqb c ":" then Colon
  else Other.

(** The text that stands for the character [c] while [k] of the five
    substitutions of [decode] are still to be made: [image 5 c] is the
    encoding of [c] and [image 0 c] is [c]. *)
Definition image (k : nat) (c : ascii) : string :=
  match classify c with
  | Quote =>
      match k with
      | 0 => Py.dqs | 1 => "{q}" | 2 => "{ob}q}" | _ => "{ob{cb}q{cb}"
      end
  | Open => match k with 0 | 1 => "{" | 2 => "{ob}" | _ => "{ob{cb}" end
  | Close => match k with 0 | 1 | 2 => "}" | _ => "{cb}" end
  | Newline => match k with 0 | 1 | 2 | 3 => Py.nl | _ => "{n}" end
  | Colon => match k with 0 | 1 | 2 | 3 | 4 => ":" | _ => "{c}" end
  | Other => String c ""
  end%nat.

(** A string mapped character by character. *)
Fixpoint cmap (f : ascii -> string) (s : string) : string :=
  match s with
  | "" => ""
  | String c s' => f c +:+ cmap f s'
  end.

(** The two flags of the rules that decide whether a read can clear the
    changed flag, both set; and a computation that keeps them set. *)
Definition stuck (w : Daemon.World) : Prop :=
  Rules.modified (Daemon.rules w) = true
  /\ Rules.initial_read (Daemon.rules w) = true.

Definition keeps {A : Type} (m : Daemon.M A) : Prop :=
  forall w, stuck w -> stuck (snd (m w)).


(** [ceil(a / b)] for [0 < b]. *)
Definition ceil_div (a b : Z) : Z := ((a + b - 1) / b)%Z.

(** The history capacity as the specification gives it. *)
Definition capacity (p : Z) : Z :=
  if (p =? 1)%Z then 1%Z
  else if (p <? 5)%Z then ceil_div p 2
  else Z.min (ceil_div (3 * p) 4) 200.

(** The buffers at which the specification lets [read_reply] stop. *)
Definition reply_complete (socketData : string) : bool :=
  Py.startswith socketData "OK"
  || Py.endswith socketData (Py.nl +:+ "OK" +:+ Py.nl)
  || Py.startswith socketData "ACK".

(** The buffer of [read_reply] after [i] results of [recv]. *)
Definition buffer (chunks : list string) (i : nat) : string :=
  Py.join (firstn i chunks).

(** A sticker entry [<name>=<value>] that lets a song pass: the value is in
    the rating range, or is 0 while unrated songs are included. *)
Definition entry_passes (r : Rules.t) (entry : string) : Prop :=
  exists name value n,
    Py.split "=" entry = [name; value] /\ Py.int value = Some n /\
    (MinMax.contains (Rules.rating r) n = true
     \/ (n = 0%Z /\ Rules.includeUnrated r = true)).

(** A sticker entry whose value, if it has one, is an integer. *)
Definition entry_readable (entry : string) : Prop :=
  forall name value,
    Py.split "=" entry = [name; value] -> Py.int value <> None.

(** What a method that writes no file leaves alone: the file system, the
    record of opened files, the clock and the rules. *)
Definition same_files (w w' : Daemon.World) : Prop :=
  Daemon.fs w' = Daemon.fs w /\ Daemon.opened w' = Daemon.opened w
  /\ Daemon.clock w' = Daemon.clock w /\ Daemon.rules w' = Daemon.rules w.

(** The sticker entries in a reply of MPD, as [MPD.query] extracts them. *)
Definition sticker_entries (reply : string) : list string :=
  List.map snd
    (List.filter (fun kv => String.eqb "sticker" (fst kv))
       (omap Daemon.key_value (Py.splitlines reply))).

End Stated.

(* ===================================================================== *)
(** ** Histories of calls *)
(* ===================================================================== *)

Module Trace.

(** A call on the play-queue history, and the history after a sequence of
    calls (the answers of [can_add] apart). *)
Inductive call : Type :=
  | CanAdd (file : string) (num_songs : Z)
  | StoreSong (file : string).

Definition step (h : History.PlayQueueHistory) (c : call)
  : History.PlayQueueHistory :=
  match c with
  | CanAdd file num_songs => snd (History.can_add h file num_songs)
  | StoreSong file => History.store_song h file
  end.

Definition run (calls : list call) : History.PlayQueueHistory :=
  fold_left step calls History.init.

(** The history holds no more songs than its limit. *)
Definition within_limit (h : History.PlayQueueHistory) : Prop :=
  (Z.of_nat (List.length (History.history h)) <= Z.max 0 (History.limit h))%Z.

End Trace.

(* ===================================================================== *)
(** ** Invariants of the rules *)
(* ===================================================================== *)

Module Inv.

(** A computation that keeps a property of the rules, whether it returns
    or raises. *)
Definition rules_keep (Q : Rules.t -> Prop) {A : Type} (m : Daemon.M A)
  : Prop :=
  forall w, Q (Daemon.rules w) -> Q (Daemon.rules (snd (m w))).

(** The desired queue length is even and between 10 and 500. *)
Definition desired_ok (r : Rules.t) : Prop :=
  (10 <= Rules.playQueueDesiredLength r <= 500)%Z
  /\ Z.even (Rules.playQueueDesiredLength r) = true.

End Inv.

(* ===================================================================== *)
(** ** cantatadyn.py: the candidate pool *)
(* ===================================================================== *)

Module Pool.

Import Daemon.

(** What two states share when only messages went out between them:
    everything but the commands sent and the desktop-bus calls. *)
Definition only_sent (w w' : World) : Prop :=
  fs w' = fs w /\ opened w' = opened w /\ clock w' = clock w
  /\ rules w' = rules w /\ status w' = status w /\ songs w' = songs w
  /\ play_queue_history w' = play_queue_history w
  /\ server_mode w' = server_mode w /\ test_mode w' = test_mode w
  /\ active_file w' = active_file w.

(** A computation that only sends messages. *)
Definition sends_only {A : Type} (m : M A) : Prop :=
  forall w, only_sent w (snd (m w)).

(** A computation that returns and leaves the file system and the path of
    the active link alone. *)
Definition quiet (m : M unit) : Prop :=
  forall w, exists w',
    m w = (Ok tt, w') /\ fs w' = fs w /\ active_file w' = active_file w.

(** The values that [MPD.query] finds for [key] in a reply. *)
Definition values_of (key reply : string) : list string :=
  List.map snd
    (List.filter (fun kv => String.eqb key (fst kv))
       (omap key_value (Py.splitlines reply))).

(** How [get_songs] ends: it returns, or it calls [sys.exit], which raises
    [SystemExit] and ends the process, nothing in the package catching
    it. *)
Inductive ending : Type :=
  | Returned
  | Exited (code : Z).

Section Methods.

Variable mpd_reply : list string -> string -> string.

Definition lsinfo_cmd (file : string) : string :=
  "lsinfo " +:+ quoted file.

(** [MPD.check_song_duration_in_range] (the [print] of test mode apart). *)
Definition check_song_duration_in_range (file : string) (pos : option Z)
  : M bool :=
  let* w := get in
  let duration := Rules.duration (rules w) in
  if MinMax.le duration 0 then ret true
  else if (List.length (songs w) =? 0)%nat then ret false
  else
    let* entries := query mpd_reply (lsinfo_cmd file) "Time" in
    let* in_range :=
      match entries with
      | [entry] =>
          let* val := int_or_raise entry in
          ret (((MinMax.min duration =? 0)%Z
                || (MinMax.min duration <=? val)%Z)
               && ((MinMax.max duration =? 0)%Z
                   || (val <=? MinMax.max duration)%Z))
      | _ => ret false
      end in
    if in_range : bool then ret true
    else
      let* w := get in
      let* l := lift (del_at (songs w) pos) in
      modify (set_songs l) >>> ret false.

(** [MPD._get_rated_songs]: the loop keeps the last file named and the
    files collected. *)
Fixpoint rated_loop (answer : list (string * string)) (file : string)
    (entries : list string) : M (list string) :=
  match answer with
  | [] => ret entries
  | (key, value) :: rest =>
      if String.eqb key "file" then rated_loop rest value entries
      else if String.eqb key "sticker" then
        let* ok := _song_rating_in_range value in
        rated_loop rest file
          (if ok : bool then (entries ++ [file])%list else entries)
      else rated_loop rest file entries
  end.

Definition sticker_find_cmd : string :=
  "sticker find song " +:+ quoted "" +:+ " rating".

Definition _get_rated_songs : M (list string) :=
  let* answer := query_pairs mpd_reply sticker_find_cmd in
  rated_loop answer "" [].

(** [for rule in rules: songs |= set(self.query(rule, 'file'))] *)
Fixpoint query_union (rules : list string) (acc : gset string)
  : M (gset string) :=
  match rules with
  | [] => ret acc
  | rule :: rest =>
      let* found := query mpd_reply rule "file" in
      query_union rest (acc ∪ list_to_set found)
  end.

(** [MPD.get_songs] (the [print]s of test mode apart).  [db_updated] is
    [self.db_updated], which the main loop sets just before the call.  A
    set is gone through in the order of [elements], and so is the set
    difference that becomes the pool; Python leaves both orders open. *)
Definition get_songs (db_updated : bool) : M ending :=
  let* w := get in
  if bool_decide (songs w = []) || Rules.modified (rules w) || db_updated
  then
    let* exclude_songs :=
      (if negb (bool_decide (Rules.exclude (rules w) = ∅))
       then query_union (elements (Rules.exclude (rules w))) ∅
       else ret ∅) in
    let* found :=
      (if negb (bool_decide (Rules.include (rules w) = ∅))
       then query_union (elements (Rules.include (rules w))) ∅
       else if (1 <=? MinMax.min (Rules.rating (rules w)))%Z
               && (0 <=? MinMax.max (Rules.rating (rules w)))%Z
       then
         let* rated := _get_rated_songs in
         ret (list_to_set rated)
       else
         let* entries := query mpd_reply "list Artist" "Artist" in
         query_union
           (List.map (fun entry => "find Artist " +:+ quoted entry) entries)
           ∅) in
    let pool := elements (found ∖ exclude_songs) in
    modify (set_songs pool) >>>
    let* w := get in
    if bool_decide (pool = []) then
      if server_mode w then
        status_update false "NO_SONGS" >>>
        send_status mpd_reply None >>>
        ret Returned
      else
        send_message mpd_reply "showError" "NO_SONGS" None >>>
        ret (Exited 0)
    else if server_mode w then
      send_message mpd_reply "status" "HAVE_SONGS" None >>>
      ret Returned
    else ret Returned
  else ret Returned.

End Methods.

End Pool.

(* ===================================================================== *)
(** ** Properties *)
(* ===================================================================== *)

(** Closed statements are settled by evaluation, one conjunct at a time. *)
Ltac by_evaluation :=
  cbv zeta;
  repeat match goal with |- _ /\ _ => split end;
  vm_compute; first [reflexivity | discriminate].

(** *** Sequencing *)

Lemma bind_ok {A B : Type} (m : Daemon.M A) (k : A -> Daemon.M B)
    (w w1 : Daemon.World) (a : A) :
  m w = (Ok a, w1) -> Daemon.bind m k w = k a w1.
Proof. intros H. unfold Daemon.bind. now rewrite H. Qed.

Lemma bind_raise {A B : Type} (m : Daemon.M A) (k : A -> Daemon.M B)
    (w w1 : Daemon.World) (e : exn) :
  m w = (Raise e, w1) -> Daemon.bind m k w = (Raise e, w1).
Proof. intros H. unfold Daemon.bind. now rewrite H. Qed.

Lemma bind_get {B : Type} (k : Daemon.World -> Daemon.M B)
    (w : Daemon.World) :
  Daemon.bind Daemon.get k w = k w w.
Proof. reflexivity. Qed.

(** *** Facts about strings *)

Section StringFacts.

Lemma append_cons (c : ascii) (s t : string) :
  String c s +:+ t = String c (s +:+ t).
Proof. reflexivity. Qed.

Lemma append_nil_l (s : string) : "" +:+ s = s.
Proof. reflexivity. Qed.

Lemma append_nil_r (s : string) : s +:+ "" = s.
Proof.
  induction s as [| c s IH]; [reflexivity |].
  now rewrite append_cons, IH.
Qed.

Lemma append_assoc (a b c : string) : (a +:+ b) +:+ c = a +:+ (b +:+ c).
Proof.
  induction a as [| x a IH]; [reflexivity |].
  now rewrite !append_cons, IH.
Qed.

Lemma prefix_append (p t : string) : Py.prefix p (p +:+ t) = true.
Proof.
  induction p as [| c p IH]; [reflexivity |].
  rewrite append_cons. cbn [Py.prefix].
  now rewrite Ascii.eqb_refl, IH.
Qed.

Lemma prefix_split (p : string) :
  forall s, Py.prefix p s = true -> exists t, s = p +:+ t.
Proof.
  induction p as [| c p IH]; intros s H.
  - exists s. reflexivity.
  - destruct s as [| d s]; [discriminate |]. cbn [Py.prefix] in H.
    apply andb_true_iff in H as [Hc H]. apply Ascii.eqb_eq in Hc. subst d.
    destruct (IH s H) as [t ->]. exists t. reflexivity.
Qed.

Lemma rev_app_rev_app (s : string) :
  forall t u, String.rev_app (String.rev_app s t) u = String.rev_app t (s +:+ u).
Proof.
  induction s as [| c s IH]; intros t u; [reflexivity |].
  cbn [String.rev_app]. rewrite IH, append_cons. reflexivity.
Qed.

Lemma rev_involutive (s : string) : String.rev (String.rev s) = s.
Proof.
  unfold String.rev. rewrite rev_app_rev_app. cbn [String.rev_app].
  apply append_nil_r.
Qed.

Lemma rev_app_append (s : string) :
  forall t, String.rev_app s t = String.rev s +:+ t.
Proof.
  unfold String.rev.
  induction s as [| c s IH]; intros t; [reflexivity |].
  cbn [String.rev_app].
  rewrite IH, (IH (String c "")), append_assoc. reflexivity.
Qed.

Lemma rev_append (a b : string) :
  String.rev (a +:+ b) = String.rev b +:+ String.rev a.
Proof.
  induction a as [| c a IH].
  - now rewrite append_nil_l, append_nil_r.
  - rewrite append_cons. unfold String.rev in *. cbn [String.rev_app].
    rewrite (rev_app_append (a +:+ b)), (rev_app_append a).
    unfold String.rev. rewrite IH, append_assoc. reflexivity.
Qed.

(** [s.endswith(p)] holds exactly when [s] is some string followed by
    [p]. *)
Lemma endswith_append (t p : string) : Py.endswith (t +:+ p) p = true.
Proof. unfold Py.endswith. rewrite rev_append. apply prefix_append. Qed.

Lemma endswith_split (s p : string) :
  Py.endswith s p = true -> exists t, s = t +:+ p.
Proof.
  unfold Py.endswith. intros H.
  destruct (prefix_split _ _ H) as [u Hu].
  exists (String.rev u).
  rewrite <- (rev_involutive s), Hu, rev_append, rev_involutive.
  reflexivity.
Qed.

(** Replacing one character by a string works character by character and
    goes through concatenation. *)
Lemma replace_char_step (c d : ascii) (new s : string) :
  Py.replace (String c "") new (String d s)
  = if Ascii.eqb c d then new +:+ Py.replace (String c "") new s
    else String d (Py.replace (String c "") new s).
Proof.
  unfold Py.replace.
  cbn [Py.replace_go Py.prefix String.length Nat.sub].
  destruct (Ascii.eqb c d); reflexivity.
Qed.

Lemma replace_char_append (c : ascii) (new a b : string) :
  Py.replace (String c "") new (a +:+ b)
  = Py.replace (String c "") new a +:+ Py.replace (String c "") new b.
Proof.
  induction a as [| d a IH]; [reflexivity |].
  rewrite append_cons, !replace_char_step, IH.
  destruct (Ascii.eqb c d);
    [now rewrite append_assoc | now rewrite append_cons].
Qed.

Lemma contains_char_append (c : ascii) (a b : string) :
  Py.contains_char c (a +:+ b)
  = Py.contains_char c a || Py.contains_char c b.
Proof.
  induction a as [| d a IH]; [reflexivity |].
  rewrite append_cons. cbn [Py.contains_char].
  destruct (Ascii.eqb c d); [reflexivity | exact IH].
Qed.

(** Replacing a character by nothing leaves no occurrence of it. *)
Lemma replace_removes_char (c : ascii) (s : string) :
  Py.contains_char c (Py.replace (String c "") "" s) = false.
Proof.
  induction s as [| d s IH]; [reflexivity |].
  rewrite replace_char_step. destruct (Ascii.eqb c d) eqn:E.
  - now rewrite append_nil_l.
  - cbn [Py.contains_char]. now rewrite E.
Qed.

(** Splitting at a one-character separator. *)
Lemma split_char_step (c d : ascii) (s : string) :
  Py.split (String c "") (String d s)
  = if Ascii.eqb c d then "" :: Py.split (String c "") s
    else Py.cons_head d (Py.split (String c "") s).
Proof.
  unfold Py.split.
  cbn [Py.split_go Py.prefix String.length Nat.sub fmap option_fmap
       option_map].
  destruct (Ascii.eqb c d); reflexivity.
Qed.

Lemma split_char_nonempty (c : ascii) (s : string) :
  Py.split (String c "") s <> [].
Proof.
  destruct s as [| d s]; [discriminate |].
  rewrite split_char_step.
  destruct (Ascii.eqb c d); [discriminate |].
  destruct (Py.split (String c "") s); discriminate.
Qed.

Lemma split_char_absent (c : ascii) (s : string) :
  Py.contains_char c s = false -> Py.split (String c "") s = [s].
Proof.
  induction s as [| d s IH]; intros H; [reflexivity |].
  rewrite split_char_step. cbn in H.
  destruct (Ascii.eqb c d); [discriminate |].
  rewrite (IH H). reflexivity.
Qed.

Lemma split_char_last (c : ascii) (d comp : string) :
  Py.contains_char c comp = false ->
  Py.split (String c "") (d +:+ String c comp)
  = (Py.split (String c "") d ++ [comp])%list.
Proof.
  intros H. induction d as [| x d IH].
  - rewrite append_nil_l, split_char_step, Ascii.eqb_refl.
    rewrite (split_char_absent _ _ H). reflexivity.
  - rewrite append_cons, !split_char_step, IH.
    destruct (Ascii.eqb c x); [reflexivity |].
    pose proof (split_char_nonempty c d) as Hne.
    destruct (Py.split (String c "") d); [contradiction | reflexivity].
Qed.

Lemma join_split_char (c : ascii) (s : string) :
  Sys.join_sep (String c "") (Py.split (String c "") s) = s.
Proof.
  induction s as [| d s IH]; [reflexivity |].
  rewrite split_char_step.
  pose proof (split_char_nonempty c s) as Hne.
  destruct (Ascii.eqb c d) eqn:E.
  - apply Ascii.eqb_eq in E. subst d.
    destruct (Py.split (String c "") s) as [| h t] eqn:Es;
      [contradiction |].
    cbn [Sys.join_sep]. cbn [Sys.join_sep] in IH.
    rewrite append_nil_l, append_cons, append_nil_l. now rewrite IH.
  - destruct (Py.split (String c "") s) as [| h t] eqn:Es;
      [contradiction |].
    cbn [Py.cons_head]. destruct t as [| h' t'].
    + cbn [Sys.join_sep] in *. now rewrite IH.
    + cbn [Sys.join_sep] in *. rewrite append_cons. now rewrite IH.
Qed.

(** A path made of a directory, a slash and a name without slash lies in
    that directory. *)
Lemma dirname_basename (d comp : string) :
  Py.contains_char "/" comp = false ->
  Sys.dirname (d +:+ "/" +:+ comp) = d
  /\ Sys.basename (d +:+ "/" +:+ comp) = comp.
Proof.
  intros H. unfold Sys.dirname, Sys.basename.
  change ("/" +:+ comp) with (String "/" comp).
  rewrite (split_char_last "/" d comp H).
  rewrite removelast_last, last_last. split; [| reflexivity].
  apply join_split_char.
Qed.

End StringFacts.

(** *** The codec *)

(** Encoding is a character-by-character substitution on small inputs. *)
Example encode_sample :
  Codec.codecs_encode ("a:{" +:+ Py.dqs) = "a{c}{ob{cb}{ob{cb}q{cb}".
Proof. reflexivity. Qed.

(** The quote and the three characters [{q}] have the same encoding, so
    the encoding is not injective. *)
Lemma encode_not_injective :
  Codec.codecs_encode "{q}" = Codec.codecs_encode Py.dqs /\ "{q}" <> Py.dqs.
Proof. split; [reflexivity | discriminate]. Qed.

(** C1: the round trip [decode(encode(s)) == s] fails for the string [{q}]:
    its encoding is that of the double quote and decodes to the double
    quote. *)
Theorem codec_roundtrip_fails :
  Codec.codecs_decode (Codec.codecs_encode "{q}") = Py.dqs
  /\ Codec.codecs_decode (Codec.codecs_encode "{q}") <> "{q}".
Proof. split; [reflexivity | discriminate]. Qed.

(** The codec on strings without [{q}]. *)

Section CodecRoundTrip.

Lemma classify_spec (c : ascii) :
  match Stated.classify c with
  | Stated.Quote => c = Py.dq
  | Stated.Open => c = "{"%char
  | Stated.Close => c = "}"%char
  | Stated.Newline => c = Py.lf
  | Stated.Colon => c = ":"%char
  | Stated.Other =>
      c <> Py.dq /\ c <> "{"%char /\ c <> "}"%char /\ c <> Py.lf
      /\ c <> ":"%char
  end.
Proof.
  unfold Stated.classify.
  destruct (Ascii.eqb c Py.dq) eqn:E1; [now apply Ascii.eqb_eq |].
  destruct (Ascii.eqb c "{") eqn:E2; [now apply Ascii.eqb_eq |].
  destruct (Ascii.eqb c "}") eqn:E3; [now apply Ascii.eqb_eq |].
  destruct (Ascii.eqb c Py.lf) eqn:E4; [now apply Ascii.eqb_eq |].
  destruct (Ascii.eqb c ":") eqn:E5; [now apply Ascii.eqb_eq |].
  repeat split; now apply Ascii.eqb_neq.
Qed.

Lemma cmap_image_0 (s : string) : Stated.cmap (Stated.image 0) s = s.
Proof.
  induction s as [| c s IH]; [reflexivity |].
  cbn [Stated.cmap]. rewrite IH. unfold Stated.image.
  pose proof (classify_spec c) as Hc.
  destruct (Stated.classify c); subst; reflexivity.
Qed.

(** Encoding maps each character to its image. *)
Lemma replace_char_other (a c : ascii) (new : string) :
  c <> a -> Py.replace (String a "") new (String c "") = String c "".
Proof.
  intros H. rewrite replace_char_step.
  destruct (Ascii.eqb a c) eqn:E; [| reflexivity].
  apply Ascii.eqb_eq in E. congruence.
Qed.

Lemma encode_unfold (s : string) :
  Codec.codecs_encode s
  = Py.replace ":" "{c}"
      (Py.replace Py.nl "{n}"
         (Py.replace "}" "{cb}"
            (Py.replace "{" "{ob}" (Py.replace Py.dqs "{q}" s)))).
Proof. reflexivity. Qed.

Lemma encode_append (u v : string) :
  Codec.codecs_encode (u +:+ v)
  = Codec.codecs_encode u +:+ Codec.codecs_encode v.
Proof.
  rewrite !encode_unfold. unfold Py.dqs, Py.nl.
  now rewrite !replace_char_append.
Qed.

Lemma encode_char (c : ascii) :
  Codec.codecs_encode (String c "") = Stated.image 5 c.
Proof.
  unfold Stated.image. pose proof (classify_spec c) as Hc.
  destruct (Stated.classify c); subst; try reflexivity.
  destruct Hc as (H1 & H2 & H3 & H4 & H5).
  rewrite encode_unfold. unfold Py.dqs, Py.nl.
  now rewrite !replace_char_other.
Qed.

Lemma encode_is_cmap (s : string) :
  Codec.codecs_encode s = Stated.cmap (Stated.image 5) s.
Proof.
  induction s as [| c s IH]; [reflexivity |].
  change (String c s) with (String c "" +:+ s).
  rewrite encode_append, encode_char, IH. reflexivity.
Qed.

(** A substitution that turns the image [f c] of every character into
    [g c], whatever follows, turns the one mapping into the other. *)
Lemma replace_cmap (pat rep : string) (f g : ascii -> string) :
  pat <> "" ->
  (forall c rest,
      Py.replace_go pat rep 0 (f c +:+ rest)
      = g c +:+ Py.replace_go pat rep 0 rest) ->
  forall s, Py.replace pat rep (Stated.cmap f s) = Stated.cmap g s.
Proof.
  intros Hp H s. destruct pat as [| p0 pat]; [contradiction |].
  unfold Py.replace.
  induction s as [| c s IH]; [reflexivity |].
  cbn [Stated.cmap]. rewrite H, IH. reflexivity.
Qed.

(** A character that is not a brace is copied by a substitution whose
    pattern starts with a brace. *)
Lemma replace_go_other (pat rep : string) (c : ascii) (rest : string) :
  c <> "{"%char ->
  Py.replace_go (String "{" pat) rep 0 (String c "" +:+ rest)
  = String c "" +:+ Py.replace_go (String "{" pat) rep 0 rest.
Proof.
  intros H. change (String c "" +:+ rest) with (String c rest).
  cbn [Py.replace_go Py.prefix].
  destruct (Ascii.eqb "{" c) eqn:E; [| reflexivity].
  apply Ascii.eqb_eq in E. congruence.
Qed.

Ltac image_step :=
  intros c rest; unfold Stated.image;
  pose proof (classify_spec c) as Hc;
  destruct (Stated.classify c); subst;
  [ vm_compute; reflexivity | vm_compute; reflexivity
  | vm_compute; reflexivity | vm_compute; reflexivity
  | vm_compute; reflexivity | apply replace_go_other; tauto ].

Lemma decode_step_5 (s : string) :
  Py.replace "{c}" ":" (Stated.cmap (Stated.image 5) s)
  = Stated.cmap (Stated.image 4) s.
Proof. apply replace_cmap; [discriminate | image_step]. Qed.

Lemma decode_step_4 (s : string) :
  Py.replace "{n}" Py.nl (Stated.cmap (Stated.image 4) s)
  = Stated.cmap (Stated.image 3) s.
Proof. apply replace_cmap; [discriminate | image_step]. Qed.

Lemma decode_step_3 (s : string) :
  Py.replace "{cb}" "}" (Stated.cmap (Stated.image 3) s)
  = Stated.cmap (Stated.image 2) s.
Proof. apply replace_cmap; [discriminate | image_step]. Qed.

Lemma decode_step_2 (s : string) :
  Py.replace "{ob}" "{" (Stated.cmap (Stated.image 2) s)
  = Stated.cmap (Stated.image 1) s.
Proof. apply replace_cmap; [discriminate | image_step]. Qed.

(** The last substitution, [{q}] to the quote, meets the images [{q}] of
    the quotes and, were there any, the [{q}] of the text itself.  Whether
    [q}] follows is the same in the text and in its image. *)
Lemma prefix_close_image (s : string) :
  Py.prefix "}" (Stated.cmap (Stated.image 1) s) = Py.prefix "}" s.
Proof.
  destruct s as [| c s]; [reflexivity |].
  cbn [Stated.cmap]. unfold Stated.image at 1.
  pose proof (classify_spec c) as Hc.
  destruct (Stated.classify c); subst; reflexivity.
Qed.

Lemma prefix_q_close_image (s : string) :
  Py.prefix "q}" (Stated.cmap (Stated.image 1) s) = Py.prefix "q}" s.
Proof.
  destruct s as [| c s]; [reflexivity |].
  cbn [Stated.cmap]. unfold Stated.image at 1.
  pose proof (classify_spec c) as Hc.
  destruct (Stated.classify c); subst; try reflexivity.
  change (String c "" +:+ Stated.cmap (Stated.image 1) s)
    with (String c (Stated.cmap (Stated.image 1) s)).
  change (Py.prefix "q}" (String c (Stated.cmap (Stated.image 1) s)))
    with (Ascii.eqb "q" c
          && Py.prefix "}" (Stated.cmap (Stated.image 1) s)).
  change (Py.prefix "q}" (String c s))
    with (Ascii.eqb "q" c && Py.prefix "}" s).
  rewrite prefix_close_image. reflexivity.
Qed.

Lemma decode_step_1 (s : string) :
  Py.contains "{q}" s = false ->
  Py.replace "{q}" Py.dqs (Stated.cmap (Stated.image 1) s) = s.
Proof.
  unfold Py.replace.
  induction s as [| c s IH]; intros H; [reflexivity |].
  cbn [Py.contains] in H. apply orb_false_iff in H as [Hp Hs].
  specialize (IH Hs).
  cbn [Stated.cmap]. unfold Stated.image at 1.
  pose proof (classify_spec c) as Hc.
  destruct (Stated.classify c); subst.
  - change (Py.replace_go "{q}" Py.dqs 0
              ("{q}" +:+ Stated.cmap (Stated.image 1) s))
      with (Py.dqs +:+ Py.replace_go "{q}" Py.dqs 0
                         (Stated.cmap (Stated.image 1) s)).
    rewrite IH. reflexivity.
  - change ("{" +:+ Stated.cmap (Stated.image 1) s)
      with (String "{" (Stated.cmap (Stated.image 1) s)).
    cbn [Py.replace_go].
    change (Py.prefix "{q}" (String "{" (Stated.cmap (Stated.image 1) s)))
      with (Py.prefix "q}" (Stated.cmap (Stated.image 1) s)).
    change (Py.prefix "{q}" (String "{" s))
      with (Py.prefix "q}" s) in Hp.
    rewrite prefix_q_close_image, Hp, IH. reflexivity.
  - change (Py.replace_go "{q}" Py.dqs 0
              ("}" +:+ Stated.cmap (Stated.image 1) s))
      with (String "}" (Py.replace_go "{q}" Py.dqs 0
                          (Stated.cmap (Stated.image 1) s))).
    rewrite IH. reflexivity.
  - change (Py.replace_go "{q}" Py.dqs 0
              (Py.nl +:+ Stated.cmap (Stated.image 1) s))
      with (String Py.lf (Py.replace_go "{q}" Py.dqs 0
                            (Stated.cmap (Stated.image 1) s))).
    rewrite IH. reflexivity.
  - change (Py.replace_go "{q}" Py.dqs 0
              (":" +:+ Stated.cmap (Stated.image 1) s))
      with (String ":" (Py.replace_go "{q}" Py.dqs 0
                          (Stated.cmap (Stated.image 1) s))).
    rewrite IH. reflexivity.
  - rewrite replace_go_other by tauto. rewrite IH. reflexivity.
Qed.

(** Every string in which [{q}] does not occur comes back from the round
    trip: the strings that fail are among those which hold the three
    characters [{q}]. *)
Lemma codec_roundtrip_without_brace_q (s : string) :
  Py.contains "{q}" s = false ->
  Codec.codecs_decode (Codec.codecs_encode s) = s.
Proof.
  intros H.
  change (Codec.codecs_decode (Codec.codecs_encode s))
    with (Py.replace "{q}" Py.dqs
            (Py.replace "{ob}" "{"
               (Py.replace "{cb}" "}"
                  (Py.replace "{n}" Py.nl
                     (Py.replace "{c}" ":" (Codec.codecs_encode s)))))).
  rewrite encode_is_cmap, decode_step_5, decode_step_4, decode_step_3,
    decode_step_2.
  apply decode_step_1, H.
Qed.

End CodecRoundTrip.

(** *** The control dispatcher *)

(** C3: a message whose payload has no colon makes the dispatcher raise
    [IndexError] in every state, and nothing is sent: the branch that is to
    answer code 10 reads [parts[1]], which does not exist. *)
Theorem dispatcher_raises_on_short_payload :
  forall (mpd_reply : list string -> string -> string) (lib : Daemon.Lib)
         (w : Daemon.World),
    Daemon.handle_client_message mpd_reply lib "message: status" w
    = (Raise IndexError, w).
Proof. intros mpd_reply lib w. vm_compute. reflexivity. Qed.

(** A payload with more parts than the handler has parameters raises
    [TypeError]. *)
Lemma dispatcher_raises_on_long_payload :
  forall (mpd_reply : list string -> string -> string) (lib : Daemon.Lib)
         (w : Daemon.World),
    Daemon.handle_client_message mpd_reply lib "message: save:abc:n:c:d" w
    = (Raise TypeError, w).
Proof. intros mpd_reply lib w. vm_compute. reflexivity. Qed.

(** Asking for a rule file that does not exist raises
    [FileNotFoundError]. *)
Lemma dispatcher_raises_on_missing_file :
  fst (Daemon.handle_client_message Sample.mpd_ok Sample.lib0
         "message: get:abc:zz" (Sample.world Sample.artist_rule))
  = Raise FileNotFoundError.
Proof. vm_compute. reflexivity. Qed.

(** An unknown verb is answered with code 11. *)
Lemma dispatcher_unknown_verb :
  forall (mpd_reply : list string -> string -> string) (lib : Daemon.Lib)
         (w : Daemon.World),
    Daemon.handle_client_message mpd_reply lib "message: foo:abc" w
    = Daemon.send_message mpd_reply "foo" "11" (Some "abc") w.
Proof.
  intros mpd_reply lib [f s d o c r st sg h [|] tm a];
    vm_compute; reflexivity.
Qed.

(** *** The history capacity *)

(** The nearest integer to [n/4], ties to even, is within a half of the
    quotient, and is even when exactly a half away. *)
Lemma round_half_even_4 (n : Z) :
  let r := History.round_half_even n 4 in
  (-2 <= 4 * r - n <= 2)%Z
  /\ (Z.abs (4 * r - n) = 2%Z -> Z.even r = true).
Proof.
  unfold History.round_half_even.
  pose proof (Z.div_mod n 4 ltac:(lia)) as Hdm.
  pose proof (Z.mod_pos_bound n 4 ltac:(lia)) as Hb.
  set (q := (n / 4)%Z) in *. set (m := (n mod 4)%Z) in *.
  destruct (2 * m <? 4)%Z eqn:E1; [apply Z.ltb_lt in E1 | apply Z.ltb_ge in E1].
  - split; [lia | intros Ha; lia].
  - destruct (4 <? 2 * m)%Z eqn:E2;
      [apply Z.ltb_lt in E2 | apply Z.ltb_ge in E2].
    + split; [lia | intros Ha; lia].
    + destruct (Z.even q) eqn:E3.
      * split; [lia | intros _; exact E3].
      * split; [lia | intros _].
        rewrite Z.even_add, E3. reflexivity.
Qed.

(** For 2, 3 and 4 songs rounding to the even neighbour and rounding up
    agree. *)
Lemma round_half_even_small (p : Z) :
  (2 <= p < 5)%Z -> History.round_half_even p 2 = Stated.ceil_div p 2.
Proof.
  intros Hp.
  assert (p = 2 \/ p = 3 \/ p = 4)%Z as [-> | [-> | ->]] by lia;
    reflexivity.
Qed.

(** C5, as stated, fails: for a pool of 6 songs [can_add] computes the
    capacity 4 ([round(4.5)] is 4), not [ceil(4.5) = 5]; and for a pool of
    one song it computes no capacity at all. *)
Lemma capacity_law_fails :
  ~ (forall p : Z, (1 <= p)%Z ->
       History.pq_limit p = Some (Stated.capacity p)).
Proof.
  intros H. specialize (H 6%Z ltac:(lia)). vm_compute in H. discriminate.
Qed.

(** C5, amended: for a pool of [p >= 2] songs [can_add] computes and
    stores the capacity [ceil(p/2)] when [p < 5] and otherwise the smaller
    of 200 and [0.75 p] rounded to the nearest integer, a tie going to the
    even neighbour; for pools of 4, 5, 100 and 1000 songs the capacity is
    2, 4, 75 and 200; for a pool of one song [can_add] answers true and
    leaves the history and its limit as they are. *)
Theorem capacity_law (p : Z) (h : History.PlayQueueHistory) (file : string) :
  (2 <= p)%Z ->
  (exists c : Z,
      History.pq_limit p = Some c
      /\ History.limit (snd (History.can_add h file p)) = c
      /\ ((p < 5)%Z -> c = Stated.ceil_div p 2)
      /\ ((5 <= p)%Z ->
          exists r : Z,
            c = Z.min r 200
            /\ (-2 <= 4 * r - 3 * p <= 2)%Z
            /\ (Z.abs (4 * r - 3 * p) = 2%Z -> Z.even r = true)))
  /\ History.can_add h file 1 = (true, h)
  /\ List.map History.pq_limit [4; 5; 100; 1000]%Z
     = List.map Some [2; 4; 75; 200]%Z.
Proof.
  intros Hp. split; [| split; reflexivity].
  unfold History.can_add, History.pq_limit.
  destruct (p =? 1)%Z eqn:E1; [apply Z.eqb_eq in E1; lia |].
  destruct (p <? 5)%Z eqn:E5; [apply Z.ltb_lt in E5 | apply Z.ltb_ge in E5].
  - exists (History.round_half_even p 2). split; [reflexivity |].
    split.
    + destruct (negb (History.round_half_even p 2 =? History.limit h)%Z)
        eqn:En; [reflexivity |].
      apply negb_false_iff, Z.eqb_eq in En. simpl. congruence.
    + split; [intros _; apply round_half_even_small; lia | lia].
  - exists (Z.min (History.round_half_even (3 * p) 4) 200).
    split; [reflexivity |]. split.
    + destruct (negb (Z.min (History.round_half_even (3 * p) 4) 200
                      =? History.limit h)%Z) eqn:En; [reflexivity |].
      apply negb_false_iff, Z.eqb_eq in En. simpl. congruence.
    + split; [lia |]. intros _.
      exists (History.round_half_even (3 * p) 4).
      split; [reflexivity |]. apply round_half_even_4.
Qed.

Lemma capacity_law_witness :
  (exists c : Z,
      History.pq_limit 6 = Some c
      /\ History.limit (snd (History.can_add History.init "a.mp3" 6)) = c
      /\ ((6 < 5)%Z -> c = Stated.ceil_div 6 2)
      /\ ((5 <= 6)%Z ->
          exists r : Z,
            c = Z.min r 200
            /\ (-2 <= 4 * r - 3 * 6 <= 2)%Z
            /\ (Z.abs (4 * r - 3 * 6) = 2%Z -> Z.even r = true)))
  /\ History.can_add History.init "a.mp3" 1 = (true, History.init)
  /\ List.map History.pq_limit [4; 5; 100; 1000]%Z
     = List.map Some [2; 4; 75; 200]%Z.
Proof. apply (capacity_law 6 History.init "a.mp3"). lia. Defined.

(** *** Reading the rule file *)

(** C7: a rule file with the line [MaxAge:7] makes [readRules] raise
    [TypeError], whatever MPD answers: the value is still a string when it
    is compared with 0, so no cut-off is ever stored. *)
Theorem readRules_raises_on_MaxAge :
  forall mpd_reply : list string -> string -> string,
    fst (Daemon.readRules mpd_reply Sample.lib0 (Sample.world "MaxAge:7"))
    = Raise TypeError.
Proof. intros mpd_reply. vm_compute. reflexivity. Qed.

(** A line whose number cannot be read is not skipped either: it raises
    [ValueError]. *)
Lemma readRules_raises_on_bad_number :
  forall mpd_reply : list string -> string -> string,
    fst (Daemon.readRules mpd_reply Sample.lib0
           (Sample.world "NumTracks:abc"))
    = Raise ValueError
    /\ fst (Daemon.readRules mpd_reply Sample.lib0
              (Sample.world "Rating:a-b"))
       = Raise ValueError.
Proof. intros mpd_reply. split; vm_compute; reflexivity. Qed.

(** A well-formed file is read without exception. *)
Example readRules_sample :
  forall mpd_reply : list string -> string -> string,
    let w := snd (Daemon.readRules mpd_reply Sample.lib0
                    (Sample.world ("Rating:5-3" +:+ Py.nl
                                   +:+ "NumTracks:15" +:+ Py.nl
                                   +:+ Sample.artist_rule))) in
    Rules.include (Daemon.rules w)
    = {[ "find  Artist " +:+ Daemon.quoted "X" ]}
    /\ Rules.rating (Daemon.rules w) = {| MinMax.min := 3; MinMax.max := 5 |}
    /\ Rules.playQueueDesiredLength (Daemon.rules w) = 16%Z.
Proof. intros mpd_reply. by_evaluation. Qed.

(** C6: the rule file [Rule / Artist:X] read twice in a row gives the same
    rules both times, and the changed flag is still true after the second
    read. *)
Theorem rules_changed_after_second_read :
  forall mpd_reply : list string -> string -> string,
    let first := Daemon.readRules mpd_reply Sample.lib0
                   (Sample.world Sample.artist_rule) in
    let second := Daemon.readRules mpd_reply Sample.lib0 (snd first) in
    fst first = Ok (Some true)
    /\ fst second = Ok (Some true)
    /\ Rules.param0 (Daemon.rules (snd second))
       = Rules.param0 (Daemon.rules (snd first))
    /\ Daemon.fs (snd second) = Daemon.fs (Sample.world Sample.artist_rule)
    /\ Rules.modified (Daemon.rules (snd second)) = true.
Proof. intros mpd_reply. by_evaluation. Qed.

(** The changed flag. *)

Section Sticky.

Variable mpd_reply : list string -> string -> string.
Variable lib : Daemon.Lib.

Lemma keeps_ret {A : Type} (a : A) : Stated.keeps (Daemon.ret a).
Proof. intros w H. exact H. Qed.

Lemma keeps_raise {A : Type} (e : exn) : Stated.keeps (@Daemon.raise A e).
Proof. intros w H. exact H. Qed.

Lemma keeps_lift {A : Type} (r : result A) : Stated.keeps (Daemon.lift r).
Proof. intros w H. exact H. Qed.

Lemma keeps_get : Stated.keeps Daemon.get.
Proof. intros w H. exact H. Qed.

Lemma keeps_bind {A B : Type} (m : Daemon.M A) (k : A -> Daemon.M B) :
  Stated.keeps m -> (forall a, Stated.keeps (k a)) -> Stated.keeps (Daemon.bind m k).
Proof.
  intros Hm Hk w H. unfold Daemon.bind.
  specialize (Hm w H). destruct (m w) as [[a | e] w1]; cbn [snd] in *.
  - apply Hk, Hm.
  - exact Hm.
Qed.

Lemma keeps_send_command (cmd : string) :
  Stated.keeps (Daemon.send_command mpd_reply cmd).
Proof. intros w H. exact H. Qed.

Lemma keeps_query (command key : string) :
  Stated.keeps (Daemon.query mpd_reply command key).
Proof.
  unfold Daemon.query, Daemon.query_pairs.
  repeat (apply keeps_bind; [| intros ?]);
    first [apply keeps_send_command | apply keeps_ret].
Qed.

Lemma keeps_modify_rules (f : Rules.t -> Rules.t) :
  (forall r, Rules.modified (f r) = Rules.modified r
             /\ Rules.initial_read (f r) = Rules.initial_read r) ->
  Stated.keeps (Daemon.modify_rules f).
Proof.
  intros Hf w [H1 H2]. unfold Stated.stuck. cbn.
  destruct (Hf (Daemon.rules w)) as [-> ->]. split; assumption.
Qed.

Lemma saveRule_flags rule dates artists genres ruleMatch isInclude maxAge r :
  Rules.modified
    (Daemon.saveRule rule dates artists genres ruleMatch isInclude maxAge r)
  = Rules.modified r
  /\ Rules.initial_read
       (Daemon.saveRule rule dates artists genres ruleMatch isInclude maxAge r)
     = Rules.initial_read r.
Proof. unfold Daemon.saveRule. destruct isInclude; split; reflexivity. Qed.

Lemma keeps_flush (st : Daemon.ParseState) : Stated.keeps (Daemon.flush st).
Proof. apply keeps_modify_rules. intros r. apply saveRule_flags. Qed.

Ltac keeps_step :=
  first
    [ apply keeps_ret
    | apply keeps_raise
    | apply keeps_lift
    | apply keeps_get
    | apply keeps_query
    | apply keeps_flush
    | apply keeps_modify_rules; intros ?; split; reflexivity
    | apply keeps_bind; [| intros ?]
    | match goal with
      | |- Stated.keeps (if ?b then _ else _) => destruct b
      | |- Stated.keeps (match ?x with _ => _ end) => destruct x
      end ].

Lemma keeps_parse_line (st : Daemon.ParseState) (line : string) :
  Stated.keeps (Daemon.parse_line mpd_reply lib st line).
Proof.
  unfold Daemon.parse_line, Daemon.int_or_raise, Daemon.str_gt_int.
  repeat keeps_step.
Qed.

Lemma keeps_parse_lines (lines : list string) :
  forall st, Stated.keeps (Daemon.parse_lines mpd_reply lib st lines).
Proof.
  induction lines as [| line rest IH]; intros st; cbn [Daemon.parse_lines].
  - apply keeps_ret.
  - apply keeps_bind; [apply keeps_parse_line | intros st'; apply IH].
Qed.

Lemma checkRulesChanged_stuck (r : Rules.t) :
  Rules.modified r = true ->
  Rules.modified (Rules.checkRulesChanged r) = true
  /\ Rules.initial_read (Rules.checkRulesChanged r) = Rules.initial_read r.
Proof.
  intros H. unfold Rules.checkRulesChanged. rewrite H. cbn.
  rewrite H. split; [exact H | reflexivity].
Qed.

Lemma keeps_checkRulesChanged :
  Stated.keeps (Daemon.modify_rules Rules.checkRulesChanged).
Proof.
  intros w [H1 H2]. unfold Stated.stuck. cbn.
  destruct (checkRulesChanged_stuck _ H1) as [-> ->]. split; [reflexivity | exact H2].
Qed.

Lemma keeps_read_and_parse : Stated.keeps (Daemon.read_and_parse mpd_reply lib).
Proof.
  unfold Daemon.read_and_parse.
  apply keeps_bind; [apply keeps_get | intros w0].
  apply keeps_bind; [apply keeps_lift | intros text].
  apply keeps_bind;
    [apply keeps_modify_rules; intros r; split; reflexivity | intros _].
  apply keeps_bind; [apply keeps_parse_lines | intros st].
  apply keeps_bind; [apply keeps_get | intros w1].
  apply keeps_bind.
  - destruct (Daemon.in_flight st); [apply keeps_flush |].
    destruct (_ && _); [| apply keeps_ret].
    apply keeps_modify_rules. intros r. apply saveRule_flags.
  - intros _. apply keeps_bind; [apply keeps_checkRulesChanged | intros _].
    apply keeps_ret.
Qed.

(** Once the changed flag is set it stays set through every read of a rule
    file that exists, whether the read returns or raises: the test of
    [__initial_read] never lets [readRules] take the branch that clears
    the flag, nothing sets [__initial_read] to false, and
    [checkRulesChanged] compares the rules only while the flag is false. *)
Lemma changed_flag_never_cleared (w : Daemon.World) :
  Sys.exists_ (Daemon.fs w) (Rules.active_file (Daemon.rules w)) = true ->
  Stated.stuck w -> Stated.stuck (snd (Daemon.readRules mpd_reply lib w)).
Proof.
  intros Hex Hw. unfold Daemon.readRules. rewrite bind_get, Hex.
  cbn [negb].
  destruct Hw as [Hm Hi]. rewrite Hi. cbn [negb andb].
  assert (Stated.stuck w) as Hw by (split; assumption).
  match goal with
  | |- Stated.stuck (snd (?m w)) => cut (Stated.keeps m); [intros K; apply K, Hw |]
  end.
  apply keeps_bind; [apply keeps_lift | intros fileTime].
  apply keeps_bind;
    [apply keeps_modify_rules; intros r; split; reflexivity | intros _].
  apply keeps_read_and_parse.
Qed.

End Sticky.

(** *** Trimming the play queue *)

Lemma set_sent_same (w : Daemon.World) :
  Daemon.set_sent (Daemon.sent w) w = w.
Proof. destruct w; reflexivity. Qed.

Lemma set_sent_twice (x y : list string) (w : Daemon.World) :
  Daemon.set_sent x (Daemon.set_sent y w) = Daemon.set_sent x w.
Proof. reflexivity. Qed.

(** The loop of the trim step sends [delete 0] once per round and counts
    the length down. *)
Lemma delete_loop (mpd_reply : list string -> string -> string) (n : nat) :
  forall (len : Z) (w : Daemon.World),
    Daemon.for_range n
      (fun len => Daemon.bind (Daemon.conn_delete mpd_reply 0)
                    (fun _ => Daemon.ret (len - 1)%Z))
      len w
    = (Ok (len - Z.of_nat n)%Z,
       Daemon.set_sent (Daemon.sent w ++ repeat "delete 0" n) w).
Proof.
  induction n as [| n IH]; intros len w.
  - cbn [Daemon.for_range repeat]. unfold Daemon.ret.
    rewrite app_nil_r, set_sent_same. f_equal. f_equal. lia.
  - cbn [Daemon.for_range repeat]. unfold Daemon.bind at 1.
    unfold Daemon.bind at 1.
    change (Daemon.conn_delete mpd_reply 0 w)
      with (Ok (mpd_reply (Daemon.sent w) "delete 0"),
            Daemon.set_sent (Daemon.sent w ++ ["delete 0"]) w).
    cbv beta iota. unfold Daemon.ret at 1.
    rewrite IH. rewrite set_sent_twice. cbn [Daemon.sent Daemon.set_sent].
    rewrite <- app_assoc. cbn [app]. f_equal. f_equal. lia.
Qed.

(** As long as the current song is not reached, [delete 0] moves it up. *)
Lemma run_deletes (n : nat) :
  forall (q : MpdQueue.t) (c : nat),
    MpdQueue.song q = Some c ->
    (c < List.length (MpdQueue.entries q))%nat ->
    (n <= c)%nat ->
    MpdQueue.song (MpdQueue.run q (repeat "delete 0" n)) = Some (c - n)%nat
    /\ List.length (MpdQueue.entries (MpdQueue.run q (repeat "delete 0" n)))
       = (List.length (MpdQueue.entries q) - n)%nat.
Proof.
  induction n as [| n IH]; intros q c Hs Hl Hn.
  - cbn. rewrite Hs. split; f_equal; lia.
  - cbn [repeat MpdQueue.run fold_left].
    change (MpdQueue.exec q "delete 0") with (MpdQueue.delete0 q).
    destruct q as [es s]. cbn in Hs, Hl. subst s.
    destruct es as [| e rest]; [cbn in Hl; lia |].
    destruct c as [| c]; [lia |].
    unfold MpdQueue.delete0. cbn [MpdQueue.entries MpdQueue.song].
    specialize (IH {| MpdQueue.entries := rest; MpdQueue.song := Some c |} c
                  eq_refl).
    cbn [MpdQueue.entries MpdQueue.song] in IH. cbn in Hl.
    destruct IH as [IH1 IH2]; [lia | lia |].
    unfold MpdQueue.run in IH1, IH2. rewrite IH1, IH2.
    split; [f_equal; lia | cbn; lia].
Qed.

Lemma run_app (q : MpdQueue.t) (a b : list string) :
  MpdQueue.run q (a ++ b) = MpdQueue.run (MpdQueue.run q a) b.
Proof. unfold MpdQueue.run. apply fold_left_app. Qed.

(** C9: with [want = desired/2] the trim step sends [delete 0] exactly
    [current - (want - 1)] times, no time at all when that number is
    negative, and counts the local queue length down by one per deletion
    (not below 0); in a queue whose current song is at position [current],
    the current song is afterwards at a position of at most [desired/2],
    or the queue is empty. *)
Theorem trim_invariant (mpd_reply : list string -> string -> string)
    (w : Daemon.World) (current : nat) (len : Z) (q : MpdQueue.t) :
  let desired := Rules.playQueueDesiredLength (Daemon.rules w) in
  let n := Z.to_nat (Z.of_nat current - (desired / 2 - 1)) in
  (0 <= desired)%Z ->
  MpdQueue.song q = Some current ->
  (current < List.length (MpdQueue.entries q))%nat ->
  Daemon.trim mpd_reply (Z.of_nat current) len w
  = (Ok (Z.max 0 (len - Z.of_nat n)),
     Daemon.set_sent (Daemon.sent w ++ repeat "delete 0" n) w)
  /\ (let q' := MpdQueue.run q (repeat "delete 0" n) in
      (exists c' : nat,
          MpdQueue.song q' = Some c' /\ (Z.of_nat c' <= desired / 2)%Z)
      \/ MpdQueue.entries q' = []).
Proof.
  intros desired n Hd Hs Hl. split.
  - unfold Daemon.trim. unfold Daemon.bind at 1. unfold Daemon.get at 1.
    unfold Daemon.bind at 1. fold desired. fold n.
    rewrite delete_loop. unfold Daemon.ret. f_equal. f_equal.
    destruct (len - Z.of_nat n <? 0)%Z eqn:E;
      [apply Z.ltb_lt in E | apply Z.ltb_ge in E]; lia.
  - cbv zeta.
    assert (0 <= desired / 2)%Z as Hw by (apply Z.div_pos; lia).
    destruct (Nat.le_gt_cases n current) as [Hn | Hn].
    + left. destruct (run_deletes n q current Hs Hl Hn) as [H1 _].
      exists (current - n)%nat. split; [exact H1 |]. subst n. lia.
    + assert (n = S current) as Hn' by lia.
      rewrite Hn'. change (repeat "delete 0" (S current))
        with ("delete 0" :: repeat "delete 0" current).
      rewrite repeat_cons, run_app.
      destruct (run_deletes current q current Hs Hl (Nat.le_refl _))
        as [H1 H2].
      set (q1 := MpdQueue.run q (repeat "delete 0" current)) in *.
      change (MpdQueue.run q1 ["delete 0"]) with (MpdQueue.delete0 q1).
      unfold MpdQueue.delete0.
      destruct (MpdQueue.entries q1) as [| e rest] eqn:Ee;
        [cbn in H2; lia |].
      cbn [MpdQueue.entries MpdQueue.song]. rewrite H1, Nat.sub_diag.
      destruct rest as [| e' rest']; [right; reflexivity |].
      left. exists 0%nat. split; [reflexivity | exact Hw].
Qed.

Lemma trim_invariant_witness :
  let w := Sample.world Sample.artist_rule in
  let q := {| MpdQueue.entries :=
                ["s0"; "s1"; "s2"; "s3"; "s4"; "s5"; "s6"; "s7"; "s8"];
              MpdQueue.song := Some 7%nat |} in
  Daemon.trim Sample.mpd_ok 7 9 w
  = (Ok 6%Z,
     Daemon.set_sent ["delete 0"; "delete 0"; "delete 0"] w)
  /\ ((exists c' : nat,
          MpdQueue.song (MpdQueue.run q (repeat "delete 0" 3)) = Some c'
          /\ (Z.of_nat c' <= 5)%Z)
      \/ MpdQueue.entries (MpdQueue.run q (repeat "delete 0" 3)) = []).
Proof.
  intros w q.
  apply (trim_invariant Sample.mpd_ok w 7 9 q).
  - vm_compute. discriminate.
  - reflexivity.
  - vm_compute. lia.
Defined.

(** *** Reading a reply of MPD *)

(** C8, as stated, fails: the loop also returns a buffer that merely ends
    with [OK] and a newline, with no newline before it. *)
Lemma read_reply_stops_without_newline :
  Connect.read_reply true [Ok ("xOK" +:+ Py.nl)] = Connect.Text ("xOK" +:+ Py.nl)
  /\ Stated.reply_complete ("xOK" +:+ Py.nl) = false.
Proof. split; reflexivity. Qed.

(** The loop of [read_reply] started with [acc] in the buffer, as long as
    non-empty data comes in and the buffer neither is complete nor starts
    with [ACK]. *)
Lemma buffer_0 (chunks : list string) : Stated.buffer chunks 0 = "".
Proof. reflexivity. Qed.

Lemma buffer_S (c : string) (rest : list string) (i : nat) :
  Stated.buffer (c :: rest) (S i) = c +:+ Stated.buffer rest i.
Proof. reflexivity. Qed.

Lemma read_reply_go_skip (chunks : list string) :
  forall (k : nat) (acc : string),
    (k <= List.length chunks)%nat ->
    (forall i, (i < k)%nat -> nth i chunks "" <> "") ->
    (forall i, (1 <= i <= k)%nat ->
       Connect.ok_terminated (acc +:+ Stated.buffer chunks i) = false
       /\ Connect.ack_started (acc +:+ Stated.buffer chunks i) = false) ->
    Connect.read_reply_go acc (List.map Ok chunks)
    = Connect.read_reply_go (acc +:+ Stated.buffer chunks k)
        (List.map Ok (skipn k chunks)).
Proof.
  induction chunks as [| c rest IH]; intros k acc Hk Hne Hgo.
  - cbn in Hk. assert (k = 0)%nat as -> by lia.
    now rewrite buffer_0, append_nil_r.
  - destruct k as [| k].
    + now rewrite buffer_0, append_nil_r.
    + cbn [List.map Connect.read_reply_go skipn].
      pose proof (Hne 0%nat ltac:(lia)) as Hc. cbn in Hc.
      destruct c as [| x c]; [contradiction |].
      destruct (Hgo 1%nat ltac:(lia)) as [H1 H2].
      rewrite buffer_S, buffer_0, append_nil_r in H1, H2.
      rewrite H1, H2.
      rewrite (IH k (acc +:+ String x c)).
      * now rewrite buffer_S, append_assoc.
      * cbn in Hk. lia.
      * intros i Hi. apply (Hne (S i)). lia.
      * intros i Hi. destruct (Hgo (S i) ltac:(lia)) as [G1 G2].
        rewrite buffer_S, <- append_assoc in G1, G2. split; assumption.
Qed.

(** C8, amended: [read_reply] accumulates the received bytes and stops at
    the first round after which the buffer starts with [OK] or ends with
    [OK] and a newline (no newline is needed before it), returning the
    buffer decoded as UTF-8; it returns the empty string when the buffer
    starts with [ACK] instead, and also when [recv] returns no data. *)
Theorem read_reply_amended (chunks : list string) (k : nat) :
  let b := Stated.buffer chunks (S k) in
  let answer := Connect.read_reply true (List.map Ok chunks) in
  (k < List.length chunks)%nat ->
  (forall i, (i < k)%nat -> nth i chunks "" <> "") ->
  (forall i, (1 <= i <= k)%nat ->
     Connect.ok_terminated (Stated.buffer chunks i) = false
     /\ Connect.ack_started (Stated.buffer chunks i) = false) ->
  (nth k chunks "" = "" -> answer = Connect.Text "")
  /\ (nth k chunks "" <> "" -> Connect.ok_terminated b = true ->
      answer = match Connect.str_utf8 b with
               | Ok s => Connect.Text s
               | Raise e => Connect.Raises e
               end)
  /\ (nth k chunks "" <> "" -> Connect.ok_terminated b = false ->
      Connect.ack_started b = true -> answer = Connect.Text "").
Proof.
  intros b answer Hk Hne Hgo. subst answer. unfold Connect.read_reply.
  rewrite (read_reply_go_skip chunks k "" ltac:(lia) Hne Hgo).
  rewrite append_nil_l.
  assert (exists c rest, skipn k chunks = c :: rest /\ nth k chunks "" = c
                         /\ b = Stated.buffer chunks k +:+ c)
    as (c & rest & Hs & Hc & Hb).
  { subst b. clear Hne Hgo. revert k Hk.
    induction chunks as [| x xs IH]; intros k Hk; [cbn in Hk; lia |].
    destruct k as [| k].
    - exists x, xs. rewrite buffer_S, !buffer_0, append_nil_r.
      repeat split; reflexivity.
    - destruct (IH k ltac:(cbn in Hk; lia)) as (c & rest & E1 & E2 & E3).
      exists c, rest. cbn [skipn nth]. repeat split; [exact E1 | exact E2 |].
      rewrite !buffer_S, E3, append_assoc. reflexivity. }
  rewrite Hs, Hc. cbn [List.map Connect.read_reply_go].
  repeat split.
  - intros ->. reflexivity.
  - intros Hc' Hok. destruct c as [| x c]; [contradiction |].
    rewrite <- Hb, Hok. reflexivity.
  - intros Hc' Hok Hack. destruct c as [| x c]; [contradiction |].
    rewrite <- Hb, Hok, Hack. reflexivity.
Qed.

Lemma read_reply_amended_witness :
  let chunks := ["file: a"; ".mp3" +:+ Py.nl +:+ "OK" +:+ Py.nl] in
  let b := Stated.buffer chunks 2 in
  let answer := Connect.read_reply true (List.map Ok chunks) in
  (nth 1 chunks "" = "" -> answer = Connect.Text "")
  /\ (nth 1 chunks "" <> "" -> Connect.ok_terminated b = true ->
      answer = match Connect.str_utf8 b with
               | Ok s => Connect.Text s
               | Raise e => Connect.Raises e
               end)
  /\ (nth 1 chunks "" <> "" -> Connect.ok_terminated b = false ->
      Connect.ack_started b = true -> answer = Connect.Text "").
Proof.
  intros chunks b answer.
  apply (read_reply_amended chunks 1).
  - cbn. lia.
  - intros i Hi. assert (i = 0)%nat as -> by lia. discriminate.
  - intros i Hi. assert (i = 1)%nat as -> by lia. split; reflexivity.
Defined.

(** *** Saving a rule file *)

Section Frames.

Variable mpd_reply : list string -> string -> string.

Lemma same_files_refl (w : Daemon.World) : Stated.same_files w w.
Proof. repeat split. Qed.

Lemma same_files_trans (w1 w2 w3 : Daemon.World) :
  Stated.same_files w1 w2 -> Stated.same_files w2 w3 -> Stated.same_files w1 w3.
Proof.
  intros (A1 & A2 & A3 & A4) (B1 & B2 & B3 & B4).
  repeat split; congruence.
Qed.

(** [send_message] returns normally and writes no file. *)
Lemma send_message_frame (method argument : string)
    (client_id : option string) (w : Daemon.World) :
  exists w', Daemon.send_message mpd_reply method argument client_id w
             = (Ok tt, w')
             /\ Stated.same_files w w'.
Proof.
  unfold Daemon.send_message, Daemon.bind, Daemon.get, Daemon.modify.
  destruct (Daemon.server_mode w).
  - destruct (bool_decide (client_id = Some "http")).
    + eexists. split; [reflexivity | apply same_files_refl].
    + destruct client_id as [[| x c] |];
        (eexists; split; [reflexivity | repeat split]).
  - eexists. split; [reflexivity | repeat split].
Qed.

Lemma status_response_frame (req : string) (client_id : option string)
    (w : Daemon.World) :
  exists w', Daemon.status_response mpd_reply req client_id w = (Ok tt, w')
             /\ Stated.same_files w w'.
Proof.
  unfold Daemon.status_response.
  rewrite bind_get.
  apply send_message_frame.
Qed.

Lemma status_timestamp_frame (w : Daemon.World) :
  exists w', Daemon.status_timestamp w = (Ok tt, w') /\ Stated.same_files w w'.
Proof. eexists. split; [reflexivity | repeat split]. Qed.

(** Writing can only fail with [OSError]. *)
Lemma write_text_error (fs : Sys.FS) (now : Z) (p content : string)
    (e : exn) :
  Sys.write_text fs now p content = Raise e -> e = OSError.
Proof.
  unfold Sys.write_text.
  destruct (Sys.resolve 40 fs p); [| congruence].
  destruct (bool_decide _); congruence.
Qed.

(** C10: whatever its arguments, [save_rules] either opens no file and
    leaves the file system as it is, or opens exactly one file for
    writing: the path made of the rules directory, a slash, the decoded
    name with every slash removed, and [.rules]; that name is not empty
    and has no slash, so the directory of the path is the rules directory
    itself; and the file system afterwards is either unchanged (the write
    failed) or the result of writing the decoded content to that path. *)
Theorem save_opens_only_rule_files (req : string)
    (client_id : option string) (orig_name content : string)
    (w : Daemon.World) :
  let w' := snd (Daemon.save_rules mpd_reply req client_id orig_name content w)
  in
  let name := Py.replace "/" "" (Codec.codecs_decode orig_name) in
  let path := Rules.dir (Daemon.rules w) +:+ "/" +:+ name +:+ ".rules" in
  (Daemon.opened w' = Daemon.opened w /\ Daemon.fs w' = Daemon.fs w)
  \/ (name <> ""
      /\ Py.contains_char "/" name = false
      /\ Daemon.opened w' = (Daemon.opened w ++ [path])%list
      /\ Sys.dirname path = Rules.dir (Daemon.rules w)
      /\ Sys.basename path = name +:+ ".rules"
      /\ (Daemon.fs w' = Daemon.fs w
          \/ Sys.write_text (Daemon.fs w) (Daemon.clock w) path
               (Codec.codecs_decode content)
             = Ok (Daemon.fs w'))).
Proof.
  intros w' name path. subst w'.
  unfold Daemon.save_rules, Daemon.rules_name. fold name.
  destruct (String.eqb name "") eqn:E0.
  { left.
    destruct (send_message_frame req "1" client_id w) as (w1 & -> & F).
    destruct F as (F1 & F2 & _). split; assumption. }
  destruct (Py.endswith name ".rules" || Py.contains_char "/" name) eqn:E1.
  { left.
    destruct (send_message_frame req ("2:" +:+ orig_name) client_id w)
      as (w1 & -> & F).
    destruct F as (F1 & F2 & _). split; assumption. }
  right. apply orb_false_iff in E1 as [_ Hslash].
  apply String.eqb_neq in E0.
  split; [exact E0 |]. split; [exact Hslash |].
  assert (Py.contains_char "/" (name +:+ ".rules") = false) as Hcomp.
  { rewrite contains_char_append, Hslash. reflexivity. }
  destruct (dirname_basename (Rules.dir (Daemon.rules w)) _ Hcomp)
    as [Hdir Hbase].
  rewrite bind_get.
  unfold Daemon.rules_path. fold path.
  unfold Daemon.try_except.
  set (w1 := Daemon.set_opened (Daemon.opened w ++ [path]) w).
  destruct (Sys.write_text (Daemon.fs w) (Daemon.clock w) path
              (Codec.codecs_decode content)) as [fs' | e] eqn:Ew.
  - assert (Daemon.open_write path (Codec.codecs_decode content) w
            = (Ok tt, Daemon.set_fs fs' w1)) as Ho.
    { unfold Daemon.open_write. cbn [Daemon.fs Daemon.clock Daemon.set_opened].
      rewrite Ew. reflexivity. }
    rewrite (bind_ok _ _ _ _ _ Ho).
    destruct (status_timestamp_frame (Daemon.set_fs fs' w1))
      as (w2 & E2 & F2).
    rewrite (bind_ok _ _ _ _ _ E2).
    destruct (send_message_frame req ("0:" +:+ orig_name) client_id w2)
      as (w3 & E3 & F3).
    rewrite (bind_ok _ _ _ _ _ E3).
    destruct (status_response_frame "status" client_id w3) as (w4 & E4 & F4).
    unfold Daemon.send_status. rewrite E4. cbn [snd].
    pose proof (same_files_trans _ _ _ F2 (same_files_trans _ _ _ F3 F4))
      as (G1 & G2 & _).
    cbn [Daemon.fs Daemon.opened Daemon.set_fs] in G1, G2.
    repeat split; [exact G2 | exact Hdir | exact Hbase |].
    right. now rewrite G1.
  - assert (Daemon.open_write path (Codec.codecs_decode content) w
            = (Raise e, w1)) as Ho.
    { unfold Daemon.open_write. cbn [Daemon.fs Daemon.clock Daemon.set_opened].
      rewrite Ew. reflexivity. }
    rewrite (bind_raise _ _ _ _ _ Ho).
    rewrite (write_text_error _ _ _ _ _ Ew). cbn [Daemon.is_OSError].
    destruct (send_message_frame req ("3:" +:+ orig_name) client_id w1)
      as (w2 & -> & F2). cbn [snd].
    destruct F2 as (G1 & G2 & _).
    cbn [Daemon.fs Daemon.opened Daemon.set_opened w1] in G1, G2.
    repeat split; [exact G2 | exact Hdir | exact Hbase |].
    left. exact G1.
Qed.

(** The test of the extension works: when the decoded name ends with
    [.rules], [save_rules] answers with code 2 before the original name,
    opens no file and leaves the file system as it is. *)
Lemma save_rejects_rules_suffix (req : string)
    (client_id : option string) (orig_name content : string)
    (w : Daemon.World) :
  Py.endswith (Codec.codecs_decode orig_name) ".rules" = true ->
  Daemon.save_rules mpd_reply req client_id orig_name content w
  = Daemon.send_message mpd_reply req ("2:" +:+ orig_name) client_id w
  /\ Daemon.fs
       (snd (Daemon.save_rules mpd_reply req client_id orig_name content w))
     = Daemon.fs w
  /\ Daemon.opened
       (snd (Daemon.save_rules mpd_reply req client_id orig_name content w))
     = Daemon.opened w.
Proof.
  intros H.
  destruct (endswith_split _ _ H) as [t Ht].
  assert (Daemon.save_rules mpd_reply req client_id orig_name content w
          = Daemon.send_message mpd_reply req ("2:" +:+ orig_name)
              client_id w) as E.
  { unfold Daemon.save_rules, Daemon.rules_name.
    rewrite Ht, (replace_char_append "/" "" t ".rules").
    change (Py.replace "/" "" ".rules") with ".rules".
    rewrite endswith_append.
    destruct (Py.replace "/" "" t); reflexivity. }
  rewrite E.
  destruct (send_message_frame req ("2:" +:+ orig_name) client_id w)
    as (w1 & -> & F1 & F2 & _).
  repeat split; assumption.
Qed.

End Frames.

Lemma save_rejects_rules_suffix_witness :
  let w := Sample.world Sample.artist_rule in
  Daemon.save_rules Sample.mpd_ok "save" (Some "abc") "x.rules" "Rule" w
  = Daemon.send_message Sample.mpd_ok "save" "2:x.rules" (Some "abc") w
  /\ Daemon.fs
       (snd (Daemon.save_rules Sample.mpd_ok "save" (Some "abc") "x.rules"
               "Rule" w))
     = Daemon.fs w
  /\ Daemon.opened
       (snd (Daemon.save_rules Sample.mpd_ok "save" (Some "abc") "x.rules"
               "Rule" w))
     = Daemon.opened w.
Proof.
  intros w.
  apply (save_rejects_rules_suffix Sample.mpd_ok "save" (Some "abc")
           "x.rules" "Rule" w).
  reflexivity.
Defined.

(** C4: the test of the slash cannot succeed.  [save_rules] removes every
    slash from the decoded name before it tests ['/' in name], so the name
    it tests never has one, whatever the request, and code 2 is never
    given for a slash.  The request [save:abc:bad/name:x], which should be
    answered with [2:bad/name] and write nothing, is answered with
    [0:bad/name], and the file [badname.rules] is written in the rules
    directory. *)
Theorem save_slash_test_is_dead :
  (forall orig_name : string,
      Py.contains_char "/" (Daemon.rules_name orig_name) = false)
  /\ (let w := Sample.world Sample.artist_rule in
      let w' := snd (Daemon.handle_client_message Sample.mpd_ok Sample.lib0
                       "message: save:abc:bad/name:x" w) in
      Py.contains_char "/" (Codec.codecs_decode "bad/name") = true
      /\ Daemon.sent w'
         = [ Daemon.sendmessage_cmd "cantata-dynamic-out-abc" "save"
               "0:bad/name";
             Daemon.sendmessage_cmd "cantata-dynamic-out-abc" "status"
               "IDLE:100:a" ]
      /\ Daemon.opened w' = ["/r/badname.rules"]
      /\ Sys.files (Daemon.fs w') !! "/r/badname.rules" = Some "x"
      /\ Sys.files (Daemon.fs w) !! "/r/badname.rules" = None).
Proof.
  split.
  - intros orig_name. unfold Daemon.rules_name. apply replace_removes_char.
  - by_evaluation.
Qed.

(** *** The rating filter *)

Section Rating.

Variable mpd_reply : list string -> string -> string.

(** [_song_rating_in_range] on a readable entry answers whether the entry
    passes, and changes nothing. *)
Lemma song_rating_in_range_spec (entry : string) (w : Daemon.World) :
  Stated.entry_readable entry ->
  exists b : bool,
    Daemon._song_rating_in_range entry w = (Ok b, w)
    /\ (b = true <-> Stated.entry_passes (Daemon.rules w) entry).
Proof.
  intros Hr. unfold Daemon._song_rating_in_range. rewrite bind_get.
  unfold Stated.entry_passes, Stated.entry_readable in *.
  destruct (Py.split "=" entry) as [| name [| value [| x rest]]] eqn:Es;
    try (exists false; split; [reflexivity |];
         split; [discriminate | intros (n' & v' & z & H & _); discriminate]).
  destruct (Py.int value) as [n |] eqn:Ei;
    [| exfalso; exact (Hr name value eq_refl Ei)].
  eexists. split; [reflexivity |]. split.
  - intros Hb. exists name, value, n. split; [reflexivity |].
    split; [exact Ei |].
    apply orb_true_iff in Hb as [Hb | Hb]; [left; exact Hb |].
    apply andb_true_iff in Hb as [Hz Hu]. apply Z.eqb_eq in Hz.
    right. split; assumption.
  - intros (name' & value' & n' & H1 & H2 & H3).
    injection H1 as <- <-. rewrite Ei in H2. injection H2 as <-.
    apply orb_true_iff. destruct H3 as [H3 | [-> H3]]; [left; exact H3 |].
    right. rewrite H3. reflexivity.
Qed.

(** The loop over readable entries finds out whether one of them passes. *)
Lemma any_in_range_spec (entries : list string) (w : Daemon.World) :
  Forall Stated.entry_readable entries ->
  exists b : bool,
    Daemon.any_in_range entries w = (Ok b, w)
    /\ (b = true <-> Exists (Stated.entry_passes (Daemon.rules w)) entries).
Proof.
  induction 1 as [| entry rest Hr _ IH].
  - exists false. split; [reflexivity |].
    split; [discriminate | intros H; inversion H].
  - destruct (song_rating_in_range_spec entry w Hr) as (b & Eb & Hb).
    cbn [Daemon.any_in_range]. rewrite (bind_ok _ _ _ _ _ Eb).
    destruct b.
    + exists true. split; [reflexivity |].
      split; [intros _; left; now apply Hb | reflexivity].
    + destruct IH as (b' & Eb' & Hb'). exists b'. split; [exact Eb' |].
      split.
      * intros H. right. now apply Hb'.
      * intros H. inversion H as [? ? Hp | ? ? Hp]; subst.
        -- apply Hb in Hp. discriminate.
        -- now apply Hb'.
Qed.

(** C2, amended: the filter passes every file when the rating range is
    disabled ([rating <= 0]); with an active range it rejects every file
    when the pool is empty and passes every file when there are no include
    rules; only otherwise (an active range, a non-empty pool and include
    rules) it asks MPD for the rating sticker of the file, and then, the
    sticker values being integers, it passes the file iff some sticker
    value lies in the rating range or is 0 while unrated songs are
    included; a file that does not pass is removed from the pool at
    [pos]. *)
Theorem rating_filter (w : Daemon.World) (filename : string)
    (pos : option Z) :
  let r := Daemon.rules w in
  let cmd := Daemon.sticker_get_cmd filename in
  let entries := Stated.sticker_entries (mpd_reply (Daemon.sent w) cmd) in
  let asked := Daemon.set_sent (Daemon.sent w ++ [cmd]) w in
  let check := Daemon.check_song_rating_in_range mpd_reply filename pos w in
  Forall Stated.entry_readable entries ->
  (MinMax.le (Rules.rating r) 0 = true -> check = (Ok true, w))
  /\ (MinMax.le (Rules.rating r) 0 = false -> Daemon.songs w = [] ->
      check = (Ok false, w))
  /\ (MinMax.le (Rules.rating r) 0 = false -> Daemon.songs w <> [] ->
      Rules.include r = ∅ -> check = (Ok true, w))
  /\ (MinMax.le (Rules.rating r) 0 = false -> Daemon.songs w <> [] ->
      Rules.include r <> ∅ ->
      (Exists (Stated.entry_passes r) entries -> check = (Ok true, asked))
      /\ (~ Exists (Stated.entry_passes r) entries ->
          check = match Daemon.del_at (Daemon.songs w) pos with
                  | Ok l => (Ok false, Daemon.set_songs l asked)
                  | Raise e => (Raise e, asked)
                  end)).
Proof.
  intros r cmd entries asked check Hread. subst check.
  unfold Daemon.check_song_rating_in_range. rewrite bind_get. fold r.
  split; [intros ->; reflexivity |].
  split; [intros -> ->; reflexivity |].
  split.
  { intros -> Hs ->. destruct (Daemon.songs w); [contradiction |].
    reflexivity. }
  intros -> Hs Hinc.
  destruct (Daemon.songs w) as [| s0 ss] eqn:Esongs; [contradiction |].
  cbn [List.length Nat.eqb].
  rewrite bool_decide_eq_false_2 by exact Hinc.
  assert (Daemon.query mpd_reply cmd "sticker" w = (Ok entries, asked)) as Eq
    by reflexivity.
  fold cmd. rewrite (bind_ok _ _ _ _ _ Eq).
  destruct (any_in_range_spec entries asked Hread) as (b & Eb & Hb).
  rewrite (bind_ok _ _ _ _ _ Eb).
  change (Daemon.rules asked) with r in Hb.
  split.
  - intros Hex. apply Hb in Hex. subst b. reflexivity.
  - intros Hnex. destruct b; [exfalso; apply Hnex; now apply Hb |].
    rewrite bind_get.
    change (Daemon.songs asked) with (Daemon.songs w). rewrite Esongs.
    unfold Daemon.bind, Daemon.lift.
    destruct (Daemon.del_at (s0 :: ss) pos); reflexivity.
Qed.

End Rating.

Lemma rating_filter_witness :
  let w := Sample.rated_world in
  let r := Daemon.rules w in
  let cmd := Daemon.sticker_get_cmd "a.mp3" in
  let entries :=
    Stated.sticker_entries (Sample.mpd_rating2 (Daemon.sent w) cmd) in
  let asked := Daemon.set_sent (Daemon.sent w ++ [cmd]) w in
  let check :=
    Daemon.check_song_rating_in_range Sample.mpd_rating2 "a.mp3"
      (Some 0%Z) w in
  (MinMax.le (Rules.rating r) 0 = true -> check = (Ok true, w))
  /\ (MinMax.le (Rules.rating r) 0 = false -> Daemon.songs w = [] ->
      check = (Ok false, w))
  /\ (MinMax.le (Rules.rating r) 0 = false -> Daemon.songs w <> [] ->
      Rules.include r = ∅ -> check = (Ok true, w))
  /\ (MinMax.le (Rules.rating r) 0 = false -> Daemon.songs w <> [] ->
      Rules.include r <> ∅ ->
      (Exists (Stated.entry_passes r) entries -> check = (Ok true, asked))
      /\ (~ Exists (Stated.entry_passes r) entries ->
          check = match Daemon.del_at (Daemon.songs w) (Some 0%Z) with
                  | Ok l => (Ok false, Daemon.set_songs l asked)
                  | Raise e => (Raise e, asked)
                  end)).
Proof.
  intros w r cmd entries asked check.
  apply (rating_filter Sample.mpd_rating2 w "a.mp3" (Some 0%Z)).
  constructor; [| constructor].
  intros name value H. vm_compute in H. injection H as <- <-.
  vm_compute. discriminate.
Defined.

(** C2, as stated, fails: with include rules in the rule set and the
    rating range 3 to 5, a file whose sticker says 2 is rejected (and
    taken out of the pool), after MPD has been asked for the sticker. *)
Lemma rating_filter_rejects_with_include_rules :
  let w := Sample.rated_world in
  let res := Daemon.check_song_rating_in_range Sample.mpd_rating2 "a.mp3"
               (Some 0%Z) w in
  bool_decide (Rules.include (Daemon.rules w) = ∅) = false
  /\ fst res = Ok false
  /\ Daemon.sent (snd res) = [Daemon.sticker_get_cmd "a.mp3"]
  /\ Daemon.songs (snd res) = ["b.mp3"].
Proof. by_evaluation. Qed.

(** Without include rules the same file passes and MPD is not asked. *)
Lemma rating_filter_passes_without_include_rules :
  let w := Daemon.set_rules
             (Rules.set_include ∅ (Daemon.rules Sample.rated_world))
             Sample.rated_world in
  Daemon.check_song_rating_in_range Sample.mpd_rating2 "a.mp3" (Some 0%Z) w
  = (Ok true, w).
Proof. vm_compute. reflexivity. Qed.

(* ===================================================================== *)
(** ** Further properties *)
(* ===================================================================== *)

(** *** The codec, further *)




(** X2: decoding the encoding of a string gives the string back whenever
    the three characters [{q}] do not occur in it. *)
Theorem codec_roundtrip_conditional (s : string) :
  Py.contains "{q}" s = false ->
  Codec.codecs_decode (Codec.codecs_encode s) = s.
Proof.
  exact (codec_roundtrip_without_brace_q s).
Qed.

Lemma codec_roundtrip_conditional_witness :
  Codec.codecs_decode
    (Codec.codecs_encode ("Rating:1-5" +:+ Py.nl +:+ "Artist:{a}"))
  = "Rating:1-5" +:+ Py.nl +:+ "Artist:{a}".
Proof.
  apply (codec_roundtrip_conditional
           ("Rating:1-5" +:+ Py.nl +:+ "Artist:{a}")).
  reflexivity.
Defined.

(** X3: encoding goes through concatenation, and so through [join]: a
    text can be encoded piece by piece. *)
Theorem encode_join (pieces : list string) :
  Codec.codecs_encode (Py.join pieces)
  = Py.join (List.map Codec.codecs_encode pieces).
Proof.
  induction pieces as [| p rest IH]; [reflexivity |].
  cbn [Py.join fold_right List.map].
  change (fold_right String.append "" rest) with (Py.join rest).
  change (fold_right String.append "" (List.map Codec.codecs_encode rest))
    with (Py.join (List.map Codec.codecs_encode rest)).
  now rewrite encode_append, IH.
Qed.

(** *** The play-queue history, further *)

Lemma can_add_within_limit (h : History.PlayQueueHistory) (file : string)
    (n : Z) :
  Trace.within_limit h -> Trace.within_limit (snd (History.can_add h file n)).
Proof.
  intros H. unfold History.can_add.
  destruct (History.pq_limit n) as [l |]; [| exact H].
  destruct (negb (l =? History.limit h)%Z); [| exact H].
  unfold Trace.within_limit. cbn. lia.
Qed.

Lemma store_song_within_limit (h : History.PlayQueueHistory)
    (file : string) :
  Trace.within_limit h -> Trace.within_limit (History.store_song h file).
Proof.
  unfold Trace.within_limit, History.store_song. intros H.
  cbn [History.history History.limit].
  rewrite length_app. cbn [List.length].
  destruct (History.history h) as [| x l].
  - cbn [List.length tl] in *.
    destruct (History.limit h <=? 0)%Z eqn:E;
      [apply Z.leb_le in E | apply Z.leb_gt in E].
    + change (5 <=? Z.of_nat 0)%Z with false. cbn [List.length]. lia.
    + destruct (History.limit h <=? Z.of_nat 0)%Z eqn:E2;
        [apply Z.leb_le in E2; lia | cbn [List.length]; lia].
  - cbn [List.length tl] in *.
    destruct (History.limit h <=? 0)%Z eqn:E;
      [apply Z.leb_le in E; lia | apply Z.leb_gt in E].
    destruct (History.limit h <=? Z.of_nat (S (List.length l)))%Z eqn:E2;
      [apply Z.leb_le in E2 | apply Z.leb_gt in E2];
      cbn [List.length tl]; lia.
Qed.

(** X4: whatever calls of [can_add] and [store_song] are made on a fresh
    history, in whatever order and with whatever pool sizes, the history
    never holds more songs than its limit. *)
Theorem history_within_limit (calls : list Trace.call) :
  let h := Trace.run calls in
  (Z.of_nat (List.length (History.history h)) <= Z.max 0 (History.limit h))%Z.
Proof.
  cbv zeta. unfold Trace.run.
  assert (Trace.within_limit History.init) as H0 by (unfold Trace.within_limit; cbn; lia).
  revert H0. generalize History.init as h.
  induction calls as [| c rest IH]; intros h Hh; [exact Hh |].
  cbn [fold_left]. apply IH. destruct c as [file n | file]; cbn [Trace.step].
  - now apply can_add_within_limit.
  - now apply store_song_within_limit.
Qed.

Lemma not_in_app_last (file : string) (l : list string) :
  History.not_in file (l ++ [file]) = false.
Proof.
  unfold History.not_in. rewrite existsb_app. cbn.
  rewrite String.eqb_refl, orb_true_r. reflexivity.
Qed.

(** X5: a song that has just been stored is refused by [can_add] as long
    as the pool size gives the capacity the history has. *)
Theorem stored_song_refused (h : History.PlayQueueHistory) (file : string)
    (num_songs : Z) :
  History.pq_limit num_songs
  = Some (History.limit (History.store_song h file)) ->
  History.can_add (History.store_song h file) file num_songs
  = (false, History.store_song h file).
Proof.
  intros H. unfold History.can_add. rewrite H.
  rewrite Z.eqb_refl. cbn [negb].
  unfold History.store_song at 1. cbn [History.history].
  now rewrite not_in_app_last.
Qed.

Lemma stored_song_refused_witness :
  History.can_add (History.store_song (Trace.run [Trace.CanAdd "a" 8]) "a")
    "a" 8
  = (false, History.store_song (Trace.run [Trace.CanAdd "a" 8]) "a").
Proof.
  apply (stored_song_refused (Trace.run [Trace.CanAdd "a" 8]) "a" 8).
  reflexivity.
Defined.

(** *** Ranges and rule sets, further *)

Lemma minmax_make_positive (a b : Z) :
  (0 < a)%Z -> (0 < b)%Z ->
  MinMax.make (MinMax.PInt a) (MinMax.PInt b)
  = Ok {| MinMax.min := Z.min a b; MinMax.max := Z.max a b |}.
Proof.
  intros Ha Hb.
  cbv beta iota zeta delta [MinMax.make MinMax.conv default from_option id].
  assert ((0 <? b)%Z = true) as -> by now apply Z.ltb_lt.
  destruct (b <? a)%Z eqn:E; [apply Z.ltb_lt in E | apply Z.ltb_ge in E];
    cbn [andb].
  - now rewrite Z.min_r, Z.max_l by lia.
  - now rewrite Z.min_l, Z.max_r by lia.
Qed.

(** X6: built from two positive numbers, a range has the smaller one as
    its lower and the larger one as its upper end, in whichever order the
    two are given. *)
Theorem minmax_make_sorted (a b : Z) :
  (0 < a)%Z -> (0 < b)%Z ->
  MinMax.make (MinMax.PInt a) (MinMax.PInt b)
  = Ok {| MinMax.min := Z.min a b; MinMax.max := Z.max a b |}
  /\ MinMax.make (MinMax.PInt b) (MinMax.PInt a)
     = MinMax.make (MinMax.PInt a) (MinMax.PInt b).
Proof.
  intros Ha Hb. rewrite !minmax_make_positive by assumption.
  now rewrite Z.min_comm, Z.max_comm.
Qed.

Lemma minmax_make_sorted_witness :
  MinMax.make (MinMax.PInt 5) (MinMax.PInt 3)
  = Ok {| MinMax.min := Z.min 5 3; MinMax.max := Z.max 5 3 |}
  /\ MinMax.make (MinMax.PInt 3) (MinMax.PInt 5)
     = MinMax.make (MinMax.PInt 5) (MinMax.PInt 3).
Proof. apply (minmax_make_sorted 5 3); lia. Defined.

(** X7: whatever its arguments, a range that [MinMax] builds with a
    positive upper end has its lower end at or below it. *)
Theorem minmax_make_ordered (p q : MinMax.Param) (r : MinMax.t) :
  MinMax.make p q = Ok r -> (0 < MinMax.max r)%Z ->
  (MinMax.min r <= MinMax.max r)%Z.
Proof.
  unfold MinMax.make. intros H Hmax.
  destruct (MinMax.conv p) as [a | e]; [| discriminate].
  destruct (MinMax.conv q) as [b | e]; [| discriminate].
  destruct ((default 0 b <? default 0 a)%Z && (0 <? default 0 b)%Z) eqn:E.
  - apply andb_true_iff in E as [E1 E2]. apply Z.ltb_lt in E1.
    injection H as <-. cbn in *. lia.
  - injection H as <-. cbn in *.
    apply andb_false_iff in E as [E | E]; apply Z.ltb_ge in E; lia.
Qed.

Lemma minmax_make_ordered_witness :
  (MinMax.min {| MinMax.min := 30; MinMax.max := 900 |}
   <= MinMax.max {| MinMax.min := 30; MinMax.max := 900 |})%Z.
Proof.
  apply (minmax_make_ordered (MinMax.PStr "900") (MinMax.PStr "30")).
  - reflexivity.
  - reflexivity.
Defined.

Lemma minmax_ne_false (a b : MinMax.t) : MinMax.ne a b = false <-> a = b.
Proof.
  unfold MinMax.ne. destruct a as [a1 a2], b as [b1 b2]. cbn.
  rewrite orb_false_iff, !negb_false_iff, !Z.eqb_eq.
  split; [intros [-> ->]; reflexivity | intros [= -> ->]; auto].
Qed.

Lemma symdiff_empty (a b : gset string) :
  RulesParam.truthy (RulesParam.symdiff a b) = false <-> a = b.
Proof.
  unfold RulesParam.truthy, RulesParam.symdiff.
  rewrite negb_false_iff, bool_decide_eq_true. split.
  - intros H. apply set_eq. intros x.
    assert (x ∉ a ∖ b ∪ b ∖ a) as Hx by (rewrite H; apply not_elem_of_empty).
    rewrite elem_of_union, !elem_of_difference in Hx.
    destruct (decide (x ∈ a)), (decide (x ∈ b)); tauto.
  - intros ->. apply set_eq. intros x.
    rewrite elem_of_union, !elem_of_difference, elem_of_empty. tauto.
Qed.

(** X8: the comparison of two rule sets answers "not different" exactly
    when the include sets, the exclude sets, the rating ranges and the
    duration ranges are all equal. *)
Theorem rules_param_ne_exact (p q : RulesParam.t) :
  RulesParam.ne p q = false <-> p = q.
Proof.
  unfold RulesParam.ne.
  rewrite !orb_false_iff, !symdiff_empty, !minmax_ne_false.
  destruct p, q. cbn. split.
  - intros [[[-> ->] ->] ->]. reflexivity.
  - intros [= -> -> -> ->]. auto.
Qed.

(** *** Reading a reply of MPD, further *)

Lemma read_reply_go_text (events : Connect.recv_events) :
  forall (acc s : string),
    Connect.read_reply_go acc events = Connect.Text s -> s <> "" ->
    Connect.ok_terminated s = true /\ Connect.utf8_valid s = true.
Proof.
  induction events as [| ev rest IH]; intros acc s H Hs; [discriminate |].
  cbn [Connect.read_reply_go] in H.
  destruct ev as [data | e]; [| discriminate].
  destruct data as [| c data]; [injection H as <-; contradiction |].
  destruct (Connect.ok_terminated (acc +:+ String c data)) eqn:Eok.
  - unfold Connect.str_utf8 in H.
    destruct (Connect.utf8_valid (acc +:+ String c data)) eqn:Ev;
      [| discriminate].
    injection H as <-. split; assumption.
  - destruct (Connect.ack_started (acc +:+ String c data)).
    + injection H as <-. contradiction.
    + exact (IH _ _ H Hs).
Qed.

(** X9: a text that [read_reply] returns is empty, or it starts with [OK]
    or ends with [OK] and a newline and is well-formed UTF-8. *)
Theorem read_reply_text (connected : bool) (events : Connect.recv_events)
    (s : string) :
  Connect.read_reply connected events = Connect.Text s -> s <> "" ->
  Connect.ok_terminated s = true /\ Connect.utf8_valid s = true.
Proof.
  unfold Connect.read_reply. destruct connected; [| discriminate].
  apply read_reply_go_text.
Qed.

Lemma read_reply_text_witness :
  Connect.ok_terminated ("volume: 50" +:+ Py.nl +:+ "OK" +:+ Py.nl) = true
  /\ Connect.utf8_valid ("volume: 50" +:+ Py.nl +:+ "OK" +:+ Py.nl) = true.
Proof.
  apply (read_reply_text true
           [Ok ("volume: 50" +:+ Py.nl); Ok ("OK" +:+ Py.nl)]).
  - reflexivity.
  - discriminate.
Defined.

(** *** The control dispatcher, further *)

(** X10: data in which no line starts with [message: ] is ignored by the
    dispatcher: nothing is sent and nothing changes. *)
Theorem dispatcher_ignores_other_lines
    (mpd_reply : list string -> string -> string) (lib : Daemon.Lib)
    (data : string) (w : Daemon.World) :
  Forall (fun line => Py.startswith line "message: " = false)
    (Py.splitlines data) ->
  Daemon.handle_client_message mpd_reply lib data w = (Ok tt, w).
Proof.
  unfold Daemon.handle_client_message.
  induction 1 as [| line rest Hl _ IH]; [reflexivity |].
  cbn [Daemon.for_each]. unfold Daemon.bind at 1.
  unfold Daemon.handle_line at 1. rewrite Hl. exact IH.
Qed.

Lemma dispatcher_ignores_other_lines_witness :
  Daemon.handle_client_message Sample.mpd_ok Sample.lib0
    ("channel: cantata-dynamic-in" +:+ Py.nl +:+ "OK" +:+ Py.nl)
    (Sample.world Sample.artist_rule)
  = (Ok tt, Sample.world Sample.artist_rule).
Proof.
  apply (dispatcher_ignores_other_lines Sample.mpd_ok Sample.lib0).
  repeat constructor.
Defined.

(** *** Reading the rule file, further *)

Section RulesInvariant.

Variable mpd_reply : list string -> string -> string.
Variable lib : Daemon.Lib.
Variable Q : Rules.t -> Prop.

Lemma rk_ret {A : Type} (a : A) : Inv.rules_keep Q (Daemon.ret a).
Proof. intros w H. exact H. Qed.

Lemma rk_raise {A : Type} (e : exn) : Inv.rules_keep Q (@Daemon.raise A e).
Proof. intros w H. exact H. Qed.

Lemma rk_lift {A : Type} (r : result A) : Inv.rules_keep Q (Daemon.lift r).
Proof. intros w H. exact H. Qed.

Lemma rk_get : Inv.rules_keep Q Daemon.get.
Proof. intros w H. exact H. Qed.

Lemma rk_bind {A B : Type} (m : Daemon.M A) (k : A -> Daemon.M B) :
  Inv.rules_keep Q m -> (forall a, Inv.rules_keep Q (k a)) ->
  Inv.rules_keep Q (Daemon.bind m k).
Proof.
  intros Hm Hk w H. unfold Daemon.bind.
  specialize (Hm w H). destruct (m w) as [[a | e] w1]; cbn [snd] in *.
  - apply Hk, Hm.
  - exact Hm.
Qed.

Lemma rk_query (command key : string) :
  Inv.rules_keep Q (Daemon.query mpd_reply command key).
Proof. intros w H. exact H. Qed.

Lemma rk_modify_rules (f : Rules.t -> Rules.t) :
  (forall r, Q r -> Q (f r)) -> Inv.rules_keep Q (Daemon.modify_rules f).
Proof. intros Hf w H. cbn. apply Hf, H. Qed.

End RulesInvariant.

Section DesiredLength.

Variable mpd_reply : list string -> string -> string.
Variable lib : Daemon.Lib.

Lemma desired_ok_same (r r' : Rules.t) :
  Rules.playQueueDesiredLength r' = Rules.playQueueDesiredLength r ->
  Inv.desired_ok r -> Inv.desired_ok r'.
Proof. unfold Inv.desired_ok. now intros ->. Qed.

Lemma desired_ok_saveRule rule dates artists genres ruleMatch isInclude
    maxAge (r : Rules.t) :
  Inv.desired_ok r ->
  Inv.desired_ok
    (Daemon.saveRule rule dates artists genres ruleMatch isInclude maxAge r).
Proof.
  apply desired_ok_same. unfold Daemon.saveRule.
  destruct isInclude; reflexivity.
Qed.

Lemma desired_ok_NumTracks (n : Z) (r : Rules.t) :
  MinMax.contains Rules.PLAY_QUEUE_DESIRED_LENGTH n = true ->
  Inv.desired_ok
    (Rules.set_playQueueDesiredLength
       (if (0 <? n mod 2)%Z then (n + 1)%Z else n) r).
Proof.
  unfold MinMax.contains, Rules.PLAY_QUEUE_DESIRED_LENGTH, Inv.desired_ok.
  cbn [MinMax.min MinMax.max Rules.playQueueDesiredLength
       Rules.set_playQueueDesiredLength].
  intros H. apply andb_true_iff in H as [H1 H2].
  apply Z.leb_le in H1, H2.
  pose proof (Z.mod_pos_bound n 2 ltac:(lia)) as Hm.
  pose proof (Z.div_mod n 2 ltac:(lia)) as Hd.
  set (q := (n / 2)%Z) in *. set (m := (n mod 2)%Z) in *.
  destruct (0 <? m)%Z eqn:E; [apply Z.ltb_lt in E | apply Z.ltb_ge in E].
  - split; [lia |]. rewrite Z.even_spec. exists (q + 1)%Z. lia.
  - split; [lia |]. rewrite Z.even_spec. exists q. lia.
Qed.

Ltac rk_step :=
  first
    [ apply rk_ret
    | apply rk_raise
    | apply rk_lift
    | apply rk_get
    | apply rk_query
    | apply rk_modify_rules; intros ? ?;
      first [ now apply desired_ok_saveRule
            | now apply desired_ok_NumTracks
            | eapply desired_ok_same; [| eassumption]; reflexivity ]
    | apply rk_bind; [| intros ?]
    | match goal with
      | |- Inv.rules_keep _ (if ?b then _ else _) => destruct b eqn:?
      | |- Inv.rules_keep _ (match ?x with _ => _ end) => destruct x
      end ].

Lemma desired_ok_parse_line (st : Daemon.ParseState) (line : string) :
  Inv.rules_keep Inv.desired_ok (Daemon.parse_line mpd_reply lib st line).
Proof.
  unfold Daemon.parse_line, Daemon.int_or_raise, Daemon.str_gt_int,
    Daemon.flush.
  repeat rk_step.
Qed.

Lemma desired_ok_parse_lines (lines : list string) :
  forall st,
    Inv.rules_keep Inv.desired_ok
      (Daemon.parse_lines mpd_reply lib st lines).
Proof.
  induction lines as [| line rest IH]; intros st; cbn [Daemon.parse_lines].
  - apply rk_ret.
  - apply rk_bind; [apply desired_ok_parse_line | intros st'; apply IH].
Qed.

Lemma desired_ok_checkRulesChanged (r : Rules.t) :
  Inv.desired_ok r -> Inv.desired_ok (Rules.checkRulesChanged r).
Proof.
  apply desired_ok_same. unfold Rules.checkRulesChanged.
  destruct (negb (Rules.modified r));
    [destruct (RulesParam.ne _ _) | destruct (Rules.modified r)];
    reflexivity.
Qed.

Lemma desired_ok_read_and_parse :
  Inv.rules_keep Inv.desired_ok (Daemon.read_and_parse mpd_reply lib).
Proof.
  unfold Daemon.read_and_parse, Daemon.flush.
  apply rk_bind; [apply rk_get | intros w0].
  apply rk_bind; [apply rk_lift | intros text].
  apply rk_bind;
    [apply rk_modify_rules; intros r _;
     split; [split; discriminate | reflexivity]
    | intros _].
  apply rk_bind; [apply desired_ok_parse_lines | intros st].
  apply rk_bind; [apply rk_get | intros w1].
  apply rk_bind.
  - destruct (Daemon.in_flight st);
      [apply rk_modify_rules; intros r Hr; now apply desired_ok_saveRule |].
    destruct (_ && _); [| apply rk_ret].
    apply rk_modify_rules. intros r Hr. now apply desired_ok_saveRule.
  - intros _. apply rk_bind; [| intros _; apply rk_ret].
    apply rk_modify_rules. intros r. apply desired_ok_checkRulesChanged.
Qed.

(** X11: a call of [readRules] leaves the desired queue length even and
    between 10 and 500 if it was so before, whatever the rule file holds
    and whether the call returns or raises. *)
Theorem readRules_desired_length (w : Daemon.World) :
  Inv.desired_ok (Daemon.rules w) ->
  Inv.desired_ok (Daemon.rules (snd (Daemon.readRules mpd_reply lib w))).
Proof.
  revert w. change (Inv.rules_keep Inv.desired_ok
                      (Daemon.readRules mpd_reply lib)).
  unfold Daemon.readRules.
  apply rk_bind; [apply rk_get | intros w].
  repeat first
    [ apply desired_ok_read_and_parse
    | apply rk_modify_rules; intros r; apply desired_ok_checkRulesChanged
    | rk_step ].
Qed.

Lemma ws_len_hash (s : string) : Py.ws_len (String "#" s) = 0%nat.
Proof. destruct s as [| d [| e s]]; reflexivity. Qed.

Lemma parse_line_comment (st : Daemon.ParseState) (line : string)
    (w : Daemon.World) :
  Py.startswith line "#" = true ->
  Daemon.parse_line mpd_reply lib st line w = (Ok st, w).
Proof.
  intros H. destruct line as [| c s]; [discriminate |].
  unfold Py.startswith in H. cbn [Py.prefix] in H.
  apply andb_true_iff in H as [H _]. apply Ascii.eqb_eq in H. subst c.
  unfold Daemon.parse_line.
  assert (Py.rstrip (String "#" s) = String "#" (Py.rstrip s)) as ->.
  { cbn [Py.rstrip]. unfold Py.all_ws, Py.lstrip. cbn [Py.lstrip_go].
    now rewrite ws_len_hash. }
  reflexivity.
Qed.

Lemma parse_lines_app (a b : list string) :
  forall st w,
    Daemon.parse_lines mpd_reply lib st (a ++ b) w
    = Daemon.bind (Daemon.parse_lines mpd_reply lib st a)
        (fun st' => Daemon.parse_lines mpd_reply lib st' b) w.
Proof.
  induction a as [| l a IH]; intros st w; [reflexivity |].
  cbn [app Daemon.parse_lines]. unfold Daemon.bind.
  destruct (Daemon.parse_line mpd_reply lib st l w) as [[st' | e] w1];
    [| reflexivity].
  rewrite IH. reflexivity.
Qed.

(** X12: a line that starts with [#] is skipped: a rule file with such a
    line anywhere is parsed like the file without it. *)
Theorem comment_lines_skipped (before after : list string)
    (comment : string) (st : Daemon.ParseState) (w : Daemon.World) :
  Py.startswith comment "#" = true ->
  Daemon.parse_lines mpd_reply lib st (before ++ comment :: after) w
  = Daemon.parse_lines mpd_reply lib st (before ++ after) w.
Proof.
  intros H. rewrite !parse_lines_app. unfold Daemon.bind.
  destruct (Daemon.parse_lines mpd_reply lib st before w)
    as [[st' | e] w1]; [| reflexivity].
  cbn [Daemon.parse_lines]. unfold Daemon.bind.
  now rewrite parse_line_comment.
Qed.

End DesiredLength.

Lemma readRules_desired_length_witness :
  Inv.desired_ok
    (Daemon.rules
       (snd (Daemon.readRules Sample.mpd_ok Sample.lib0
               (Sample.world "NumTracks:499")))).
Proof.
  apply (readRules_desired_length Sample.mpd_ok Sample.lib0
           (Sample.world "NumTracks:499")).
  split; [vm_compute; split; discriminate | reflexivity].
Defined.

Lemma comment_lines_skipped_witness :
  Daemon.parse_lines Sample.mpd_ok Sample.lib0 Daemon.parse_start
    (["Rule"] ++ "# a remark" :: ["Artist:X"])
    (Sample.world Sample.artist_rule)
  = Daemon.parse_lines Sample.mpd_ok Sample.lib0 Daemon.parse_start
      (["Rule"] ++ ["Artist:X"]) (Sample.world Sample.artist_rule).
Proof.
  apply (comment_lines_skipped Sample.mpd_ok Sample.lib0 ["Rule"]
           ["Artist:X"] "# a remark").
  reflexivity.
Defined.

(** *** Messages change nothing else *)

Section SendsOnly.

Variable mpd_reply : list string -> string -> string.

Lemma only_sent_refl (w : Daemon.World) : Pool.only_sent w w.
Proof. repeat split. Qed.

Lemma only_sent_trans (w1 w2 w3 : Daemon.World) :
  Pool.only_sent w1 w2 -> Pool.only_sent w2 w3 -> Pool.only_sent w1 w3.
Proof.
  unfold Pool.only_sent. intros H1 H2.
  destruct H1 as (A1 & A2 & A3 & A4 & A5 & A6 & A7 & A8 & A9 & A10).
  destruct H2 as (B1 & B2 & B3 & B4 & B5 & B6 & B7 & B8 & B9 & B10).
  repeat split; congruence.
Qed.

Lemma so_ret {A : Type} (a : A) : Pool.sends_only (Daemon.ret a).
Proof. intros w. apply only_sent_refl. Qed.

Lemma so_raise {A : Type} (e : exn) : Pool.sends_only (@Daemon.raise A e).
Proof. intros w. apply only_sent_refl. Qed.

Lemma so_get : Pool.sends_only Daemon.get.
Proof. intros w. apply only_sent_refl. Qed.

Lemma so_bind {A B : Type} (m : Daemon.M A) (k : A -> Daemon.M B) :
  Pool.sends_only m -> (forall a, Pool.sends_only (k a)) ->
  Pool.sends_only (Daemon.bind m k).
Proof.
  intros Hm Hk w. unfold Daemon.bind. specialize (Hm w).
  destruct (m w) as [[a | e] w1]; cbn [snd] in *; [| exact Hm].
  eapply only_sent_trans; [exact Hm | apply Hk].
Qed.

Lemma so_send_command (cmd : string) :
  Pool.sends_only (Daemon.send_command mpd_reply cmd).
Proof. intros w. repeat split. Qed.

Lemma so_query_pairs (command : string) :
  Pool.sends_only (Daemon.query_pairs mpd_reply command).
Proof. intros w. repeat split. Qed.

Lemma so_query (command key : string) :
  Pool.sends_only (Daemon.query mpd_reply command key).
Proof. intros w. repeat split. Qed.

Lemma so_send_message (method argument : string)
    (client_id : option string) :
  Pool.sends_only (Daemon.send_message mpd_reply method argument client_id).
Proof.
  intros w. unfold Daemon.send_message, Daemon.bind, Daemon.get,
    Daemon.modify.
  destruct (Daemon.server_mode w); [| repeat split].
  destruct (bool_decide (client_id = Some "http")); [repeat split |].
  destruct client_id as [[| x c] |]; repeat split.
Qed.

Lemma so_status_response (req : string) (client_id : option string) :
  Pool.sends_only (Daemon.status_response mpd_reply req client_id).
Proof.
  unfold Daemon.status_response.
  apply so_bind; [apply so_get | intros w; apply so_send_message].
Qed.

(** [send_message] and [status_response] always return. *)
Lemma send_message_returns (method argument : string)
    (client_id : option string) (w : Daemon.World) :
  fst (Daemon.send_message mpd_reply method argument client_id w) = Ok tt.
Proof.
  destruct (send_message_frame mpd_reply method argument client_id w)
    as (w' & -> & _). reflexivity.
Qed.

Lemma status_response_returns (req : string) (client_id : option string)
    (w : Daemon.World) :
  fst (Daemon.status_response mpd_reply req client_id w) = Ok tt.
Proof.
  destruct (status_response_frame mpd_reply req client_id w)
    as (w' & -> & _). reflexivity.
Qed.

End SendsOnly.

(** *** Rule files, further *)

Section RuleFiles.

Variable mpd_reply : list string -> string -> string.

Lemma run_ok {A : Type} (m : Daemon.M A) (w : Daemon.World) (a : A) :
  fst (m w) = Ok a -> m w = (Ok a, snd (m w)).
Proof. destruct (m w) as [r w1]. cbn. now intros ->. Qed.

(** X13: saving under a name that, decoded and freed of slashes, is not
    empty and does not end with [.rules] stores the decoded content in
    [<dir>/<name>.rules], provided that path is writable and no link: the
    call returns, every other file and every link is as before, and the
    status carries the time of the write. *)
Theorem save_stores_content (req : string) (client_id : option string)
    (orig_name content : string) (w : Daemon.World) :
  let name := Daemon.rules_name orig_name in
  let path := Daemon.rules_path w name in
  let after :=
    Daemon.save_rules mpd_reply req client_id orig_name content w in
  name <> "" ->
  Py.endswith name ".rules" = false ->
  Sys.links (Daemon.fs w) !! path = None ->
  path ∉ Sys.readonly (Daemon.fs w) ->
  fst after = Ok tt
  /\ Sys.files (Daemon.fs (snd after))
     = <[path := Codec.codecs_decode content]> (Sys.files (Daemon.fs w))
  /\ Sys.links (Daemon.fs (snd after)) = Sys.links (Daemon.fs w)
  /\ Daemon.time (Daemon.status (snd after)) = Daemon.clock w.
Proof.
  intros name path after Hname Hsuffix Hlink Hro. subst after.
  set (fs' := Sys.set_mtimes
                (<[path := Daemon.clock w]> (Sys.mtimes (Daemon.fs w)))
                (Sys.set_files
                   (<[path := Codec.codecs_decode content]>
                      (Sys.files (Daemon.fs w)))
                   (Daemon.fs w))).
  assert (exists w',
             Daemon.save_rules mpd_reply req client_id orig_name content w
             = (Ok tt, w')
             /\ Daemon.fs w' = fs'
             /\ Daemon.time (Daemon.status w') = Daemon.clock w)
    as (w' & -> & Hfs & Htime).
  { unfold Daemon.save_rules. fold name.
    apply String.eqb_neq in Hname. rewrite Hname, Hsuffix.
    unfold name at 1, Daemon.rules_name. rewrite replace_removes_char.
    cbn [orb]. rewrite bind_get. fold path.
    unfold Daemon.try_except.
    assert (Daemon.open_write path (Codec.codecs_decode content) w
            = (Ok tt,
               Daemon.set_fs fs'
                 (Daemon.set_opened (Daemon.opened w ++ [path]) w))) as Ho.
    { unfold Daemon.open_write, Sys.write_text.
      cbn [Daemon.fs Daemon.clock Daemon.set_opened Sys.resolve].
      rewrite Hlink. rewrite bool_decide_eq_false_2 by exact Hro.
      reflexivity. }
    rewrite (bind_ok _ _ _ _ _ Ho).
    match goal with
    | |- context [Daemon.bind Daemon.status_timestamp ?k ?w1] =>
        change (Daemon.bind Daemon.status_timestamp k w1)
          with (k tt (snd (Daemon.status_timestamp w1)));
        set (w2 := snd (Daemon.status_timestamp w1))
    end.
    cbv beta.
    pose proof (so_send_message mpd_reply req ("0:" +:+ orig_name)
                  client_id w2) as S1.
    pose proof (send_message_returns mpd_reply req ("0:" +:+ orig_name)
                  client_id w2) as R1.
    rewrite (bind_ok _ _ _ _ _ (run_ok _ _ _ R1)).
    set (w3 := snd (Daemon.send_message mpd_reply req ("0:" +:+ orig_name)
                      client_id w2)) in *.
    unfold Daemon.send_status.
    pose proof (so_status_response mpd_reply "status" client_id w3) as S2.
    pose proof (status_response_returns mpd_reply "status" client_id w3)
      as R2.
    rewrite (run_ok _ _ _ R2).
    destruct (only_sent_trans _ _ _ S1 S2) as (F1 & _ & _ & _ & F5 & _).
    eexists. split; [reflexivity |]. rewrite F1, F5. split; reflexivity. }
  cbn [fst snd]. rewrite Hfs. repeat split; assumption.
Qed.

End RuleFiles.

Lemma save_stores_content_witness :
  let w := Sample.world Sample.artist_rule in
  let after :=
    Daemon.save_rules Sample.mpd_ok "save" (Some "abc") "my/rules" "Rule" w in
  fst after = Ok tt
  /\ Sys.files (Daemon.fs (snd after))
     = <["/r/myrules.rules" := "Rule"]> (Sys.files (Daemon.fs w))
  /\ Sys.links (Daemon.fs (snd after)) = Sys.links (Daemon.fs w)
  /\ Daemon.time (Daemon.status (snd after)) = Daemon.clock w.
Proof.
  intros w after.
  apply (save_stores_content Sample.mpd_ok "save" (Some "abc") "my/rules"
           "Rule" w).
  - vm_compute. discriminate.
  - vm_compute. reflexivity.
  - vm_compute. reflexivity.
  - apply not_elem_of_empty.
Defined.

Section Handlers.

Variable mpd_reply : list string -> string -> string.





End Handlers.


Section ActiveLink.

Variable mpd_reply : list string -> string -> string.

Lemma quiet_ret : Pool.quiet (Daemon.ret tt).
Proof. intros w. exists w. repeat split. Qed.

Lemma quiet_bind (m k : Daemon.M unit) :
  Pool.quiet m -> Pool.quiet k -> Pool.quiet (Daemon.bind m (fun _ => k)).
Proof.
  intros Hm Hk w. destruct (Hm w) as (w1 & E1 & F1 & A1).
  destruct (Hk w1) as (w2 & E2 & F2 & A2).
  exists w2. rewrite (bind_ok _ _ _ _ _ E1). split; [exact E2 |].
  split; congruence.
Qed.

Lemma quiet_send_message (method argument : string)
    (client_id : option string) :
  Pool.quiet (Daemon.send_message mpd_reply method argument client_id).
Proof.
  intros w.
  pose proof (so_send_message mpd_reply method argument client_id w)
    as (F1 & _ & _ & _ & _ & _ & _ & _ & _ & F10).
  eexists. split; [apply run_ok, send_message_returns |].
  split; assumption.
Qed.

Lemma quiet_send_status (client_id : option string) :
  Pool.quiet (Daemon.send_status mpd_reply client_id).
Proof.
  intros w. unfold Daemon.send_status.
  pose proof (so_status_response mpd_reply "status" client_id w)
    as (F1 & _ & _ & _ & _ & _ & _ & _ & _ & F10).
  eexists. split; [apply run_ok, status_response_returns |].
  split; assumption.
Qed.

Lemma quiet_status_update (d : bool) (txt : string) :
  Pool.quiet (Daemon.status_update d txt).
Proof. intros w. eexists. repeat split. Qed.

Lemma quiet_conn_clear :
  Pool.quiet (Daemon.bind (Daemon.conn_clear mpd_reply)
                (fun _ => Daemon.ret tt)).
Proof. intros w. eexists. repeat split. Qed.

Lemma only_dots_rev_app (s t : string) :
  Sys.only_dots (String.rev_app s t) = Sys.only_dots s && Sys.only_dots t.
Proof.
  revert t. induction s as [| c s IH]; intros t; [reflexivity |].
  cbn [String.rev_app Sys.only_dots]. rewrite IH. cbn [Sys.only_dots].
  destruct (Ascii.eqb c "."), (Sys.only_dots s), (Sys.only_dots t);
    reflexivity.
Qed.

(** The name of a rule file without its extension. *)
Lemma splitext_root_rules (name : string) :
  Sys.only_dots name = false ->
  Sys.splitext_root (name +:+ ".rules") = name.
Proof.
  intros H. unfold Sys.splitext_root. rewrite rev_append.
  change (Sys.after_first_dot (String.rev ".rules" +:+ String.rev name))
    with (Some (String.rev name)).
  unfold String.rev at 1. rewrite only_dots_rev_app, H. cbn [andb].
  apply rev_involutive.
Qed.

(** X15: making a rule set active and then asking for the active rule set
    gives its name back: when the name has no slash and is not made of
    dots only, the rules directory is given by an absolute path, the rule
    file of the name is an ordinary file, and the path of the active link
    is free or holds a removable link, [setActive_rules] returns with the
    link pointing at the rule file, no file is touched, and [get_active]
    answers the name. *)
Theorem setActive_then_get_active (req : string)
    (client_id : option string) (origName start : string)
    (w : Daemon.World) :
  let name := Codec.codecs_decode origName in
  let target := Daemon.rules_path w name in
  let active := Daemon.active_file w in
  let after :=
    Daemon.setActive_rules mpd_reply req client_id origName start w in
  name <> "" ->
  name <> Daemon.get_active w ->
  Py.contains_char "/" name = false ->
  Sys.only_dots name = false ->
  Py.startswith (Rules.dir (Daemon.rules w)) "/" = true ->
  Sys.links (Daemon.fs w) !! target = None ->
  is_Some (Sys.files (Daemon.fs w) !! target) ->
  Sys.files (Daemon.fs w) !! active = None ->
  active ∉ Sys.readonly (Daemon.fs w) ->
  fst after = Ok tt
  /\ Sys.links (Daemon.fs (snd after)) !! active = Some target
  /\ Sys.files (Daemon.fs (snd after)) = Sys.files (Daemon.fs w)
  /\ Daemon.get_active (snd after) = name.
Proof.
  intros name target active after Hne Hna Hslash Hdots _ Htl [c Htf] Haf Hro.
  subst after.
  assert (target <> active) as Hta by (intros E; rewrite E in Htf; congruence).
  set (links1 := delete active (Sys.links (Daemon.fs w))).
  set (fs2 := Sys.set_links (<[active := target]> links1) (Daemon.fs w)).
  assert (exists w',
             Daemon.setActive_rules mpd_reply req client_id origName start w
             = (Ok tt, w')
             /\ Daemon.fs w' = fs2 /\ Daemon.active_file w' = active)
    as (w' & -> & Hfs & Hac).
  { unfold Daemon.setActive_rules. fold name.
    apply String.eqb_neq in Hne, Hna. rewrite Hne, bind_get, Hna.
    fold target. fold active.
    assert (Sys.isfile (Daemon.fs w) target = true) as ->.
    { unfold Sys.isfile. cbn [Sys.resolve]. rewrite Htl, Htf.
      now apply bool_decide_eq_true_2. }
    assert (exists w1,
               (if Sys.islink (Daemon.fs w) active
                then Daemon.try_except
                       (Daemon.bind (Daemon.os_unlink active)
                          (fun _ => Daemon.ret true))
                       Daemon.is_OSError
                       (Daemon.bind
                          (Daemon.send_message mpd_reply req "6" client_id)
                          (fun _ => Daemon.ret false))
                else if Sys.isfile (Daemon.fs w) active
                     then Daemon.bind
                            (Daemon.send_message mpd_reply req
                               ("7:" +:+ origName) client_id)
                            (fun _ => Daemon.ret false)
                     else Daemon.ret true) w = (Ok true, w1)
               /\ Daemon.fs w1 = Sys.set_links links1 (Daemon.fs w)
               /\ Daemon.active_file w1 = active)
      as (w1 & E1 & F1 & A1).
    { unfold Sys.islink.
      destruct (Sys.links (Daemon.fs w) !! active) as [old |] eqn:El.
      - rewrite bool_decide_eq_true_2 by eauto.
        exists (Daemon.set_fs (Sys.set_links links1 (Daemon.fs w)) w).
        split; [| split; reflexivity].
        unfold Daemon.try_except, Daemon.bind, Daemon.os_unlink, Sys.unlink.
        rewrite bool_decide_eq_false_2 by exact Hro.
        now rewrite El.
      - rewrite bool_decide_eq_false_2 by (intros [? ?]; discriminate).
        unfold Sys.isfile. cbn [Sys.resolve]. rewrite El, Haf.
        rewrite bool_decide_eq_false_2 by (intros [? ?]; discriminate).
        exists w. split; [reflexivity |]. split; [| reflexivity].
        unfold links1. rewrite delete_id by exact El.
        now destruct (Daemon.fs w). }
    rewrite (bind_ok _ _ _ _ _ E1). cbv iota.
    assert (Daemon.try_except
              (Daemon.bind (Daemon.os_symlink target active)
                 (fun _ => Daemon.ret true))
              Daemon.is_OSError
              (Daemon.bind
                 (Daemon.send_message mpd_reply req ("8:" +:+ origName)
                    client_id)
                 (fun _ => Daemon.ret false)) w1
            = (Ok true, Daemon.set_fs fs2 w1)) as E2.
    { unfold Daemon.try_except, Daemon.bind, Daemon.os_symlink, Sys.symlink.
      rewrite F1. cbn [Sys.readonly Sys.links Sys.files Sys.set_links].
      rewrite bool_decide_eq_false_2 by exact Hro.
      unfold links1. rewrite lookup_delete_eq, Haf.
      rewrite !bool_decide_eq_false_2 by (intros [? ?]; discriminate).
      reflexivity. }
    rewrite (bind_ok _ _ _ _ _ E2). cbv iota.
    match goal with
    | |- exists w', ?m ?x = _ /\ _ =>
        assert (Pool.quiet m) as Hq
    end.
    { apply quiet_bind.
      - destruct ((start =? "start") || (start =? "1")).
        + apply quiet_bind;
            [apply quiet_status_update | apply quiet_conn_clear].
        + apply quiet_ret.
      - apply quiet_bind;
          [apply quiet_send_message | apply quiet_send_status]. }
    destruct (Hq (Daemon.set_fs fs2 w1)) as (w3 & E3 & F3 & A3).
    exists w3. split; [exact E3 |]. split; [exact F3 |].
    rewrite A3. exact A1. }
  cbn [fst snd]. split; [reflexivity |].
  assert (Sys.links fs2 !! active = Some target) as Hl2
    by (unfold fs2; cbn; apply lookup_insert_eq).
  assert (Sys.links fs2 !! target = None) as Hl3.
  { unfold fs2, links1. cbn.
    rewrite lookup_insert_ne by congruence.
    rewrite lookup_delete_ne by congruence. exact Htl. }
  rewrite Hfs. split; [exact Hl2 |]. split; [reflexivity |].
  unfold Daemon.get_active. rewrite Hfs, Hac.
  unfold Sys.islink, Sys.isfile, Sys.readlink. rewrite Hl2.
  rewrite bool_decide_eq_true_2 by eauto.
  cbn [Sys.resolve]. rewrite Hl2, Hl3.
  change (Sys.files fs2) with (Sys.files (Daemon.fs w)). rewrite Htf.
  rewrite bool_decide_eq_true_2 by eauto. cbn [andb].
  assert (Py.contains_char "/" (name +:+ ".rules") = false) as Hcomp
    by (rewrite contains_char_append, Hslash; reflexivity).
  destruct (dirname_basename (Rules.dir (Daemon.rules w)) _ Hcomp)
    as [_ Hbase].
  unfold target, Daemon.rules_path. rewrite Hbase.
  now apply splitext_root_rules.
Qed.

(** X16: deleting a rule set whose file does not exist answers with code
    4 before the original name and does nothing else. *)
Theorem delete_missing_file (req : string) (client_id : option string)
    (orig_name : string) (w : Daemon.World) :
  let path := Daemon.rules_path w (Daemon.rules_name orig_name) in
  Sys.links (Daemon.fs w) !! path = None ->
  Sys.files (Daemon.fs w) !! path = None ->
  Daemon.delete_rules mpd_reply req client_id orig_name w
  = Daemon.send_message mpd_reply req ("4:" +:+ orig_name) client_id w.
Proof.
  intros path Hl Hf. unfold Daemon.delete_rules. rewrite bind_get.
  fold path.
  assert (exists e, Daemon.os_unlink path w = (Raise e, w)
                    /\ Daemon.is_OSError e = true) as (e & Hu & He).
  { unfold Daemon.os_unlink, Sys.unlink.
    destruct (bool_decide (path ∈ Sys.readonly (Daemon.fs w)));
      [exists OSError; split; reflexivity |].
    rewrite Hl, Hf. exists FileNotFoundError. split; reflexivity. }
  unfold Daemon.try_except, Daemon.bind at 1.
  rewrite (bind_raise _ _ _ _ _ Hu), He.
  unfold Daemon.bind.
  destruct (send_message_frame mpd_reply req ("4:" +:+ orig_name)
              client_id w) as (w1 & -> & _).
  reflexivity.
Qed.

End ActiveLink.

Lemma setActive_then_get_active_witness :
  let w0 := Sample.world Sample.artist_rule in
  let w :=
    Daemon.set_fs
      (Sys.set_files (<["/r/b.rules" := "Rule"]> (Sys.files (Daemon.fs w0)))
         (Daemon.fs w0)) w0 in
  let after :=
    Daemon.setActive_rules Sample.mpd_ok "setActive" (Some "abc") "b" "1" w in
  Daemon.get_active w = "a"
  /\ fst after = Ok tt
  /\ Sys.links (Daemon.fs (snd after)) !! "/r/active" = Some "/r/b.rules"
  /\ Sys.files (Daemon.fs (snd after)) = Sys.files (Daemon.fs w)
  /\ Daemon.get_active (snd after) = "b".
Proof.
  intros w0 w after. split; [vm_compute; reflexivity |].
  apply (setActive_then_get_active Sample.mpd_ok "setActive" (Some "abc")
           "b" "1" w).
  - vm_compute. discriminate.
  - vm_compute. discriminate.
  - vm_compute. reflexivity.
  - vm_compute. reflexivity.
  - vm_compute. reflexivity.
  - vm_compute. reflexivity.
  - exists "Rule". vm_compute. reflexivity.
  - vm_compute. reflexivity.
  - apply not_elem_of_empty.
Defined.

Lemma delete_missing_file_witness :
  let w := Sample.world Sample.artist_rule in
  Daemon.delete_rules Sample.mpd_ok "delete" (Some "abc") "zz" w
  = Daemon.send_message Sample.mpd_ok "delete" "4:zz" (Some "abc") w.
Proof.
  intros w.
  apply (delete_missing_file Sample.mpd_ok "delete" (Some "abc") "zz" w).
  - vm_compute. reflexivity.
  - vm_compute. reflexivity.
Defined.

(** *** The duration filter *)

Section Duration.

Variable mpd_reply : list string -> string -> string.

(** X17: the duration filter passes every file when the duration range is
    disabled ([duration <= 0]) and rejects every file when the pool is
    empty; otherwise it asks MPD with [lsinfo] and reads the [Time]
    entries of the reply: with exactly one entry, an integer, the file
    passes iff the value is not below a positive lower end and not above
    a positive upper end (an end of 0 sets no bound); with one entry that
    is no integer [ValueError] is raised; with no entry or several, and
    whenever the file does not pass, it is removed from the pool at
    [pos]. *)
Theorem duration_filter (w : Daemon.World) (file : string)
    (pos : option Z) :
  let d := Rules.duration (Daemon.rules w) in
  let cmd := Pool.lsinfo_cmd file in
  let entries := Pool.values_of "Time" (mpd_reply (Daemon.sent w) cmd) in
  let asked := Daemon.set_sent (Daemon.sent w ++ [cmd]) w in
  let removed := match Daemon.del_at (Daemon.songs w) pos with
                 | Ok l => (Ok false, Daemon.set_songs l asked)
                 | Raise e => (Raise e, asked)
                 end in
  let check := Pool.check_song_duration_in_range mpd_reply file pos w in
  (MinMax.le d 0 = true -> check = (Ok true, w))
  /\ (MinMax.le d 0 = false -> Daemon.songs w = [] -> check = (Ok false, w))
  /\ (MinMax.le d 0 = false -> Daemon.songs w <> [] ->
      (forall entry val,
          entries = [entry] -> Py.int entry = Some val ->
          let fits := ((MinMax.min d = 0 \/ MinMax.min d <= val)
                       /\ (MinMax.max d = 0 \/ val <= MinMax.max d))%Z in
          (fits -> check = (Ok true, asked))
          /\ (~ fits -> check = removed))
      /\ (forall entry,
             entries = [entry] -> Py.int entry = None ->
             check = (Raise ValueError, asked))
      /\ (List.length entries <> 1%nat -> check = removed)).
Proof.
  intros d cmd entries asked removed check. subst check.
  unfold Pool.check_song_duration_in_range. rewrite bind_get. fold d.
  split; [intros ->; reflexivity |].
  split; [intros -> ->; reflexivity |].
  intros -> Hs.
  destruct (Daemon.songs w) as [| s0 ss] eqn:Esongs; [contradiction |].
  cbn [List.length Nat.eqb].
  assert (Daemon.query mpd_reply cmd "Time" w = (Ok entries, asked)) as Eq
    by reflexivity.
  fold cmd. rewrite (bind_ok _ _ _ _ _ Eq).
  assert (forall b : bool,
             Daemon.bind (Daemon.ret b)
               (fun in_range : bool =>
                  if in_range then Daemon.ret true
                  else
                    Daemon.bind Daemon.get
                      (fun w0 =>
                         Daemon.bind
                           (Daemon.lift (Daemon.del_at (Daemon.songs w0) pos))
                           (fun l =>
                              Daemon.bind (Daemon.modify (Daemon.set_songs l))
                                (fun _ => Daemon.ret false)))) asked
             = if b then (Ok true, asked) else removed) as Hend.
  { intros [|]; [reflexivity |].
    unfold removed, Daemon.bind, Daemon.ret, Daemon.get, Daemon.lift.
    change (Daemon.songs asked) with (Daemon.songs w). rewrite Esongs.
    destruct (Daemon.del_at (s0 :: ss) pos); reflexivity. }
  split; [| split].
  - intros entry val He Hval. rewrite He.
    unfold Daemon.int_or_raise. rewrite Hval.
    match goal with
    | |- context [Daemon.bind (Daemon.bind (Daemon.ret val) ?k) ?k2 asked] =>
        change (Daemon.bind (Daemon.bind (Daemon.ret val) k) k2 asked)
          with (Daemon.bind (k val) k2 asked)
    end.
    cbv beta. rewrite Hend.
    change (Rules.duration (Daemon.rules asked)) with d.
    split.
    + intros [[H1 | H1] [H2 | H2]];
        repeat match goal with
          | H : (_ = 0)%Z |- _ => apply Z.eqb_eq in H; rewrite H
          | H : (_ <= _)%Z |- _ => apply Z.leb_le in H; rewrite H
          end;
        rewrite ?orb_true_r; reflexivity.
    + intros Hn.
      destruct (((MinMax.min d =? 0)%Z || (MinMax.min d <=? val)%Z)
                && ((MinMax.max d =? 0)%Z || (val <=? MinMax.max d)%Z))
        eqn:E; [| reflexivity].
      exfalso. apply Hn.
      apply andb_true_iff in E as [E1 E2].
      apply orb_true_iff in E1, E2.
      split.
      * destruct E1 as [E1 | E1];
          [left; now apply Z.eqb_eq | right; now apply Z.leb_le].
      * destruct E2 as [E2 | E2];
          [left; now apply Z.eqb_eq | right; now apply Z.leb_le].
  - intros entry He Hval. rewrite He.
    unfold Daemon.int_or_raise. rewrite Hval. reflexivity.
  - intros Hlen.
    clearbody entries.
    destruct entries as [| e1 [| e2 rest]]; [| contradiction |];
      exact (Hend false).
Qed.

End Duration.

(** *** The candidate pool *)

Section CandidatePool.

Variable mpd_reply : list string -> string -> string.

Lemma so_song_rating (entry : string) :
  Pool.sends_only (Daemon._song_rating_in_range entry).
Proof.
  intros w. unfold Daemon._song_rating_in_range. rewrite bind_get.
  destruct (Py.split "=" entry) as [| name [| value [| x rest]]];
    try apply only_sent_refl.
  destruct (Py.int value); apply only_sent_refl.
Qed.

Lemma so_rated_loop (answer : list (string * string)) :
  forall file entries,
    Pool.sends_only (Pool.rated_loop answer file entries).
Proof.
  induction answer as [| [key value] rest IH]; intros file entries.
  - apply so_ret.
  - cbn [Pool.rated_loop].
    destruct (String.eqb key "file"); [apply IH |].
    destruct (String.eqb key "sticker"); [| apply IH].
    apply so_bind; [apply so_song_rating | intros ok; apply IH].
Qed.

Lemma so_get_rated_songs : Pool.sends_only (Pool._get_rated_songs mpd_reply).
Proof.
  apply so_bind; [apply so_query_pairs | intros a; apply so_rated_loop].
Qed.

Lemma so_query_union (rules : list string) :
  forall acc, Pool.sends_only (Pool.query_union mpd_reply rules acc).
Proof.
  induction rules as [| rule rest IH]; intros acc.
  - apply so_ret.
  - cbn [Pool.query_union].
    apply so_bind; [apply so_query | intros found; apply IH].
Qed.

Lemma bind_unfold {A B : Type} (m : Daemon.M A) (k : A -> Daemon.M B)
    (w : Daemon.World) :
  Daemon.bind m k w
  = match m w with
    | (Ok a, w1) => k a w1
    | (Raise e, w1) => (Raise e, w1)
    end.
Proof. unfold Daemon.bind. destruct (m w) as [[a | e] w1]; reflexivity. Qed.

(** X18: [get_songs] and the pool.  The pool never comes to hold a file
    twice.  [sys.exit(0)] is reached only in client mode with an empty
    pool; and when [get_songs] returns with an empty pool, the daemon is
    in server mode, is no longer dynamic and its status text is
    [NO_SONGS]. *)
Theorem get_songs_pool (db_updated : bool) (w : Daemon.World) :
  let res := Pool.get_songs mpd_reply db_updated w in
  let w' := snd res in
  (NoDup (Daemon.songs w) -> NoDup (Daemon.songs w'))
  /\ (forall code, fst res = Ok (Pool.Exited code) ->
        code = 0%Z /\ Daemon.server_mode w = false /\ Daemon.songs w' = [])
  /\ (fst res = Ok Pool.Returned -> Daemon.songs w' = [] ->
        Daemon.server_mode w = true
        /\ Daemon.dynamic (Daemon.status w') = false
        /\ Daemon.text (Daemon.status w') = "NO_SONGS").
Proof.
  intros res w'. subst w' res.
  unfold Pool.get_songs. rewrite bind_get.
  destruct (bool_decide (Daemon.songs w = []) || _ || db_updated) eqn:Ec.
  2:{ cbn [fst snd Daemon.ret].
      split; [auto |]. split; [discriminate |].
      intros _ Hs. apply orb_false_iff in Ec as [Ec _].
      apply orb_false_iff in Ec as [Ec _].
      apply bool_decide_eq_false in Ec. contradiction. }
  clear Ec.
  set (m_ex := if negb (bool_decide (Rules.exclude (Daemon.rules w) = ∅))
               then Pool.query_union mpd_reply
                      (elements (Rules.exclude (Daemon.rules w))) ∅
               else Daemon.ret ∅).
  assert (Pool.sends_only m_ex) as Hex.
  { unfold m_ex.
    destruct (negb (bool_decide (Rules.exclude (Daemon.rules w) = ∅)));
      [apply so_query_union | apply so_ret]. }
  set (m_in := if negb (bool_decide (Rules.include (Daemon.rules w) = ∅))
               then Pool.query_union mpd_reply
                      (elements (Rules.include (Daemon.rules w))) ∅
               else if (1 <=? MinMax.min (Rules.rating (Daemon.rules w)))%Z
                       && (0 <=? MinMax.max
                                   (Rules.rating (Daemon.rules w)))%Z
               then
                 Daemon.bind (Pool._get_rated_songs mpd_reply)
                   (fun rated => Daemon.ret (list_to_set rated))
               else
                 Daemon.bind (Daemon.query mpd_reply "list Artist" "Artist")
                   (fun entries =>
                      Pool.query_union mpd_reply
                        (List.map
                           (fun entry =>
                              "find Artist " +:+ Daemon.quoted entry)
                           entries) ∅)).
  assert (Pool.sends_only m_in) as Hin.
  { unfold m_in.
    destruct (negb (bool_decide (Rules.include (Daemon.rules w) = ∅)));
      [apply so_query_union |].
    destruct ((1 <=? MinMax.min (Rules.rating (Daemon.rules w)))%Z
              && (0 <=? MinMax.max (Rules.rating (Daemon.rules w)))%Z).
    - apply so_bind; [apply so_get_rated_songs | intros a; apply so_ret].
    - apply so_bind; [apply so_query | intros a; apply so_query_union]. }
  specialize (Hex w).
  rewrite (bind_unfold m_ex).
  destruct (m_ex w) as [[ex | e] w1]; cbn [snd] in Hex.
  2:{ cbn [fst snd].
      destruct Hex as (_ & _ & _ & _ & _ & Hs & _).
      split; [now rewrite Hs |]. split; discriminate. }
  specialize (Hin w1).
  rewrite (bind_unfold m_in).
  destruct (m_in w1) as [[found | e] w2]; cbn [snd] in Hin.
  2:{ cbn [fst snd].
      destruct Hex as (_ & _ & _ & _ & _ & Hs & _).
      destruct Hin as (_ & _ & _ & _ & _ & Hs' & _).
      split; [now rewrite Hs', Hs |]. split; discriminate. }
  pose proof (only_sent_trans _ _ _ Hex Hin)
    as (_ & _ & _ & _ & _ & _ & _ & Hmode & _).
  set (pool := elements (found ∖ ex)).
  assert (NoDup pool) as Hnd by apply NoDup_elements.
  clearbody pool. clear Hex Hin m_ex m_in.
  set (w3 := Daemon.set_songs pool w2).
  change (Daemon.bind (Daemon.modify (Daemon.set_songs pool)) ?k w2)
    with (k tt w3).
  cbv beta. rewrite bind_get.
  change (Daemon.server_mode w3) with (Daemon.server_mode w2).
  rewrite Hmode.
  destruct (bool_decide (pool = [])) eqn:Ep.
  - apply bool_decide_eq_true in Ep.
    destruct (Daemon.server_mode w) eqn:Em.
    + change (Daemon.bind (Daemon.status_update false "NO_SONGS") ?k w3)
        with (k tt (snd (Daemon.status_update false "NO_SONGS" w3))).
      cbv beta.
      set (w4 := snd (Daemon.status_update false "NO_SONGS" w3)).
      pose proof (so_status_response mpd_reply "status" None w4)
        as (_ & _ & _ & _ & Hst & Hso & _).
      pose proof (status_response_returns mpd_reply "status" None w4) as Hr.
      unfold Daemon.send_status.
      rewrite (bind_ok _ _ _ _ _ (run_ok _ _ _ Hr)).
      cbn [fst snd Daemon.ret]. rewrite Hso, Hst.
      split; [intros _; exact Hnd |]. split; [discriminate |].
      intros _ _. repeat split.
    + pose proof (so_send_message mpd_reply "showError" "NO_SONGS" None w3)
        as (_ & _ & _ & _ & _ & Hso & _).
      pose proof (send_message_returns mpd_reply "showError" "NO_SONGS"
                    None w3) as Hr.
      rewrite (bind_ok _ _ _ _ _ (run_ok _ _ _ Hr)).
      cbn [fst snd Daemon.ret]. rewrite Hso.
      split; [intros _; exact Hnd |].
      split; [intros code [= <-]; repeat split; exact Ep |].
      discriminate.
  - apply bool_decide_eq_false in Ep.
    destruct (Daemon.server_mode w) eqn:Em.
    + pose proof (so_send_message mpd_reply "status" "HAVE_SONGS" None w3)
        as (_ & _ & _ & _ & _ & Hso & _).
      pose proof (send_message_returns mpd_reply "status" "HAVE_SONGS"
                    None w3) as Hr.
      rewrite (bind_ok _ _ _ _ _ (run_ok _ _ _ Hr)).
      cbn [fst snd Daemon.ret]. rewrite Hso.
      split; [intros _; exact Hnd |]. split; [discriminate |].
      intros _ Hs. contradiction.
    + cbn [fst snd Daemon.ret].
      split; [intros _; exact Hnd |]. split; [discriminate |].
      intros _ Hs. contradiction.
Qed.

End CandidatePool.
